(** * Vault transaction orchestrator: registry, amount input, allocation,
      reconciliation and the deposit state machine.

    Shallow embedding of
      - utils/contracts   (CONTRACT_ADDRESSES, USDC_ADDRESSES,
                           getContractAddress, getUSDCAddress),
      - BalanceFigma      (sanitizeAmountInput, isValidAmount, the deposit
                           handlers and the transaction watcher effect),
      - useAllocationData (getVaultBalance, fetchAllocationData),
      - usePerformanceData (user vault value and share price),
      - TransactionStatusContext and MessageStateContext (the message
                           lists and the persisted history),
      - WelcomeContext, TermsModal, ActivityGraphQL and the NEAR contract
                           reader.

    Conventions.  A JavaScript [bigint] is a [Z]; a [number] that only ever
    holds an integer (a chain id, a percentage) is a [Z]; a [number] used in
    arithmetic is an IEEE-754 binary64 [float]; a string is a [string] of
    8-bit code units, text outside ASCII being held as the bytes the source
    file has for it.  [undefined] and [null] are [None].  A function that
    may throw returns a [Result]. *)

From Stdlib Require Import ZArith List Bool Ascii String Lia Permutation.
From Stdlib Require Import Floats.
From Stdlib Require DecimalString.
Import ListNotations.

Set Warnings "-inexact-float,-register-all".

Local Open Scope string_scope.
Local Open Scope Z_scope.

(** ** Results of code that may throw *)

Inductive Result (A : Type) : Type :=
| Ok (a : A)
| Throw (message : string).
Arguments Ok {A} a.
Arguments Throw {A} message.

(** The decimal digits of an integer: [toString()] of a [bigint], and the
    template-literal interpolation [`${n}`] of a [number] that holds an
    integer of magnitude below 10^21 -- from there on JavaScript prints a
    number in exponent notation, which this is not. *)
Definition string_of_Z (n : Z) : string :=
  DecimalString.NilZero.string_of_int (Z.to_int n).

(** ** ChainRegistry (utils/contracts) *)

Module ChainRegistry.

Record AddressTable : Type := {
  localhost : string;
  ethereum : string;
  baseSepolia : string;
  arbitrumSepolia : string;
  optimismSepolia : string
}.

Definition CONTRACT_ADDRESSES : AddressTable := {|
  localhost := "0x610178dA211FEF7D417bC0e6FeD39F05609AD788";
  ethereum := "0x87870Bca3F3fD6335C3F4ce8392D69350B4fA4E2";
  baseSepolia := "0x773035EABdA16B5416B26E12156483C6B6F56451";
  arbitrumSepolia := "0xE168d95f8d1B8EC167A63c8E696076EC8EE95337";
  optimismSepolia := ""
|}.

Definition USDC_ADDRESSES : AddressTable := {|
  localhost := "0x16f18Ee01365Ef23E0564dfB635215A5B4Eaa3c4";
  ethereum := "0xA0b86a33E6441E43941295AaE15D29a6E6e98959";
  baseSepolia := "0x036CbD53842c5426634e7929541eC2318f3dCF7e";
  arbitrumSepolia := "0x75faf114eafb1BDbe2F0316DF893fd58CE46AA4d";
  optimismSepolia := "0x5fd84259d66Cd46123540766Be93DFE6D43130D7"
|}.

(** [!s] on a string: only the empty string is falsy. *)
Definition is_empty (s : string) : bool :=
  match s with EmptyString => true | String _ _ => false end.

(** The text of the [default] case.  It is the source's text for a chain
    id that JavaScript prints digit by digit (magnitude below 10^21), as
    every chain id in use is. *)
Definition unsupported (chainId : Z) : string :=
  "Unsupported chain ID: " ++ string_of_Z chainId ++
  ". Supported networks: Ethereum (1), Base Sepolia (84532), Arbitrum Sepolia (421614), Optimism Sepolia (11155420), or Localhost (31337).".

(** The [switch] of the source, case by case, over an address table. *)
Definition getContractAddressIn (t : AddressTable) (chainId : Z)
  : Result string :=
  if chainId =? 31337 then Ok (localhost t)
  else if chainId =? 1 then Ok (ethereum t)
  else if chainId =? 84532 then Ok (baseSepolia t)
  else if chainId =? 421614 then
    if is_empty (arbitrumSepolia t)
    then Throw "AAVE Vault not yet deployed on Arbitrum Sepolia. Coming soon!"
    else Ok (arbitrumSepolia t)
  else if chainId =? 11155420 then
    if is_empty (optimismSepolia t)
    then Throw "AAVE Vault not yet deployed on Optimism Sepolia. Coming soon!"
    else Ok (optimismSepolia t)
  else Throw (unsupported chainId).

Definition getContractAddress : Z -> Result string :=
  getContractAddressIn CONTRACT_ADDRESSES.

Definition getUSDCAddressIn (t : AddressTable) (chainId : Z)
  : Result string :=
  if chainId =? 31337 then Ok (localhost t)
  else if chainId =? 1 then Ok (ethereum t)
  else if chainId =? 84532 then Ok (baseSepolia t)
  else if chainId =? 421614 then Ok (arbitrumSepolia t)
  else if chainId =? 11155420 then Ok (optimismSepolia t)
  else Throw (unsupported chainId).

Definition getUSDCAddress : Z -> Result string :=
  getUSDCAddressIn USDC_ADDRESSES.

(** The chain ids that the [switch] of both lookups has a [case] for. *)
Definition dispatched (chainId : Z) : bool :=
  (chainId =? 31337) || (chainId =? 1) || (chainId =? 84532)
  || (chainId =? 421614) || (chainId =? 11155420).

End ChainRegistry.

(** ** Strings as the program uses them *)

Module Str.

Definition is_digit (c : ascii) : bool :=
  let n := nat_of_ascii c in (48 <=? n)%nat && (n <=? 57)%nat.

Definition is_dot (c : ascii) : bool := Ascii.eqb c ".".

Fixpoint filter (p : ascii -> bool) (s : string) : string :=
  match s with
  | EmptyString => EmptyString
  | String c r => if p c then String c (filter p r) else filter p r
  end.

Fixpoint count (p : ascii -> bool) (s : string) : nat :=
  match s with
  | EmptyString => O
  | String c r => if p c then S (count p r) else count p r
  end.

Fixpoint forallb (p : ascii -> bool) (s : string) : bool :=
  match s with
  | EmptyString => true
  | String c r => p c && forallb p r
  end.

(** [s.split(sep)] for a one-character separator: never empty, one more
    part than there are separators. *)
Fixpoint split (sep : ascii) (s : string) : list string :=
  match s with
  | EmptyString => [EmptyString]
  | String c r =>
      if Ascii.eqb c sep then EmptyString :: split sep r
      else match split sep r with
           | [] => [String c EmptyString]
           | p :: ps => String c p :: ps
           end
  end.

(** [parts.join('')]. *)
Definition join (parts : list string) : string :=
  fold_right append EmptyString parts.

(** [s.slice(0, n)] for [0 <= n]. *)
Fixpoint take (n : nat) (s : string) : string :=
  match n, s with
  | O, _ => EmptyString
  | _, EmptyString => EmptyString
  | S k, String c r => String c (take k r)
  end.

(** [s.includes(needle)]. *)
Fixpoint includes (needle s : string) : bool :=
  String.prefix needle s
  || match s with
     | EmptyString => false
     | String _ r => includes needle r
     end.

(** [toLowerCase] as far as the program needs it: the result is only
    searched for lower-case ASCII words, so lowering A-Z is enough. *)
Definition lower_char (c : ascii) : ascii :=
  let n := nat_of_ascii c in
  if (65 <=? n)%nat && (n <=? 90)%nat then ascii_of_nat (n + 32) else c.

Fixpoint toLowerCase (s : string) : string :=
  match s with
  | EmptyString => EmptyString
  | String c r => String (lower_char c) (toLowerCase r)
  end.

Fixpoint drop (n : nat) (s : string) : string :=
  match n, s with
  | O, _ => s
  | _, EmptyString => EmptyString
  | S k, String _ r => drop k r
  end.

Fixpoint takeWhile (p : ascii -> bool) (s : string) : string :=
  match s with
  | EmptyString => EmptyString
  | String c r => if p c then String c (takeWhile p r) else EmptyString
  end.

Definition reverse (s : string) : string :=
  string_of_list_ascii (rev (list_ascii_of_string s)).

(** White space and line terminators among 8-bit code units. *)
Definition is_space (c : ascii) : bool :=
  let n := nat_of_ascii c in
  ((9 <=? n)%nat && (n <=? 13)%nat) || (n =? 32)%nat || (n =? 160)%nat.

Fixpoint trimStart (s : string) : string :=
  match s with
  | EmptyString => EmptyString
  | String c r => if is_space c then trimStart r else s
  end.

(** [s.trim()]. *)
Definition trim (s : string) : string :=
  reverse (trimStart (reverse (trimStart s))).

(** [s.split(needle)[0]] for a non-empty needle. *)
Fixpoint before (needle s : string) : string :=
  if String.prefix needle s then EmptyString
  else match s with
       | EmptyString => EmptyString
       | String c r => String c (before needle r)
       end.

(** The digits after the last decimal point; none when there is no point. *)
Definition fraction (s : string) : string :=
  match rev (split "." s) with
  | [] | [_] => EmptyString
  | f :: _ => f
  end.

End Str.

(** ** Amount input (BalanceFigma) *)

Module AmountInput.

(** The characters the amount field keeps: digits and the decimal point. *)
Definition amountChar (c : ascii) : bool := Str.is_digit c || Str.is_dot c.

(** [value.replace(/[^0-9.]/g, '')]. *)
Definition strip (value : string) : string := Str.filter amountChar value.

Definition sanitizeAmountInput (value : string) : string :=
  let sanitized := strip value in
  let parts := Str.split "." sanitized in
  let sanitized :=
    if (2 <? List.length parts)%nat
    then match parts with
         | p0 :: rest => p0 ++ "." ++ Str.join rest
         | [] => sanitized
         end
    else sanitized in
  let sanitized :=
    match parts with
    | [p0; p1] =>
        if (6 <? String.length p1)%nat
        then p0 ++ "." ++ Str.take 6 p1
        else sanitized
    | _ => sanitized
    end in
  sanitized.

End AmountInput.

(** ** Fixed-point amounts as numbers *)

Module Units.

Definition prec : Z := 53.
Definition emax : Z := 1024.

Definition spec_of_Z (v : Z) : spec_float :=
  match v with
  | Z0 => S754_zero false
  | Zpos m => S754_finite false m 0
  | Zneg m => S754_finite true m 0
  end.

(** [Number(formatUnits(value, decimals))]: [formatUnits] prints the exact
    decimal expansion of [value / 10^decimals] and [Number] reads it back
    as the nearest binary64 value, so the composition is the correctly
    rounded quotient of the two integers. *)
Definition numberOfUnits (value : Z) (decimals : Z) : float :=
  SF2Prim (SFdiv prec emax (spec_of_Z value) (spec_of_Z (10 ^ decimals))).

End Units.

(** ** AllocationAggregator (useAllocationData) *)

Module Allocation.

Record AllocationItem : Type := {
  name : string;
  icon : string;
  apy : float;
  allocation : Z;
  color : string
}.

Record ChainConfig : Type := {
  chainId : Z;
  chainName : string;
  vaultAddress : option string;
  rpcUrl : string;
  viemChain : string
}.

Definition CHAIN_CONFIGS : list ChainConfig := [
  {| chainId := 421614; chainName := "Arbitrum Sepolia";
     vaultAddress := Some "0xE168d95f8d1B8EC167A63c8E696076EC8EE95337";
     rpcUrl := "https://sepolia-rollup.arbitrum.io/rpc";
     viemChain := "arbitrumSepolia" |};
  {| chainId := 84532; chainName := "Base Sepolia";
     vaultAddress := None;
     rpcUrl := "https://sepolia.base.org";
     viemChain := "baseSepolia" |};
  {| chainId := 11155420; chainName := "Optimism Sepolia";
     vaultAddress := None;
     rpcUrl := "https://sepolia.optimism.io";
     viemChain := "optimismSepolia" |};
  {| chainId := 11155111; chainName := "Ethereum Sepolia";
     vaultAddress := None;
     rpcUrl := "https://rpc.sepolia.org";
     viemChain := "sepolia" |}
].

(** Own-property lookup in an object literal used as a table. *)
Fixpoint lookup {A : Type} (table : list (string * A)) (key : string)
  : option A :=
  match table with
  | [] => None
  | (k, v) :: rest => if String.eqb k key then Some v else lookup rest key
  end.

Definition PROTOCOL_ICONS : list (string * string) := [
  ("ethereum", "/Chain=ETH.svg");
  ("base", "/Chain=BASE.svg");
  ("polygon", "/Chain=POL.svg");
  ("avalanche", "/Chain=AVA.svg");
  ("arbitrum", "/arbitrum-arb-logo.svg");
  ("optimism", "/optimism-ethereum-op-logo.svg");
  ("binance", "/Chain=BNB.svg");
  ("near", "/Chain=ETH.svg");
  ("localhost", "/Chain=ETH.svg");
  ("base sepolia", "/Chain=BASE.svg");
  ("arbitrum sepolia", "/arbitrum-arb-logo.svg");
  ("optimism sepolia", "/optimism-ethereum-op-logo.svg");
  ("ethereum sepolia", "/Chain=ETH.svg")
].

Definition PROTOCOL_COLORS : list (string * string) := [
  ("ethereum", "#627EEA");
  ("base", "#0052FF");
  ("polygon", "#8247E5");
  ("avalanche", "#E84142");
  ("arbitrum", "#213147");
  ("optimism", "#FF0420");
  ("binance", "#F3BA2F");
  ("near", "#00D395");
  ("localhost", "#888888");
  ("base sepolia", "#0052FF");
  ("arbitrum sepolia", "#213147");
  ("optimism sepolia", "#FF0420");
  ("ethereum sepolia", "#627EEA")
].

Definition apyEstimates : list (string * float) := [
  ("ethereum", 4.2%float);
  ("base", 3.8%float);
  ("polygon", 2.4%float);
  ("avalanche", 4.0%float);
  ("arbitrum", 3.5%float);
  ("optimism", 3.2%float);
  ("binance", 5.1%float);
  ("near", 7.2%float);
  ("localhost", 3.5%float);
  ("base sepolia", 3.8%float);
  ("arbitrum sepolia", 3.5%float);
  ("optimism sepolia", 3.2%float);
  ("ethereum sepolia", 4.2%float)
].

(** [table[key] || fallback]; no entry of the tables is falsy. *)
Definition or_default {A : Type} (o : option A) (fallback : A) : A :=
  match o with Some v => v | None => fallback end.

Definition calculateEstimatedAPY (protocol : string) : float :=
  or_default (lookup apyEstimates (Str.toLowerCase protocol)) 3.5%float.

Record BalanceResult : Type := {
  resultChainId : Z;
  balance : Z
}.

(** [!config.vaultAddress]: [null] and the empty string are falsy. *)
Definition no_vault (config : ChainConfig) : bool :=
  match vaultAddress config with
  | None => true
  | Some a => ChainRegistry.is_empty a
  end.

Section Aggregate.

(** [client.readContract({address, abi, functionName: 'totalAssets'})]
    through the public client of a configuration: the value read, or
    the failure it throws. *)
Variable readTotalAssets : ChainConfig -> Result Z.

Definition getVaultBalance (config : ChainConfig) : BalanceResult :=
  if no_vault config
  then {| resultChainId := chainId config; balance := 0 |}
  else match readTotalAssets config with
       | Ok totalAssets =>
           {| resultChainId := chainId config; balance := totalAssets |}
       | Throw _ =>
           {| resultChainId := chainId config; balance := 0 |}
       end.

(** [balanceResults.reduce((sum, result) => sum + result.balance, 0n)]. *)
Definition totalOf (balanceResults : list BalanceResult) : Z :=
  fold_left (fun sum result => sum + balance result) balanceResults 0.

(** [result?.balance || 0n]. *)
Definition balanceFor (balanceResults : list BalanceResult)
           (config : ChainConfig) : Z :=
  match find (fun r => resultChainId r =? chainId config) balanceResults
  with
  | Some result => balance result
  | None => 0
  end.

(** The percentage of one balance: [bigint] division truncates, and the
    quotient is converted to a [number] without loss. *)
Definition allocationPercent (totalRaw bal : Z) : Z :=
  if 0 <? totalRaw then Z.quot (bal * 100) totalRaw else 0.

Definition allocationItem (balanceResults : list BalanceResult)
           (totalRaw : Z) (config : ChainConfig) : AllocationItem :=
  let bal := balanceFor balanceResults config in
  let chainNameLower := Str.toLowerCase (chainName config) in
  {| name := chainName config;
     icon := or_default (lookup PROTOCOL_ICONS chainNameLower)
                        "/Chain=ETH.svg";
     apy := calculateEstimatedAPY (chainName config);
     allocation := allocationPercent totalRaw bal;
     color := or_default (lookup PROTOCOL_COLORS chainNameLower)
                         "#666666" |}.

(** [items.sort((a, b) => b.allocation - a.allocation)]: the sort is
    stable, so its result is the stable arrangement by descending
    allocation, which insertion from the right computes. *)
Fixpoint insertByAllocation (x : AllocationItem)
         (sorted : list AllocationItem) : list AllocationItem :=
  match sorted with
  | [] => [x]
  | y :: rest =>
      if allocation y - allocation x <=? 0 then x :: sorted
      else y :: insertByAllocation x rest
  end.

Definition sortByAllocation (items : list AllocationItem)
  : list AllocationItem :=
  fold_right insertByAllocation [] items.

Record AllocationData : Type := {
  allocations : list AllocationItem;
  totalValue : float;
  error : option string
}.

Definition mockAllocations : list AllocationItem := [
  {| name := "Ethereum Sepolia"; icon := "/Chain=ETH.svg";
     apy := 4.2%float; allocation := 44; color := "#627EEA" |};
  {| name := "Arbitrum Sepolia"; icon := "/arbitrum-arb-logo.svg";
     apy := 3.5%float; allocation := 27; color := "#213147" |};
  {| name := "Base Sepolia"; icon := "/Chain=BASE.svg";
     apy := 3.8%float; allocation := 14; color := "#0052FF" |};
  {| name := "Optimism Sepolia"; icon := "/optimism-ethereum-op-logo.svg";
     apy := 3.2%float; allocation := 15; color := "#FF0420" |}
].

(** One pass of [fetchAllocationData] over a list of configurations.
    Every read failure is caught inside [getVaultBalance], so the
    [catch] of the pass is never entered and [error] stays [null]. *)
Definition fetchAllocationDataOn (configs : list ChainConfig)
           (useMock : bool) : AllocationData :=
  if useMock
  then {| allocations := sortByAllocation mockAllocations;
          totalValue := 1234567%float;
          error := None |}
  else
    let balanceResults := map getVaultBalance configs in
    let totalRaw := totalOf balanceResults in
    let totalUSDC := Units.numberOfUnits totalRaw 6 in
    let allocationItems :=
      map (allocationItem balanceResults totalRaw) configs in
    {| allocations := sortByAllocation allocationItems;
       totalValue := totalUSDC;
       error := None |}.

Definition fetchAllocationData : bool -> AllocationData :=
  fetchAllocationDataOn CHAIN_CONFIGS.

Definition percentages (d : AllocationData) : list Z :=
  map allocation (allocations d).

Definition sumZ (l : list Z) : Z := fold_right Z.add 0 l.

(** Vault reads are unsigned integers. *)
Definition unsignedReads : Prop :=
  forall config v, readTotalAssets config = Ok v -> 0 <= v.

(** The raw balance a network contributes, and the total of a pass. *)
Definition rawBalance (config : ChainConfig) : Z :=
  balance (getVaultBalance config).

Definition totalRawOf (configs : list ChainConfig) : Z :=
  sumZ (map rawBalance configs).

End Aggregate.

(** A configuration with a deployed vault whose read gives [bal]. *)
Definition deployed (id : Z) (n : string) : ChainConfig :=
  {| chainId := id; chainName := n; vaultAddress := Some "0xvault";
     rpcUrl := "https://rpc"; viemChain := "chain" |}.

Definition fourChains : list ChainConfig :=
  [deployed 1 "A"; deployed 2 "B"; deployed 3 "C"; deployed 4 "D"].

Definition readsOf (table : list (Z * Z)) (config : ChainConfig) : Result Z :=
  match find (fun kv => fst kv =? chainId config) table with
  | Some kv => Ok (snd kv)
  | None => Throw "HTTP request failed."
  end.

End Allocation.

(** ** BalanceReconciler (usePerformanceData) *)

Module Reconciler.

Record Position : Type := {
  userVaultValue : float;
  sharePrice : float
}.

(** [x ? Number(formatUnits(x, 6)) : 0] for a contract read [x] that is
    [undefined] while loading; [0n] is falsy. *)
Definition readAsNumber (x : option Z) : float :=
  match x with
  | None => 0%float
  | Some v => if v =? 0 then 0%float else Units.numberOfUnits v 6
  end.

(** [a > 0] on numbers. *)
Definition positive (a : float) : bool := PrimFloat.ltb 0%float a.

Definition reconcileNumbers
           (userShares totalAssetValue totalSupplyValue : float) : Position :=
  if positive userShares && positive totalAssetValue
     && positive totalSupplyValue
  then {| userVaultValue :=
            PrimFloat.div (PrimFloat.mul userShares totalAssetValue)
                          totalSupplyValue;
          sharePrice := PrimFloat.div totalAssetValue totalSupplyValue |}
  else if positive userShares
  then {| userVaultValue := userShares; sharePrice := 1%float |}
  else {| userVaultValue := 0%float; sharePrice := 1%float |}.

Definition reconcile (userShareBalance contractTotalAssets
                      contractTotalSupply : option Z) : Position :=
  let userShares := readAsNumber userShareBalance in
  let totalAssetValue := readAsNumber contractTotalAssets in
  let totalSupplyValue := readAsNumber contractTotalSupply in
  reconcileNumbers userShares totalAssetValue totalSupplyValue.

End Reconciler.

(** ** Deposit and withdrawal orchestration (BalanceFigma)

    A render of the component fixes the values its handlers and effects
    close over: the state cells ([Component]) and what the hooks show
    ([Hooks]).  A handler reads those values and calls setters, hook
    functions and the message context; it is modelled as a transformer of
    the state cells that emits, in order, the commands it issues to the
    outside, and that may throw.  An [await] splits a handler in two: the
    part up to the request, which emits the request as a command, and the
    continuation, which takes the answer. *)

Module Orchestrator.

Inductive View : Type := ViewBalance | ViewDeposit | ViewWithdraw.

Inductive DepositStep : Type :=
| StepInput | StepApproving | StepDepositing | StepConfirming | StepError.

Inductive WithdrawStep : Type :=
| WithdrawInput | Withdrawing | WithdrawConfirming | WithdrawError.

(** The [useState] cells of the component. *)
Record Component : Type := {
  currentState : View;
  depositAmount : string;
  withdrawAmount : string;
  depositStep : DepositStep;
  withdrawStep : WithdrawStep;
  errorMessage : string;
  depositValidationError : string;
  withdrawValidationError : string
}.

(** What the wallet, write, receipt and read hooks show in one render.
    An [Error | null] is the [option] of its message. *)
Record Hooks : Type := {
  address : option string;
  chainId : option Z;
  isConnected : bool;
  vaultTxHash : option string;
  isVaultPending : bool;
  vaultWriteError : option string;
  usdcTxHash : option string;
  isUSDCPending : bool;
  usdcWriteError : option string;
  isVaultTxSuccess : bool;
  isVaultTxError : bool;
  isUSDCTxLoading : bool;
  isUSDCTxSuccess : bool;
  isUSDCTxError : bool;
  usdcAllowance : option Z;
  userVaultValue : float
}.

(** The oracle's signed balance snapshot, as received. *)
Record Snapshot : Type := {
  balance : string;
  nonce : string;
  deadline : string;
  assets : string;
  receiver : string;
  signature : string
}.

Inductive Arg : Type :=
| ArgUint (value : Z)
| ArgAddress (account : string)
| ArgBytes (data : string)
| ArgTuple (fields : list Arg).

Record WriteRequest : Type := {
  contract : string;
  functionName : string;
  args : list Arg;
  gas : Z
}.

Inductive MessageType : Type := Success | Failure | Info | Pending.

Record StatusMessage : Type := {
  type : MessageType;
  message : string;
  txHash : option string;
  messageChainId : option Z
}.

(** What a handler asks of the world outside the component, in order:
    the write hooks ([reset], [writeContract]), the message context, the
    oracle request a handler awaits ([AwaitSignature], answered to
    [resumeConfirmDeposit]), and the refetches -- [RefetchAllowanceThenCheck]
    is the [refetchAllowance().then(...)] whose result goes to
    [onAllowanceRefetched]. *)
Inductive Command : Type :=
| ResetUSDCWrite
| ResetVaultWrite
| WriteUSDC (request : WriteRequest)
| WriteVault (request : WriteRequest)
| UpsertMessage (key : string) (m : StatusMessage)
| AddMessage (m : StatusMessage)
| RemoveMessage (key : string)
| ClearMessages
| AwaitSignature (amountInWei : Z) (depositor : string) (chain : Z)
| RefetchAllowance
| RefetchAllowanceThenCheck
| RefreshAllBalances.

Definition isVaultWrite (c : Command) : bool :=
  match c with WriteVault _ => true | _ => false end.

Definition isUSDCWrite (c : Command) : bool :=
  match c with WriteUSDC _ => true | _ => false end.

Definition isWrite (c : Command) : bool := isVaultWrite c || isUSDCWrite c.

Definition isAwaitSignature (c : Command) : bool :=
  match c with AwaitSignature _ _ _ => true | _ => false end.

Definition isAllowanceCheck (c : Command) : bool :=
  match c with RefetchAllowanceThenCheck => true | _ => false end.

(** *** Handlers as state transformers that emit commands and may throw *)

Definition M (A : Type) : Type :=
  Component -> Component * list Command * Result A.

Definition ret {A : Type} (a : A) : M A := fun c => (c, [], Ok a).

Definition bind {A B : Type} (m : M A) (k : A -> M B) : M B :=
  fun c =>
    match m c with
    | (c1, out1, Ok a) =>
        match k a c1 with
        | (c2, out2, r) => (c2, (out1 ++ out2)%list, r)
        end
    | (c1, out1, Throw e) => (c1, out1, Throw e)
    end.

Definition throw {A : Type} (e : string) : M A := fun c => (c, [], Throw e).

Definition lift {A : Type} (r : Result A) : M A :=
  match r with Ok a => ret a | Throw e => throw e end.

Definition emit (cmd : Command) : M unit := fun c => (c, [cmd], Ok tt).

Definition tryCatch {A : Type} (body : M A) (handler : string -> M A) : M A :=
  fun c =>
    match body c with
    | (c1, out1, Ok a) => (c1, out1, Ok a)
    | (c1, out1, Throw e) =>
        match handler e c1 with
        | (c2, out2, r) => (c2, (out1 ++ out2)%list, r)
        end
    end.

Definition stateOf {A : Type} (run : Component * list Command * Result A)
  : Component := fst (fst run).

Definition commandsOf {A : Type} (run : Component * list Command * Result A)
  : list Command := snd (fst run).

Definition resultOf {A : Type} (run : Component * list Command * Result A)
  : Result A := snd run.

Declare Scope orch_scope.
Delimit Scope orch_scope with orch.
Notation "x <- m ;; k" := (bind m (fun x => k))
  (at level 61, m at next level, right associativity) : orch_scope.
Notation "m ;; k" := (bind m (fun _ => k))
  (at level 61, right associativity) : orch_scope.
Local Open Scope orch_scope.

Definition setCurrentState (v : View) : M unit := fun c =>
  ({| currentState := v; depositAmount := depositAmount c;
      withdrawAmount := withdrawAmount c; depositStep := depositStep c;
      withdrawStep := withdrawStep c; errorMessage := errorMessage c;
      depositValidationError := depositValidationError c;
      withdrawValidationError := withdrawValidationError c |}, [], Ok tt).

Definition setDepositAmount (v : string) : M unit := fun c =>
  ({| currentState := currentState c; depositAmount := v;
      withdrawAmount := withdrawAmount c; depositStep := depositStep c;
      withdrawStep := withdrawStep c; errorMessage := errorMessage c;
      depositValidationError := depositValidationError c;
      withdrawValidationError := withdrawValidationError c |}, [], Ok tt).

Definition setWithdrawAmount (v : string) : M unit := fun c =>
  ({| currentState := currentState c; depositAmount := depositAmount c;
      withdrawAmount := v; depositStep := depositStep c;
      withdrawStep := withdrawStep c; errorMessage := errorMessage c;
      depositValidationError := depositValidationError c;
      withdrawValidationError := withdrawValidationError c |}, [], Ok tt).

Definition setDepositStep (v : DepositStep) : M unit := fun c =>
  ({| currentState := currentState c; depositAmount := depositAmount c;
      withdrawAmount := withdrawAmount c; depositStep := v;
      withdrawStep := withdrawStep c; errorMessage := errorMessage c;
      depositValidationError := depositValidationError c;
      withdrawValidationError := withdrawValidationError c |}, [], Ok tt).

Definition setWithdrawStep (v : WithdrawStep) : M unit := fun c =>
  ({| currentState := currentState c; depositAmount := depositAmount c;
      withdrawAmount := withdrawAmount c; depositStep := depositStep c;
      withdrawStep := v; errorMessage := errorMessage c;
      depositValidationError := depositValidationError c;
      withdrawValidationError := withdrawValidationError c |}, [], Ok tt).

Definition setErrorMessage (v : string) : M unit := fun c =>
  ({| currentState := currentState c; depositAmount := depositAmount c;
      withdrawAmount := withdrawAmount c; depositStep := depositStep c;
      withdrawStep := withdrawStep c; errorMessage := v;
      depositValidationError := depositValidationError c;
      withdrawValidationError := withdrawValidationError c |}, [], Ok tt).

Definition setDepositValidationError (v : string) : M unit := fun c =>
  ({| currentState := currentState c; depositAmount := depositAmount c;
      withdrawAmount := withdrawAmount c; depositStep := depositStep c;
      withdrawStep := withdrawStep c; errorMessage := errorMessage c;
      depositValidationError := v;
      withdrawValidationError := withdrawValidationError c |}, [], Ok tt).

Definition setWithdrawValidationError (v : string) : M unit := fun c =>
  ({| currentState := currentState c; depositAmount := depositAmount c;
      withdrawAmount := withdrawAmount c; depositStep := depositStep c;
      withdrawStep := withdrawStep c; errorMessage := errorMessage c;
      depositValidationError := depositValidationError c;
      withdrawValidationError := v |}, [], Ok tt).

Definition DepositStep_eqb (a b : DepositStep) : bool :=
  match a, b with
  | StepInput, StepInput | StepApproving, StepApproving
  | StepDepositing, StepDepositing | StepConfirming, StepConfirming
  | StepError, StepError => true
  | _, _ => false
  end.

Definition WithdrawStep_eqb (a b : WithdrawStep) : bool :=
  match a, b with
  | WithdrawInput, WithdrawInput | Withdrawing, Withdrawing
  | WithdrawConfirming, WithdrawConfirming
  | WithdrawError, WithdrawError => true
  | _, _ => false
  end.

(** Truthiness of the account fields: [undefined], [''] and [0] are falsy. *)
Definition truthyString (s : option string) : option string :=
  match s with
  | Some a => if ChainRegistry.is_empty a then None else Some a
  | None => None
  end.

Definition truthyChain (n : option Z) : option Z :=
  match n with
  | Some c => if c =? 0 then None else Some c
  | None => None
  end.

(** [s || fallback] on strings. *)
Definition orElse (s fallback : string) : string :=
  if ChainRegistry.is_empty s then fallback else s.

Definition message_of (e : option string) : string :=
  match e with Some m => m | None => "" end.

Definition maxAmount : Z := 2 ^ 256 - 1.

Definition pendingMessage (text : string) : StatusMessage :=
  {| type := Pending; message := text; txHash := None;
     messageChainId := None |}.

(** *** Classification of a failed write *)

(** [isUserRejection] of the transaction watcher. *)
Definition isUserRejection (e : option string) : bool :=
  match e with
  | None => false
  | Some m =>
      let msg := Str.toLowerCase m in
      Str.includes "user rejected" msg || Str.includes "rejected" msg
      || Str.includes "denied" msg || Str.includes "userrequestrejected" msg
  end.

Definition isMetaMaskSimulationError (e : option string) : bool :=
  match e with
  | None => false
  | Some msg =>
      Str.includes "Internal JSON-RPC error" msg || Str.includes "-32603" msg
  end.

(** [isUserRejection] of the error reporter (it also knows cancellation). *)
Definition isUserCancellation (e : option string) : bool :=
  match e with
  | None => false
  | Some m =>
      let msg := Str.toLowerCase m in
      Str.includes "user rejected" msg || Str.includes "rejected" msg
      || Str.includes "denied" msg || Str.includes "cancelled" msg
      || Str.includes "canceled" msg
  end.

Definition revertPrefix : string := "reverted with the following reason:".

(** The last character of the white-space run that begins [s]. *)
Fixpoint lastOfSpaceRun (s : string) : option ascii :=
  match s with
  | EmptyString => None
  | String c r =>
      if Str.is_space c
      then match lastOfSpaceRun r with
           | Some d => Some d
           | None => Some c
           end
      else None
  end.

(** [\s*([^.]+)] matched at the start of [rest]: the white space is
    skipped greedily; when what follows cannot start the group, the last
    white-space character is given back to it. *)
Definition reasonAt (rest : string) : option string :=
  let giveBack :=
    match lastOfSpaceRun rest with
    | Some c => Some (String c EmptyString)
    | None => None
    end in
  match Str.trimStart rest with
  | EmptyString => giveBack
  | String c r =>
      if Str.is_dot c then giveBack
      else Some (Str.takeWhile (fun d => negb (Str.is_dot d)) (String c r))
  end.

(** Group 1 of the leftmost match of
    [/reverted with the following reason:\s*([^.]+)/]. *)
Fixpoint revertReason (msg : string) : option string :=
  match (if String.prefix revertPrefix msg
         then reasonAt (Str.drop (String.length revertPrefix) msg)
         else None)
  with
  | Some reason => Some reason
  | None =>
      match msg with
      | EmptyString => None
      | String _ r => revertReason r
      end
  end.

Definition getCleanErrorMessage (e : string) (action : string) : string :=
  let msg := e in
  if Str.includes "insufficient funds" msg
  then "Insufficient funds for gas fees."
  else if Str.includes "SignatureExpired" msg
  then "Signature expired. Please try again."
  else if Str.includes "InvalidSignature" msg
  then "Invalid signature from oracle. Please try again."
  else if Str.includes "InvalidAmount" msg
  then "Invalid amount. Please check your input."
  else if Str.includes "reverted" msg
  then match revertReason msg with
       | Some reason => action ++ " failed: " ++ Str.take 100 reason
       | None => action ++ " failed: Transaction reverted. Please try again."
       end
  else
    let cleanMsg := Str.trim (Str.before "Contract Call:" msg) in
    if (150 <? String.length cleanMsg)%nat
    then Str.take 150 cleanMsg ++ "..."
    else orElse cleanMsg (action ++ " failed. Please try again.").

Definition falseNegativeApproval : string :=
  "MetaMask reported an error, but this may be a false negative on testnets. "
  ++ "Please check Arbiscan to verify, then try again. Consider using Rabby wallet.".

Definition falseNegativeTransaction : string :=
  "MetaMask reported an error, but this may be a false negative on testnets. "
  ++ "Please check Arbiscan to verify your transaction. Consider using Rabby wallet.".

Definition rejected : string :=
  "Transaction was rejected. Please try again if you want to proceed.".

Section Handlers.

(** The environment the component runs in: the language's [parseFloat]
    and [BigInt] (on strings), the Ethereum library's [parseUnits]. *)
Variable parseFloat : string -> float.
Variable parseUnits : string -> Z -> Result Z.
Variable BigInt : string -> Result Z.

Definition isValidAmount (value : string) : bool :=
  if ChainRegistry.is_empty value || String.eqb value "." then false
  else
    let num := parseFloat value in
    negb (PrimFloat.is_nan num) && PrimFloat.ltb 0%float num
    && PrimFloat.is_finite num.

Definition hasEnoughAllowance (h : Hooks) (amount : string) : bool :=
  match usdcAllowance h with
  | None => false
  | Some allowance =>
      if (allowance =? 0) || ChainRegistry.is_empty amount
         || negb (isValidAmount amount)
      then false
      else match parseUnits amount 6 with
           | Ok depositAmountInWei => depositAmountInWei <=? allowance
           | Throw _ => false
           end
  end.

Definition resetErrors : M unit := setErrorMessage "".

Definition handleDeposit : M unit :=
  setCurrentState ViewDeposit;;
  setDepositStep StepInput;;
  setDepositAmount "".

Definition handleWithdrawClick : M unit := setCurrentState ViewWithdraw.

Definition handleCancel : M unit :=
  setCurrentState ViewBalance;;
  setDepositStep StepInput;;
  setWithdrawStep WithdrawInput;;
  setDepositAmount "";;
  setWithdrawAmount "";;
  setErrorMessage "";;
  setDepositValidationError "";;
  setWithdrawValidationError "";;
  emit RefreshAllBalances.

Definition handleRetry : M unit :=
  setDepositStep StepInput;;
  setErrorMessage "".

Definition handleDone : M unit :=
  setCurrentState ViewBalance;;
  setDepositStep StepInput;;
  setDepositAmount "";;
  emit ClearMessages.

Definition onDepositAmountChange (r : Component) (value : string) : M unit :=
  setDepositAmount (AmountInput.sanitizeAmountInput value);;
  if ChainRegistry.is_empty (depositValidationError r) then ret tt
  else setDepositValidationError "".

Definition handleApproveUSDC (r : Component) (h : Hooks) : M unit :=
  match truthyString (address h), truthyChain (chainId h) with
  | Some _, Some chain =>
      if ChainRegistry.is_empty (depositAmount r) then ret tt
      else if negb (isValidAmount (depositAmount r))
      then setDepositValidationError "Please enter a valid amount"
      else
        resetErrors;;
        emit ResetUSDCWrite;;
        setDepositStep StepApproving;;
        emit (UpsertMessage "deposit-approving"
                (pendingMessage "Approving spending limit..."));;
        usdc <- lift (ChainRegistry.getUSDCAddress chain);;
        vault <- lift (ChainRegistry.getContractAddress chain);;
        emit (WriteUSDC {| contract := usdc;
                           functionName := "approve";
                           args := [ArgAddress vault; ArgUint maxAmount];
                           gas := 100000 |})
  | _, _ => ret tt
  end.

(** The [catch] of [handleConfirmDeposit]. *)
Definition depositSetupFailed (e : string) : M unit :=
  emit (RemoveMessage "deposit-pending");;
  setDepositStep StepError;;
  if Str.includes "Oracle" e
  then setErrorMessage
         ("Oracle service error: " ++ orElse e "Unable to get signature.")
  else setErrorMessage
         ("Deposit failed: "
          ++ orElse e "Please check your wallet and try again.").

(** [handleConfirmDeposit] up to its [await]: it returns the amount it
    is waiting with when the signature request has been issued. *)
Definition handleConfirmDeposit (r : Component) (h : Hooks)
  : M (option Z) :=
  match truthyString (address h), truthyChain (chainId h) with
  | Some account, Some chain =>
      if ChainRegistry.is_empty (depositAmount r) then ret None
      else if negb (isValidAmount (depositAmount r))
      then setDepositValidationError "Please enter a valid amount";;
           ret None
      else
        resetErrors;;
        emit ResetVaultWrite;;
        setDepositStep StepDepositing;;
        tryCatch
          (emit (RemoveMessage "deposit-approving");;
           amountInWei <- lift (parseUnits (depositAmount r) 6);;
           emit (UpsertMessage "deposit-pending"
                   (pendingMessage "Getting cross-chain signature..."));;
           emit (AwaitSignature amountInWei account chain);;
           ret (Some amountInWei))
          (fun e => depositSetupFailed e;; ret None)
  | _, _ => ret None
  end.

(** The two deposit protocols, chosen by the snapshot's balance. *)
Definition submitDeposit (account : string) (chain : Z) (amountInWei : Z)
           (snapshot : Snapshot) : M unit :=
  noCrossChainAssets <-
    (if String.eqb (balance snapshot) "0" then ret true
     else b <- lift (BigInt (balance snapshot));; ret (b =? 0));;
  if (noCrossChainAssets : bool)
  then
    emit (UpsertMessage "deposit-pending"
            (pendingMessage "Processing deposit..."));;
    vault <- lift (ChainRegistry.getContractAddress chain);;
    emit (WriteVault {| contract := vault;
                        functionName := "deposit";
                        args := [ArgUint amountInWei; ArgAddress account];
                        gas := 350000 |})
  else
    emit (UpsertMessage "deposit-pending"
            (pendingMessage "Deposit with signature in progress..."));;
    vault <- lift (ChainRegistry.getContractAddress chain);;
    b <- lift (BigInt (balance snapshot));;
    n <- lift (BigInt (nonce snapshot));;
    d <- lift (BigInt (deadline snapshot));;
    a <- lift (BigInt (assets snapshot));;
    emit (WriteVault {| contract := vault;
                        functionName := "depositWithExtraInfoViaSignature";
                        args := [ArgUint amountInWei; ArgAddress account;
                                 ArgTuple [ArgUint b; ArgUint n; ArgUint d;
                                           ArgUint a;
                                           ArgAddress (receiver snapshot)];
                                 ArgBytes (signature snapshot)];
                        gas := 350000 |}).

(** [handleConfirmDeposit] from its [await] on: the oracle's answer is
    the snapshot, or the failure the request rejected with. *)
Definition resumeConfirmDeposit (h : Hooks) (amountInWei : Z)
           (answer : Result Snapshot) : M unit :=
  match truthyString (address h), truthyChain (chainId h) with
  | Some account, Some chain =>
      tryCatch
        (snapshot <- lift answer;;
         submitDeposit account chain amountInWei snapshot)
        depositSetupFailed
  | _, _ => ret tt
  end.

(** One whole call of [handleConfirmDeposit] against an oracle. *)
Definition confirmDeposit
           (getDepositSignature : string -> string -> Z -> Result Snapshot)
           (r : Component) (h : Hooks) : M unit :=
  waiting <- handleConfirmDeposit r h;;
  match waiting, truthyString (address h), truthyChain (chainId h) with
  | Some amountInWei, Some account, Some chain =>
      resumeConfirmDeposit h amountInWei
        (getDepositSignature (string_of_Z amountInWei) account chain)
  | _, _, _ => ret tt
  end.

Definition handleInitiateDeposit (r : Component) (h : Hooks) : M unit :=
  if ChainRegistry.is_empty (depositAmount r) then ret tt
  else if hasEnoughAllowance h (depositAmount r)
  then handleConfirmDeposit r h;; ret tt
  else handleApproveUSDC r h.

(** [userVaultValue || 0]. *)
Definition withdrawableAmount (h : Hooks) : float :=
  if PrimFloat.is_nan (userVaultValue h) || PrimFloat.is_zero (userVaultValue h)
  then 0%float else userVaultValue h.

Definition isWithdrawAmountValid (r : Component) : bool :=
  negb (ChainRegistry.is_empty (withdrawAmount r))
  && isValidAmount (withdrawAmount r).

Definition hasEnoughWithdrawBalance (r : Component) (h : Hooks) : bool :=
  PrimFloat.ltb 0%float (withdrawableAmount h)
  && isValidAmount (withdrawAmount r)
  && PrimFloat.leb (parseFloat (withdrawAmount r)) (withdrawableAmount h).

Definition canWithdraw (r : Component) (h : Hooks) : bool :=
  isWithdrawAmountValid r && hasEnoughWithdrawBalance r h
  && negb (isVaultPending h)
  && ChainRegistry.is_empty (withdrawValidationError r).

Definition handleWithdraw (r : Component) (h : Hooks) : M unit :=
  match truthyChain (chainId h), truthyString (address h) with
  | Some chain, Some account =>
      if ChainRegistry.is_empty (withdrawAmount r) || negb (canWithdraw r h)
      then ret tt
      else if negb (isValidAmount (withdrawAmount r))
      then setWithdrawValidationError "Please enter a valid amount"
      else
        setWithdrawStep Withdrawing;;
        emit ResetVaultWrite;;
        assetsWei <- lift (parseUnits (withdrawAmount r) 6);;
        vault <- lift (ChainRegistry.getContractAddress chain);;
        emit (WriteVault {| contract := vault;
                            functionName := "withdraw";
                            args := [ArgUint assetsWei; ArgAddress account;
                                     ArgAddress account];
                            gas := 350000 |})
  | _, _ => ret tt
  end.

(** *** What a render of the deposit view lets the user press *)

Definition initiateButtonEnabled (r : Component) (h : Hooks) : bool :=
  DepositStep_eqb (depositStep r) StepInput
  && negb (ChainRegistry.is_empty (depositAmount r)
           || negb (isConnected h)
           || negb (isValidAmount (depositAmount r))
           || negb (ChainRegistry.is_empty (depositValidationError r))).

Definition confirmButtonEnabled (r : Component) (h : Hooks) : bool :=
  DepositStep_eqb (depositStep r) StepApproving
  && negb (isUSDCPending h || isUSDCTxLoading h).

(** *** The transaction watcher effect *)

Definition when (b : bool) (m : M unit) : M unit :=
  if b then m else ret tt.

Definition failDeposit (text : string) : M unit :=
  setDepositStep StepError;; setErrorMessage text.

Definition failWithdraw (text : string) : M unit :=
  setWithdrawStep WithdrawError;; setErrorMessage text.

(** The continuation of [refetchAllowance()] after a simulation error. *)
Definition onAllowanceRefetched (r : Component) (h : Hooks)
           (newAllowance : option Z) : M unit :=
  match newAllowance with
  | Some a =>
      if 0 <? a
      then
        emit (UpsertMessage "deposit-approving"
                {| type := Success;
                   message := "Approval confirmed! Proceeding...";
                   txHash := None; messageChainId := None |});;
        handleConfirmDeposit r h;;
        ret tt
      else failDeposit falseNegativeApproval
  | None => failDeposit falseNegativeApproval
  end.

Definition onVaultWriteError (r : Component) (h : Hooks) : M unit :=
  when (match vaultWriteError h with Some _ => true | None => false end
        && DepositStep_eqb (depositStep r) StepDepositing)
    (emit (RemoveMessage "deposit-pending");;
     if isUserRejection (vaultWriteError h)
     then failDeposit rejected
     else if isMetaMaskSimulationError (vaultWriteError h)
     then failDeposit falseNegativeTransaction;; emit RefreshAllBalances
     else failDeposit
            ("Deposit failed: "
             ++ orElse (message_of (vaultWriteError h)) "Please try again."));;
  when (match vaultWriteError h with Some _ => true | None => false end
        && WithdrawStep_eqb (withdrawStep r) Withdrawing)
    (if isUserRejection (vaultWriteError h)
     then failWithdraw rejected
     else if isMetaMaskSimulationError (vaultWriteError h)
     then failWithdraw falseNegativeTransaction;; emit RefreshAllBalances
     else failWithdraw
            ("Withdrawal failed: "
             ++ orElse (message_of (vaultWriteError h)) "Please try again.")).

Definition watchTransactions (r : Component) (h : Hooks) : M unit :=
  when (isUSDCTxSuccess h && DepositStep_eqb (depositStep r) StepApproving)
    (emit (UpsertMessage "deposit-approving"
             {| type := Success;
                message := "Approval successful. Proceeding‚Ä¶";
                txHash := usdcTxHash h; messageChainId := chainId h |});;
     handleConfirmDeposit r h;;
     emit RefetchAllowance);;
  when (isVaultTxSuccess h
        && (DepositStep_eqb (depositStep r) StepDepositing
            || DepositStep_eqb (depositStep r) StepError))
    (setDepositStep StepConfirming;;
     emit (RemoveMessage "deposit-pending");;
     emit (UpsertMessage "deposit-success"
             {| type := Success;
                message := "Deposit of " ++ depositAmount r
                           ++ " USDC completed successfully!";
                txHash := vaultTxHash h; messageChainId := chainId h |});;
     emit RefreshAllBalances);;
  when (isVaultTxSuccess h
        && (WithdrawStep_eqb (withdrawStep r) Withdrawing
            || WithdrawStep_eqb (withdrawStep r) WithdrawError))
    (setWithdrawStep WithdrawConfirming;;
     emit (AddMessage
             {| type := Success;
                message := "Withdrawal of " ++ withdrawAmount r
                           ++ " USDC completed successfully!";
                txHash := vaultTxHash h; messageChainId := chainId h |});;
     emit RefreshAllBalances);;
  when (isUSDCTxError h && DepositStep_eqb (depositStep r) StepApproving)
    (failDeposit "USDC approval transaction reverted. Please try again.";;
     emit (UpsertMessage "deposit-approving"
             {| type := Failure; message := "Approval failed on-chain.";
                txHash := usdcTxHash h; messageChainId := chainId h |}));;
  when (isVaultTxError h && DepositStep_eqb (depositStep r) StepDepositing)
    (failDeposit "Deposit transaction reverted on-chain. Please try again.";;
     emit (UpsertMessage "deposit-pending"
             {| type := Failure; message := "Deposit failed.";
                txHash := vaultTxHash h; messageChainId := chainId h |}));;
  when (isVaultTxError h && WithdrawStep_eqb (withdrawStep r) Withdrawing)
    (failWithdraw
       "Withdrawal transaction reverted on-chain. Please try again.");;
  if match usdcWriteError h with Some _ => true | None => false end
     && DepositStep_eqb (depositStep r) StepApproving
  then
    emit (RemoveMessage "deposit-approving");;
    if isUserRejection (usdcWriteError h)
    then failDeposit rejected;; onVaultWriteError r h
    else if isMetaMaskSimulationError (usdcWriteError h)
    then emit RefetchAllowanceThenCheck
    else failDeposit
           ("Approval failed: "
            ++ orElse (message_of (usdcWriteError h)) "Please try again.");;
         onVaultWriteError r h
  else onVaultWriteError r h.

(** *** The error reporter effect *)

Definition reportWriteErrors (r : Component) (h : Hooks) : M unit :=
  when (match usdcWriteError h with Some _ => true | None => false end
        && DepositStep_eqb (depositStep r) StepApproving)
    (setDepositStep StepError;;
     if isUserCancellation (usdcWriteError h)
     then setErrorMessage "Approval was cancelled in wallet."
     else setErrorMessage
            (getCleanErrorMessage (message_of (usdcWriteError h)) "Approval"));;
  when (match vaultWriteError h with Some _ => true | None => false end
        && DepositStep_eqb (depositStep r) StepDepositing)
    (setDepositStep StepError;;
     if isUserCancellation (vaultWriteError h)
     then setErrorMessage "Deposit was cancelled in wallet."
     else setErrorMessage
            (getCleanErrorMessage (message_of (vaultWriteError h)) "Deposit"));;
  when (match vaultWriteError h with Some _ => true | None => false end
        && WithdrawStep_eqb (withdrawStep r) Withdrawing)
    (setWithdrawStep WithdrawError;;
     if isUserCancellation (vaultWriteError h)
     then setErrorMessage "Withdrawal was cancelled in wallet."
     else setErrorMessage
            (getCleanErrorMessage (message_of (vaultWriteError h))
                                  "Withdrawal")).

(** Both effects of one commit, in the order they are declared. *)
Definition runEffects (r : Component) (h : Hooks) : M unit :=
  watchTransactions r h;; reportWriteErrors r h.

End Handlers.

(** *** Renders that differ in one hook *)

Definition withChain (chain : option Z) (h : Hooks) : Hooks := {|
  address := address h; chainId := chain; isConnected := isConnected h;
  vaultTxHash := vaultTxHash h; isVaultPending := isVaultPending h;
  vaultWriteError := vaultWriteError h; usdcTxHash := usdcTxHash h;
  isUSDCPending := isUSDCPending h; usdcWriteError := usdcWriteError h;
  isVaultTxSuccess := isVaultTxSuccess h; isVaultTxError := isVaultTxError h;
  isUSDCTxLoading := isUSDCTxLoading h; isUSDCTxSuccess := isUSDCTxSuccess h;
  isUSDCTxError := isUSDCTxError h; usdcAllowance := usdcAllowance h;
  userVaultValue := userVaultValue h
|}.

Definition withVaultPending (pending : bool) (h : Hooks) : Hooks := {|
  address := address h; chainId := chainId h; isConnected := isConnected h;
  vaultTxHash := vaultTxHash h; isVaultPending := pending;
  vaultWriteError := vaultWriteError h; usdcTxHash := usdcTxHash h;
  isUSDCPending := isUSDCPending h; usdcWriteError := usdcWriteError h;
  isVaultTxSuccess := isVaultTxSuccess h; isVaultTxError := isVaultTxError h;
  isUSDCTxLoading := isUSDCTxLoading h; isUSDCTxSuccess := isUSDCTxSuccess h;
  isUSDCTxError := isUSDCTxError h; usdcAllowance := usdcAllowance h;
  userVaultValue := userVaultValue h
|}.

(** The approval write as the wallet left it: its hash, whether it awaits
    the wallet, its error, and whether its receipt is still loading. *)
Definition withApproval (hash : option string) (pending : bool)
           (e : option string) (loading : bool) (h : Hooks) : Hooks := {|
  address := address h; chainId := chainId h; isConnected := isConnected h;
  vaultTxHash := vaultTxHash h; isVaultPending := isVaultPending h;
  vaultWriteError := vaultWriteError h; usdcTxHash := hash;
  isUSDCPending := pending; usdcWriteError := e;
  isVaultTxSuccess := isVaultTxSuccess h; isVaultTxError := isVaultTxError h;
  isUSDCTxLoading := loading; isUSDCTxSuccess := isUSDCTxSuccess h;
  isUSDCTxError := isUSDCTxError h; usdcAllowance := usdcAllowance h;
  userVaultValue := userVaultValue h
|}.

Definition withAllowance (allowance : option Z) (value : float) (h : Hooks)
  : Hooks := {|
  address := address h; chainId := chainId h; isConnected := isConnected h;
  vaultTxHash := vaultTxHash h; isVaultPending := isVaultPending h;
  vaultWriteError := vaultWriteError h; usdcTxHash := usdcTxHash h;
  isUSDCPending := isUSDCPending h; usdcWriteError := usdcWriteError h;
  isVaultTxSuccess := isVaultTxSuccess h; isVaultTxError := isVaultTxError h;
  isUSDCTxLoading := isUSDCTxLoading h; isUSDCTxSuccess := isUSDCTxSuccess h;
  isUSDCTxError := isUSDCTxError h; usdcAllowance := allowance;
  userVaultValue := value
|}.

(** The two deposit writes. *)
Definition plainDeposit (vault : string) (amountInWei : Z) (account : string)
  : WriteRequest :=
  {| contract := vault; functionName := "deposit";
     args := [ArgUint amountInWei; ArgAddress account]; gas := 350000 |}.

Definition signedDeposit (vault : string) (amountInWei : Z) (account : string)
           (b n d a : Z) (to signed : string) : WriteRequest :=
  {| contract := vault; functionName := "depositWithExtraInfoViaSignature";
     args := [ArgUint amountInWei; ArgAddress account;
              ArgTuple [ArgUint b; ArgUint n; ArgUint d; ArgUint a;
                        ArgAddress to];
              ArgBytes signed];
     gas := 350000 |}.

(** *** What can be said of a handler's runs *)

(** No command satisfying [P] is emitted. *)
Definition quiet {A : Type} (P : Command -> bool) (m : M A) : Prop :=
  forall c, existsb P (commandsOf (m c)) = false.

(** The handler returns normally. *)
Definition succeeds {A : Type} (m : M A) : Prop :=
  forall c, exists a, resultOf (m c) = Ok a.

(** A property of the component's state is preserved. *)
Definition keeps {A : Type} (I : Component -> Prop) (m : M A) : Prop :=
  forall c, I c -> I (stateOf (m c)).

Definition notDepositing (c : Component) : Prop :=
  depositStep c <> StepDepositing.

Definition confirming (c : Component) : Prop :=
  depositStep c = StepConfirming.

End Orchestrator.

(** ** The environment on plain decimals

    The handlers are parametric in [parseFloat], [parseUnits] and [BigInt].
    On plain decimals -- digits with at most one decimal point and at most
    six digits after it, which is what the amount field holds after a
    well-formed entry -- the first two are determined by the decimal value,
    and [BigInt] is determined on strings of digits.  The definitions below
    are the three functions on those domains, where no rounding and no
    other syntax is involved; they serve to run the handlers on examples. *)

Module Env.

Fixpoint digitsValue (acc : Z) (s : string) : option Z :=
  match s with
  | EmptyString => Some acc
  | String c r =>
      if Str.is_digit c
      then digitsValue (acc * 10 + (Z.of_nat (nat_of_ascii c) - 48)) r
      else None
  end.

(** A plain decimal as its digits read as an integer and the number of
    digits after the point. *)
Definition decimal (s : string) : option (Z * Z) :=
  match Str.split "." s with
  | [i] => option_map (fun n => (n, 0)) (digitsValue 0 i)
  | [i; f] =>
      if (6 <? String.length f)%nat then None
      else option_map (fun n => (n, Z.of_nat (String.length f)))
                      (digitsValue 0 (i ++ f))
  | _ => None
  end.

(** [parseFloat] needs a digit: the empty string and a lone point give
    [NaN]. *)
Definition parseFloat (s : string) : float :=
  if ChainRegistry.is_empty s || String.eqb s "." then PrimFloat.nan
  else match decimal s with
       | Some (n, k) => Units.numberOfUnits n k
       | None => PrimFloat.nan
       end.

(** [parseUnits] reads missing digits as zero. *)
Definition parseUnits (s : string) (decimals : Z) : Result Z :=
  match decimal s with
  | Some (n, k) =>
      if k <=? decimals then Ok (n * 10 ^ (decimals - k))
      else Throw "InvalidDecimalNumberError"
  | None => Throw "InvalidDecimalNumberError"
  end.

(** [BigInt] of a string of digits; the empty string is zero. *)
Definition BigInt (s : string) : Result Z :=
  match digitsValue 0 s with
  | Some n => Ok n
  | None => Throw "SyntaxError: Cannot convert to a BigInt"
  end.

Definition isValidAmount := Orchestrator.isValidAmount parseFloat.
Definition handleConfirmDeposit :=
  Orchestrator.handleConfirmDeposit parseFloat parseUnits.
Definition resumeConfirmDeposit := Orchestrator.resumeConfirmDeposit BigInt.
Definition confirmDeposit :=
  Orchestrator.confirmDeposit parseFloat parseUnits BigInt.
Definition handleApproveUSDC :=
  Orchestrator.handleApproveUSDC parseFloat.
Definition handleInitiateDeposit :=
  Orchestrator.handleInitiateDeposit parseFloat parseUnits.
Definition handleWithdraw := Orchestrator.handleWithdraw parseFloat parseUnits.
Definition watchTransactions :=
  Orchestrator.watchTransactions parseFloat parseUnits.
Definition onAllowanceRefetched :=
  Orchestrator.onAllowanceRefetched parseFloat parseUnits.
Definition runEffects := Orchestrator.runEffects parseFloat parseUnits.

(** A connected account on Arbitrum Sepolia with nothing in flight. *)
Definition idle : Orchestrator.Hooks := {|
  Orchestrator.address := Some "0x00000000000000000000000000000000000000A1";
  Orchestrator.chainId := Some 421614;
  Orchestrator.isConnected := true;
  Orchestrator.vaultTxHash := None;
  Orchestrator.isVaultPending := false;
  Orchestrator.vaultWriteError := None;
  Orchestrator.usdcTxHash := None;
  Orchestrator.isUSDCPending := false;
  Orchestrator.usdcWriteError := None;
  Orchestrator.isVaultTxSuccess := false;
  Orchestrator.isVaultTxError := false;
  Orchestrator.isUSDCTxLoading := false;
  Orchestrator.isUSDCTxSuccess := false;
  Orchestrator.isUSDCTxError := false;
  Orchestrator.usdcAllowance := Some 0;
  Orchestrator.userVaultValue := 0%float
|}.

(** The deposit view at a given step with ten USDC entered. *)
Definition depositing10 (step : Orchestrator.DepositStep)
  : Orchestrator.Component := {|
  Orchestrator.currentState := Orchestrator.ViewDeposit;
  Orchestrator.depositAmount := "10";
  Orchestrator.withdrawAmount := "";
  Orchestrator.depositStep := step;
  Orchestrator.withdrawStep := Orchestrator.WithdrawInput;
  Orchestrator.errorMessage := "";
  Orchestrator.depositValidationError := "";
  Orchestrator.withdrawValidationError := ""
|}.

Definition snapshotWith (bal : string) : Orchestrator.Snapshot := {|
  Orchestrator.balance := bal;
  Orchestrator.nonce := "7";
  Orchestrator.deadline := "1700000000";
  Orchestrator.assets := "10000000";
  Orchestrator.receiver := "0x00000000000000000000000000000000000000A1";
  Orchestrator.signature := "0xsigned"
|}.

(** The same render with a withdrawal of ten USDC entered against a
    position worth fifty. *)
Definition withdrawing10 : Orchestrator.Component := {|
  Orchestrator.currentState := Orchestrator.ViewWithdraw;
  Orchestrator.depositAmount := "";
  Orchestrator.withdrawAmount := "10";
  Orchestrator.depositStep := Orchestrator.StepInput;
  Orchestrator.withdrawStep := Orchestrator.WithdrawInput;
  Orchestrator.errorMessage := "";
  Orchestrator.depositValidationError := "";
  Orchestrator.withdrawValidationError := ""
|}.

Definition funded : Orchestrator.Hooks :=
  Orchestrator.withAllowance (Some Orchestrator.maxAmount) 50%float idle.

Definition account : string := "0x00000000000000000000000000000000000000A1".

Definition vault : string := "0xE168d95f8d1B8EC167A63c8E696076EC8EE95337".

(** A render in which the receipt of the vault transaction [hash] reports
    success. *)
Definition vaultConfirmed (hash : string) (h : Orchestrator.Hooks)
  : Orchestrator.Hooks := {|
  Orchestrator.address := Orchestrator.address h;
  Orchestrator.chainId := Orchestrator.chainId h;
  Orchestrator.isConnected := Orchestrator.isConnected h;
  Orchestrator.vaultTxHash := Some hash;
  Orchestrator.isVaultPending := false;
  Orchestrator.vaultWriteError := Orchestrator.vaultWriteError h;
  Orchestrator.usdcTxHash := Orchestrator.usdcTxHash h;
  Orchestrator.isUSDCPending := Orchestrator.isUSDCPending h;
  Orchestrator.usdcWriteError := Orchestrator.usdcWriteError h;
  Orchestrator.isVaultTxSuccess := true;
  Orchestrator.isVaultTxError := false;
  Orchestrator.isUSDCTxLoading := Orchestrator.isUSDCTxLoading h;
  Orchestrator.isUSDCTxSuccess := Orchestrator.isUSDCTxSuccess h;
  Orchestrator.isUSDCTxError := Orchestrator.isUSDCTxError h;
  Orchestrator.usdcAllowance := Orchestrator.usdcAllowance h;
  Orchestrator.userVaultValue := Orchestrator.userVaultValue h
|}.

(** A render in which the receipt of the approval transaction [hash]
    reports success. *)
Definition approvalConfirmed (hash : string) (h : Orchestrator.Hooks)
  : Orchestrator.Hooks := {|
  Orchestrator.address := Orchestrator.address h;
  Orchestrator.chainId := Orchestrator.chainId h;
  Orchestrator.isConnected := Orchestrator.isConnected h;
  Orchestrator.vaultTxHash := Orchestrator.vaultTxHash h;
  Orchestrator.isVaultPending := Orchestrator.isVaultPending h;
  Orchestrator.vaultWriteError := Orchestrator.vaultWriteError h;
  Orchestrator.usdcTxHash := Some hash;
  Orchestrator.isUSDCPending := false;
  Orchestrator.usdcWriteError := None;
  Orchestrator.isVaultTxSuccess := Orchestrator.isVaultTxSuccess h;
  Orchestrator.isVaultTxError := Orchestrator.isVaultTxError h;
  Orchestrator.isUSDCTxLoading := false;
  Orchestrator.isUSDCTxSuccess := true;
  Orchestrator.isUSDCTxError := false;
  Orchestrator.usdcAllowance := Orchestrator.usdcAllowance h;
  Orchestrator.userVaultValue := Orchestrator.userVaultValue h
|}.

Definition usdc : string := "0x75faf114eafb1BDbe2F0316DF893fd58CE46AA4d".

End Env.

(** ** Lists in descending order of a key *)

Module Order.

Fixpoint descendingBy {A : Type} (key : A -> Z) (l : list A) : Prop :=
  match l with
  | [] => True
  | x :: rest =>
      (forall y, In y rest -> key y <= key x) /\ descendingBy key rest
  end.

End Order.

(** ** Contract reads set up while rendering

    The components resolve the addresses of their contract reads in the
    body of the render ([chainId ? lookup(chainId) : undefined]); a lookup
    that throws there throws out of the render. *)

Module ContractReads.

(** [chainId ? lookup(chainId) : undefined]. *)
Definition whenChain (chainId : option Z) (lookup : Z -> Result string)
  : Result (option string) :=
  match Orchestrator.truthyChain chainId with
  | Some chain =>
      match lookup chain with
      | Ok a => Ok (Some a)
      | Throw e => Throw e
      end
  | None => Ok None
  end.

(** The reads of the balance component, in the order of the render: the
    wallet's USDC balance, the allowance (its token and its arguments),
    the vault shares, the total assets and the total supply. *)
Record BalanceReads : Type := {
  usdcBalanceToken : option string;
  allowanceToken : option string;
  allowanceArgs : option (string * string);
  vaultSharesVault : option string;
  totalAssetsVault : option string;
  totalSupplyVault : option string
}.

Definition andThen {A B : Type} (r : Result A) (k : A -> Result B)
  : Result B :=
  match r with Ok a => k a | Throw e => Throw e end.

Definition balanceReads (address : option string) (chainId : option Z)
  : Result BalanceReads :=
  andThen (whenChain chainId ChainRegistry.getUSDCAddress) (fun balanceToken =>
  andThen (whenChain chainId ChainRegistry.getUSDCAddress) (fun token =>
  andThen
    (match Orchestrator.truthyString address,
           Orchestrator.truthyChain chainId with
     | Some account, Some chain =>
         andThen (ChainRegistry.getContractAddress chain)
                 (fun vault => Ok (Some (account, vault)))
     | _, _ => Ok None
     end) (fun args =>
  andThen (whenChain chainId ChainRegistry.getContractAddress) (fun shares =>
  andThen (whenChain chainId ChainRegistry.getContractAddress) (fun assets =>
  andThen (whenChain chainId ChainRegistry.getContractAddress) (fun supply =>
  Ok {| usdcBalanceToken := balanceToken; allowanceToken := token;
        allowanceArgs := args; vaultSharesVault := shares;
        totalAssetsVault := assets; totalSupplyVault := supply |})))))).

(** The vault the welcome provider reads the shares from. *)
Definition welcomeRead (chainId : option Z) : Result (option string) :=
  whenChain chainId ChainRegistry.getContractAddress.

(** The token the wallet connection panel reads the balance from. *)
Definition walletConnectionRead (chainId : option Z)
  : Result (option string) :=
  whenChain chainId ChainRegistry.getUSDCAddress.

(** The performance hook wraps the lookup: a failure is [null]. *)
Definition performanceRead (chainId : option Z) : option string :=
  match Orchestrator.truthyChain chainId with
  | Some chain =>
      match ChainRegistry.getContractAddress chain with
      | Ok a => Some a
      | Throw _ => None
      end
  | None => None
  end.

(** The chain ids whose vault lookup returns. *)
Definition vaultResolves (chainId : Z) : bool :=
  (chainId =? 31337) || (chainId =? 1) || (chainId =? 84532)
  || (chainId =? 421614).

Definition throws {A : Type} (r : Result A) : bool :=
  match r with Ok _ => false | Throw _ => true end.

End ContractReads.

(** ** Transaction status context (TransactionStatusContext)

    The provider holds the active messages and the persisted
    transactions; the latter are mirrored to the browser's storage.  The
    identifier of a new message and the clock are inputs of the
    operations. *)

Module TransactionStatus.

Definition STORAGE_KEY : string := "rebalancer_tx_history".
Definition MAX_PERSISTED_TRANSACTIONS : nat := 10.

Record StatusMessage : Type := {
  id : string;
  type : Orchestrator.MessageType;
  message : string;
  timestamp : Z;
  txHash : option string;
  chainId : option Z
}.

(** [{ ...messageData, id, timestamp }]. *)
Definition stamped (messageData : Orchestrator.StatusMessage)
           (key : string) (now : Z) : StatusMessage :=
  {| id := key;
     type := Orchestrator.type messageData;
     message := Orchestrator.message messageData;
     timestamp := now;
     txHash := Orchestrator.txHash messageData;
     chainId := Orchestrator.messageChainId messageData |}.

(** The two state cells and the item kept under [STORAGE_KEY]; the item
    is [None] until something is saved. *)
Record State : Type := {
  messages : list StatusMessage;
  persistedTransactions : list StatusMessage;
  stored : option (list StatusMessage)
}.

Definition initial : State :=
  {| messages := []; persistedTransactions := []; stored := None |}.

Definition isSuccess (t : Orchestrator.MessageType) : bool :=
  match t with Orchestrator.Success => true | _ => false end.

Definition isInfo (t : Orchestrator.MessageType) : bool :=
  match t with Orchestrator.Info => true | _ => false end.

(** Truthiness of [txHash]: [undefined] and [''] are falsy. *)
Definition hasHash (h : option string) : bool :=
  match Orchestrator.truthyString h with Some _ => true | None => false end.

(** [a === b] on [string | undefined]. *)
Definition sameHash (a b : option string) : bool :=
  match a, b with
  | Some x, Some y => String.eqb x y
  | None, None => true
  | _, _ => false
  end.

Definition setMessages (f : list StatusMessage -> list StatusMessage)
           (s : State) : State :=
  {| messages := f (messages s);
     persistedTransactions := persistedTransactions s;
     stored := stored s |}.

Section Storage.

(** Whether [localStorage.setItem] succeeds; its failure is caught and
    logged. *)
Variable setItemWorks : bool.

Definition savePersistedTransactions (transactions : list StatusMessage)
           (s : State) : State :=
  {| messages := messages s;
     persistedTransactions := persistedTransactions s;
     stored := if setItemWorks then Some transactions else stored s |}.

Definition setPersistedTransactions (transactions : list StatusMessage)
           (s : State) : State :=
  {| messages := messages s;
     persistedTransactions := transactions;
     stored := stored s |}.

Definition persistTransaction (m : StatusMessage) (s : State) : State :=
  if isSuccess (type m) && hasHash (txHash m)
  then
    let prev := persistedTransactions s in
    if existsb (fun tx => sameHash (txHash tx) (txHash m)) prev then s
    else
      let updated := firstn MAX_PERSISTED_TRANSACTIONS (m :: prev) in
      setPersistedTransactions updated (savePersistedTransactions updated s)
  else s.

(** [addMessage]: the new state and the identifier it returns. *)
Definition addMessage (messageData : Orchestrator.StatusMessage)
           (newId : string) (now : Z) (s : State) : State * string :=
  let newMessage := stamped messageData newId now in
  let s := setMessages (fun prev => firstn 3 (newMessage :: prev)) s in
  let s :=
    if isSuccess (Orchestrator.type messageData)
       && hasHash (Orchestrator.txHash messageData)
    then persistTransaction newMessage s
    else s in
  (s, id newMessage).

(** Whether [addMessage] starts the ten-second timer whose expiry is
    [removeMessage] of the new identifier. *)
Definition autoRemoved (messageData : Orchestrator.StatusMessage) : bool :=
  isSuccess (Orchestrator.type messageData)
  || isInfo (Orchestrator.type messageData).

(** [copy[existingIndex] = updated] at the first message whose id is the
    key, when there is one. *)
Fixpoint replaceFirst (key : string) (updated : StatusMessage)
         (prev : list StatusMessage) : option (list StatusMessage) :=
  match prev with
  | [] => None
  | m :: rest =>
      if String.eqb (id m) key then Some (updated :: rest)
      else option_map (cons m) (replaceFirst key updated rest)
  end.

(** [upsertMessage]; the clock is read once for the active message and
    once for the persisted one. *)
Definition upsertMessage (key : string)
           (messageData : Orchestrator.StatusMessage)
           (now persistedAt : Z) (s : State) : State :=
  let updated := stamped messageData key now in
  let s :=
    setMessages
      (fun prev =>
         match replaceFirst key updated prev with
         | Some copy => copy
         | None => firstn 3 (updated :: prev)
         end) s in
  if isSuccess (Orchestrator.type messageData)
     && hasHash (Orchestrator.txHash messageData)
  then persistTransaction (stamped messageData key persistedAt) s
  else s.

Definition removeMessage (key : string) (s : State) : State :=
  setMessages (List.filter (fun msg => negb (String.eqb (id msg) key))) s.

Definition clearMessages (s : State) : State := setMessages (fun _ => []) s.

Definition clearPersistedTransaction (key : string) (s : State) : State :=
  let updated :=
    List.filter (fun tx => negb (String.eqb (id tx) key))
                (persistedTransactions s) in
  setPersistedTransactions updated (savePersistedTransactions updated s).

(** [loadPersistedTransactions] on the stored item as parsed ([None]:
    nothing stored, or the item cannot be read), and the mount effect. *)
Definition loadPersistedTransactions (item : option (list StatusMessage))
           (now : Z) : list StatusMessage :=
  match item with
  | Some parsed =>
      let sevenDaysAgo := now - 7 * 24 * 60 * 60 * 1000 in
      List.filter (fun tx => sevenDaysAgo <? timestamp tx) parsed
  | None => []
  end.

Definition mount (now : Z) (s : State) : State :=
  setPersistedTransactions (loadPersistedTransactions (stored s) now) s.

(** A page reload: the state cells start over, the stored item stays,
    and the mount effect runs. *)
Definition reload (now : Z) (s : State) : State :=
  mount now {| messages := []; persistedTransactions := [];
               stored := stored s |}.

Definition recent (now : Z) (tx : StatusMessage) : Prop :=
  now - 7 * 24 * 60 * 60 * 1000 < timestamp tx.

(** *** The balance component's message commands, delivered *)

(** What the provider needs from the outside for one call: a fresh
    identifier and two readings of the clock. *)
Record Stamp : Type := {
  freshId : string;
  clock : Z;
  clockAfter : Z
}.

Definition deliver (stamp : Stamp) (cmd : Orchestrator.Command) (s : State)
  : State :=
  match cmd with
  | Orchestrator.UpsertMessage key m =>
      upsertMessage key m (clock stamp) (clockAfter stamp) s
  | Orchestrator.AddMessage m =>
      fst (addMessage m (freshId stamp) (clock stamp) s)
  | Orchestrator.RemoveMessage key => removeMessage key s
  | Orchestrator.ClearMessages => clearMessages s
  | _ => s
  end.

(** The commands of one handler run, each with its own stamp. *)
Fixpoint deliverAll (stamps : nat -> Stamp) (n : nat)
         (cmds : list Orchestrator.Command) (s : State) : State :=
  match cmds with
  | [] => s
  | cmd :: rest =>
      deliverAll stamps (S n) rest (deliver (stamps n) cmd s)
  end.

End Storage.

(** The invariants of the two lists. *)
Definition bounded (s : State) : Prop :=
  (List.length (messages s) <= 3)%nat.

Definition wellKept (s : State) : Prop :=
  (List.length (persistedTransactions s) <= MAX_PERSISTED_TRANSACTIONS)%nat
  /\ NoDup (map txHash (persistedTransactions s)).

Definition find (key : string) (s : State) : option StatusMessage :=
  List.find (fun m => String.eqb (id m) key) (messages s).

(** The stored item is the history as the provider holds it. *)
Definition mirrored (s : State) : Prop :=
  stored s = Some (persistedTransactions s).

End TransactionStatus.

(** ** NEAR contract reader (utils/nearContract) *)

Module Near.

(** The JSON-RPC answer as [viewMethod] looks at it: [data.error], with
    its message when it has one, and the bytes of [data.result.result]. *)
Record RpcResponse : Type := {
  error : option (option string);
  result : option (list Z)
}.

Record ActivityLog : Type := {
  activity_type : string;
  source_chain : Z;
  destination_chain : Z;
  timestamp : Z;
  nonce : Z;
  expected_amount : string;
  actual_amount : option string;
  transactions : list (list Z)
}.

Record SignedTransaction : Type := {
  payload_type : Z;
  raw_transaction : string
}.

Record ChainAllocation : Type := {
  chainId : Z;
  amount : string
}.

Definition hexDigit (d : Z) : ascii :=
  match d with
  | 0 => "0" | 1 => "1" | 2 => "2" | 3 => "3" | 4 => "4" | 5 => "5"
  | 6 => "6" | 7 => "7" | 8 => "8" | 9 => "9" | 10 => "a" | 11 => "b"
  | 12 => "c" | 13 => "d" | 14 => "e" | _ => "f"
  end%char.

Fixpoint hexDigits (fuel : nat) (n : Z) (acc : string) : string :=
  match fuel with
  | O => acc
  | S fuel' =>
      let acc' := String (hexDigit (n mod 16)) acc in
      if n <? 16 then acc' else hexDigits fuel' (n / 16) acc'
  end.

(** [n.toString(16)] of an integer; a number of [k] bits has at most [k]
    hexadecimal digits. *)
Definition toString16 (n : Z) : string :=
  if n <? 0
  then "-" ++ hexDigits (S (Z.to_nat (Z.log2 (- n)))) (- n) ""
  else hexDigits (S (Z.to_nat (Z.log2 n))) n "".

Fixpoint repeatChar (n : nat) (c : ascii) : string :=
  match n with
  | O => EmptyString
  | S k => String c (repeatChar k c)
  end.

(** [s.padStart(targetLength, c)] for a one-character pad. *)
Definition padStart (targetLength : nat) (c : ascii) (s : string) : string :=
  repeatChar (targetLength - String.length s) c ++ s.

Definition hexByte (byte : Z) : string := padStart 2 "0" (toString16 byte).

(** One iteration of the loop of [getSignedTransactions]. *)
Definition signedTransaction (payload : list Z) : option SignedTransaction :=
  match payload with
  | [] => None
  | first :: rest =>
      Some {| payload_type := first;
              raw_transaction := Str.join (map hexByte rest) |}
  end.

Fixpoint transactionsOf (rawPayloads : list (list Z))
  : list SignedTransaction :=
  match rawPayloads with
  | [] => []
  | payload :: rest =>
      match signedTransaction payload with
      | Some tx => tx :: transactionsOf rest
      | None => transactionsOf rest
      end
  end.

Section Reader.

(** [JSON.parse(Buffer.from(bytes).toString())] at the type each method
    casts it to. *)
Variable parsePayloads : list Z -> Result (list (list Z)).
Variable parseLogs : list Z -> Result (list ActivityLog).
Variable parseAllocations : list Z -> Result (list (Z * string)).

(** [viewMethod] on what the request resolved or rejected with. *)
Definition viewMethod {A : Type} (parse : list Z -> Result A)
           (fetched : Result RpcResponse) : Result A :=
  match fetched with
  | Throw e => Throw e
  | Ok data =>
      match error data with
      | Some e =>
          Throw ("NEAR RPC Error: "
                 ++ Orchestrator.orElse (Orchestrator.message_of e)
                                        "Unknown error")
      | None =>
          match result data with
          | None => Throw "Invalid response from NEAR RPC"
          | Some bytes => parse bytes
          end
      end
  end.

Definition testConnection (fetched : Result RpcResponse) : bool :=
  match viewMethod parseAllocations fetched with
  | Ok _ => true
  | Throw _ => false
  end.

Definition getAllocations (fetched : Result RpcResponse)
  : Result (list ChainAllocation) :=
  match viewMethod parseAllocations fetched with
  | Ok rawAllocations =>
      Ok (map (fun pair => {| chainId := fst pair; amount := snd pair |})
              rawAllocations)
  | Throw e => Throw e
  end.

Definition getLatestLogs (fetched : Result RpcResponse)
  : Result (list ActivityLog) :=
  viewMethod parseLogs fetched.

Definition getSignedTransactions (fetched : Result RpcResponse)
  : Result (list SignedTransaction) :=
  match viewMethod parsePayloads fetched with
  | Ok rawPayloads => Ok (transactionsOf rawPayloads)
  | Throw e => Throw e
  end.

Definition getCrossChainActivity (fetched : Result RpcResponse)
  : list ActivityLog :=
  match getLatestLogs fetched with
  | Ok logs =>
      List.filter
        (fun log => negb (source_chain log =? destination_chain log)) logs
  | Throw _ => []
  end.

Definition getPendingEthereumTransactions (fetched : Result RpcResponse)
  : list SignedTransaction :=
  match getSignedTransactions fetched with
  | Ok txs => List.filter (fun tx => payload_type tx =? 1) txs
  | Throw _ => []
  end.

End Reader.

(** Reading a hexadecimal string back, two digits to a byte. *)
Definition hexValue (c : ascii) : option Z :=
  let n := Z.of_nat (nat_of_ascii c) in
  if (48 <=? n) && (n <=? 57) then Some (n - 48)
  else if (97 <=? n) && (n <=? 102) then Some (n - 87)
  else None.

Fixpoint bytesOfHex (s : string) : option (list Z) :=
  match s with
  | EmptyString => Some []
  | String hi (String lo rest) =>
      match hexValue hi, hexValue lo, bytesOfHex rest with
      | Some h, Some l, Some bytes => Some (16 * h + l :: bytes)
      | _, _, _ => None
      end
  | String _ EmptyString => None
  end.

Definition isByte (b : Z) : Prop := 0 <= b < 256.

(** Whether the two digits of a byte read back as the byte. *)
Definition byteRoundTrips (b : Z) : bool :=
  match hexByte b with
  | String hi (String lo EmptyString) =>
      match hexValue hi, hexValue lo with
      | Some h, Some l => 16 * h + l =? b
      | _, _ => false
      end
  | _ => false
  end.

End Near.

(** ** Welcome provider (WelcomeContext)

    Four state cells and four effects.  An effect runs in a commit when
    one of its dependencies differs from the previous render (all of them
    on mount); it reads the cells as the render closed over them and its
    setters take effect in the next render. *)

Module Welcome.

Record State : Type := {
  showWelcome : bool;
  hasDeposits : bool;
  showWelcomeBack : bool;
  yieldEarned : float
}.

Definition initial : State :=
  {| showWelcome := false; hasDeposits := false; showWelcomeBack := false;
     yieldEarned := 0%float |}.

(** What [useAccount] and the shares read show in a render. *)
Record Account : Type := {
  address : option string;
  isConnected : bool;
  chainId : option Z;
  vaultShares : option Z
}.

(** Which dependencies changed since the previous render. *)
Record Changed : Type := {
  addressChanged : bool;
  isConnectedChanged : bool;
  chainIdChanged : bool;
  hasDepositsChanged : bool;
  vaultSharesChanged : bool
}.

Definition everything : Changed :=
  {| addressChanged := true; isConnectedChanged := true;
     chainIdChanged := true; hasDepositsChanged := true;
     vaultSharesChanged := true |}.

Definition setShowWelcome (v : bool) (s : State) : State :=
  {| showWelcome := v; hasDeposits := hasDeposits s;
     showWelcomeBack := showWelcomeBack s; yieldEarned := yieldEarned s |}.

Definition setHasDeposits (v : bool) (s : State) : State :=
  {| showWelcome := showWelcome s; hasDeposits := v;
     showWelcomeBack := showWelcomeBack s; yieldEarned := yieldEarned s |}.

Definition setShowWelcomeBack (v : bool) (s : State) : State :=
  {| showWelcome := showWelcome s; hasDeposits := hasDeposits s;
     showWelcomeBack := v; yieldEarned := yieldEarned s |}.

Definition setYieldEarned (v : float) (s : State) : State :=
  {| showWelcome := showWelcome s; hasDeposits := hasDeposits s;
     showWelcomeBack := showWelcomeBack s; yieldEarned := v |}.

Definition hasAddress (a : Account) : bool :=
  match Orchestrator.truthyString (address a) with
  | Some _ => true
  | None => false
  end.

(** [Math.round]: the nearest integer, a tie going up; zeros, infinities
    and [NaN] are returned as they are. *)
Definition round (x : float) : float :=
  match Prim2SF x with
  | S754_finite s m e =>
      if 0 <=? e then x
      else
        let num := (if s then Zneg m else Zpos m) * 2 + 2 ^ (- e) in
        let n := num / 2 ^ (1 - e) in
        if n =? 0 then (if s then PrimFloat.neg_zero else 0%float)
        else Units.numberOfUnits n 0
  | _ => x
  end.

(** The yield shown for a share balance: a day of 4.5% a year, rounded
    to cents. *)
Definition dailyYield (shares : Z) : float :=
  let userShares := PrimFloat.div (Units.numberOfUnits shares 0) 1e6%float in
  let AAVE_APY := 0.045%float in
  let dailyYield :=
    PrimFloat.div (PrimFloat.mul userShares AAVE_APY) 365%float in
  PrimFloat.div (round (PrimFloat.mul dailyYield 100%float)) 100%float.

(** Effect 1: reset when the wallet address changes (both branches of
    the source do the same). *)
Definition resetOnAddress (s : State) : State :=
  setShowWelcome false (setHasDeposits false s).

(** Effect 2: [hasDeposits] from the vault shares. *)
Definition updateHasDeposits (a : Account) (s : State) : State :=
  match vaultShares a with
  | Some shares =>
      if hasAddress a then setHasDeposits (0 <? shares) s else s
  | None => s
  end.

(** Effect 3: the welcome card. *)
Definition welcomeCard (r : State) (a : Account) (s : State) : State :=
  if negb (isConnected a) || negb (hasAddress a)
  then setShowWelcomeBack false (setShowWelcome false s)
  else if isConnected a && negb (hasDeposits r)
  then setShowWelcomeBack false (setShowWelcome true s)
  else setShowWelcome false s.

(** Effect 4: the welcome-back card and the yield. *)
Definition welcomeBack (r : State) (a : Account) (s : State) : State :=
  if negb (hasAddress a) || negb (isConnected a) || negb (hasDeposits r)
  then setShowWelcomeBack false s
  else
    match vaultShares a with
    | Some shares =>
        if shares =? 0
        then setShowWelcomeBack false (setYieldEarned 0%float s)
        else setShowWelcomeBack true (setYieldEarned (dailyYield shares) s)
    | None => setShowWelcomeBack false (setYieldEarned 0%float s)
    end.

Definition runIf (b : bool) (effect : State -> State) (s : State) : State :=
  if b then effect s else s.

(** The effects of one commit of a render with cells [r], in order. *)
Definition commit (d : Changed) (r : State) (a : Account) : State :=
  let s := runIf (addressChanged d) resetOnAddress r in
  let s := runIf (vaultSharesChanged d || addressChanged d || chainIdChanged d)
                 (updateHasDeposits a) s in
  let s := runIf (isConnectedChanged d || hasDepositsChanged d
                  || addressChanged d) (welcomeCard r a) s in
  runIf (addressChanged d || isConnectedChanged d || hasDepositsChanged d
         || vaultSharesChanged d) (welcomeBack r a) s.

Definition mount (a : Account) : State := commit everything initial a.


Definition dismissWelcome (s : State) : State := setShowWelcome false s.

Definition dismissWelcomeBack (s : State) : State :=
  setShowWelcomeBack false s.

End Welcome.

(** ** Message state provider (MessageStateContext) *)

Module MessageState.

(** The keys of the two priority tables. *)
Inductive MessageType : Type := Loading | Error | Success | Info | Idle.

Inductive MessageCategory : Type :=
| Welcome | WelcomeBack | Deposit | Withdraw | VaultShares.

Definition MESSAGE_PRIORITIES (t : MessageType) : Z :=
  match t with
  | Loading => 100
  | Error => 90
  | Success => 80
  | Info => 50
  | Idle => 40
  end.

Definition CATEGORY_PRIORITY_BOOST (c : MessageCategory) : Z :=
  match c with
  | Welcome => 0
  | WelcomeBack => 5
  | Deposit => 10
  | Withdraw => 10
  | VaultShares => 5
  end.

Definition calculatePriority (t : MessageType) (c : MessageCategory) : Z :=
  let basePriority := MESSAGE_PRIORITIES t in
  let categoryBoost :=
    if CATEGORY_PRIORITY_BOOST c =? 0 then 0 else CATEGORY_PRIORITY_BOOST c in
  basePriority + categoryBoost.

Record ActiveMessage : Type := {
  type : MessageType;
  category : MessageCategory;
  content : string;
  persistent : option bool;
  id : string;
  timestamp : Z;
  priority : Z
}.

(** [Omit<ActiveMessage, 'id' | 'timestamp'>]. *)
Record Draft : Type := {
  draftType : MessageType;
  draftCategory : MessageCategory;
  draftContent : string;
  draftPersistent : option bool;
  draftPriority : Z
}.

Definition MessageType_eqb (a b : MessageType) : bool :=
  match a, b with
  | Loading, Loading | Error, Error | Success, Success | Info, Info
  | Idle, Idle => true
  | _, _ => false
  end.

Definition MessageCategory_eqb (a b : MessageCategory) : bool :=
  match a, b with
  | Welcome, Welcome | WelcomeBack, WelcomeBack | Deposit, Deposit
  | Withdraw, Withdraw | VaultShares, VaultShares => true
  | _, _ => false
  end.

(** [msg.persistent === true]. *)
Definition isPersistent (m : ActiveMessage) : bool :=
  match persistent m with Some true => true | _ => false end.

(** [list.sort((a, b) => b.priority - a.priority)]: stable, descending. *)
Fixpoint insertByPriority (x : ActiveMessage) (sorted : list ActiveMessage)
  : list ActiveMessage :=
  match sorted with
  | [] => [x]
  | y :: rest =>
      if priority y - priority x <=? 0 then x :: sorted
      else y :: insertByPriority x rest
  end.

Definition sortByPriority (l : list ActiveMessage) : list ActiveMessage :=
  fold_right insertByPriority [] l.

Definition activate (message : Draft) (newId : string) (now : Z)
  : ActiveMessage :=
  {| type := draftType message;
     category := draftCategory message;
     content := draftContent message;
     persistent := draftPersistent message;
     id := newId;
     timestamp := now;
     priority := calculatePriority (draftType message)
                                   (draftCategory message) |}.

Definition addMessage (message : Draft) (newId : string) (now : Z)
           (prev : list ActiveMessage) : list ActiveMessage :=
  let newMessage := activate message newId now in
  let filtered :=
    List.filter
      (fun msg =>
         negb (MessageCategory_eqb (category msg) (draftCategory message))
         || isPersistent msg) prev in
  sortByPriority (filtered ++ [newMessage])%list.

Definition removeMessage (key : string) (prev : list ActiveMessage)
  : list ActiveMessage :=
  List.filter (fun msg => negb (String.eqb (id msg) key)) prev.

Definition clearMessages (prev : list ActiveMessage) : list ActiveMessage :=
  [].

Definition clearMessagesByCategory (c : MessageCategory)
           (prev : list ActiveMessage) : list ActiveMessage :=
  List.filter (fun msg => negb (MessageCategory_eqb (category msg) c)) prev.

Definition isWelcomeCategory (c : MessageCategory) : bool :=
  match c with Welcome | WelcomeBack => true | _ => false end.

Definition isTransactionCategory (c : MessageCategory) : bool :=
  match c with Deposit | Withdraw | VaultShares => true | _ => false end.

(** One tick of the auto-hide timer. *)
Definition autoHide (now : Z) (prev : list ActiveMessage)
  : list ActiveMessage :=
  List.filter
    (fun msg =>
       isPersistent msg
       || MessageType_eqb (type msg) Loading
       || MessageType_eqb (type msg) Success
       || MessageCategory_eqb (category msg) Welcome
       || MessageCategory_eqb (category msg) WelcomeBack
       || (now - timestamp msg <? 5000)) prev.

Definition primaryMessage (activeMessages : list ActiveMessage)
  : option ActiveMessage :=
  match activeMessages with
  | [] => None
  | m :: _ => Some m
  end.

Definition hasTransactionMessages (activeMessages : list ActiveMessage)
  : bool :=
  existsb (fun msg => isTransactionCategory (category msg)) activeMessages.

(** *** Transaction messages as active messages *)

Definition typeOf (text : string) : MessageType :=
  if Str.includes "progress" text || Str.includes "pending" text
  then Loading
  else if Str.includes "successful" text || Str.includes "confirmed" text
  then Success
  else if Str.includes "failed" text || Str.includes "error" text
  then Error
  else Info.

Definition categoryOf (text : string) : MessageCategory :=
  let lower := Str.toLowerCase text in
  if Str.includes "deposit" lower then Deposit
  else if Str.includes "withdraw" lower then Withdraw
  else if Str.includes "vault" lower || Str.includes "shares" lower
  then VaultShares
  else Deposit.

Definition draftOf (txMsg : TransactionStatus.StatusMessage) : Draft :=
  let t := typeOf (TransactionStatus.message txMsg) in
  let c := categoryOf (TransactionStatus.message txMsg) in
  {| draftType := t;
     draftCategory := c;
     draftContent := TransactionStatus.message txMsg;
     draftPersistent :=
       Some (MessageType_eqb t Loading || MessageType_eqb t Success);
     draftPriority := calculatePriority t c |}.

(** The effect on the transaction messages: the previous transaction
    messages are dropped and the current ones added in order, each with
    its own identifier and clock reading. *)
Fixpoint addAll (stamps : nat -> string * Z) (n : nat)
         (txMsgs : list TransactionStatus.StatusMessage)
         (prev : list ActiveMessage) : list ActiveMessage :=
  match txMsgs with
  | [] => prev
  | txMsg :: rest =>
      addAll stamps (S n) rest
             (addMessage (draftOf txMsg) (fst (stamps n)) (snd (stamps n))
                         prev)
  end.

Definition syncTransactionMessages (stamps : nat -> string * Z)
           (transactionMessages : list TransactionStatus.StatusMessage)
           (prev : list ActiveMessage) : list ActiveMessage :=
  addAll stamps 0 transactionMessages
         (List.filter
            (fun msg => negb (isTransactionCategory (category msg))) prev).

End MessageState.

(** ** Activity panel (ActivityGraphQL, useActivityData) *)

Module Activity.

Record TimeRemaining : Type := {
  hours : Z;
  minutes : Z
}.

Definition initialTime : TimeRemaining := {| hours := 1; minutes := 25 |}.

(** The updater of the countdown, run once a minute. *)
Definition tick (prev : TimeRemaining) : TimeRemaining :=
  if 0 <? minutes prev
  then {| hours := hours prev; minutes := minutes prev - 1 |}
  else if 0 <? hours prev
  then {| hours := hours prev - 1; minutes := 59 |}
  else {| hours := 1; minutes := 25 |}.

Definition minutesLeft (t : TimeRemaining) : Z := 60 * hours t + minutes t.

(** The countdown after [n] minutes. *)
Fixpoint ticks (n : nat) (t : TimeRemaining) : TimeRemaining :=
  match n with
  | O => t
  | S k => ticks k (tick t)
  end.

Inductive ActivityType : Type :=
| DEPOSIT | WITHDRAWAL | REBALANCE | HARVEST | ALLOCATION.

Record ActivityEntry : Type := {
  id : string;
  type : ActivityType;
  title : string;
  description : string;
  amount : option float;
  chainName : option string;
  userAddress : option string;
  transactionHash : option string;
  timestamp : string;
  icon : string;
  timeAgo : option string
}.

(** The first match of [/(\d+(?:\.\d+)?)/]: the leftmost run of digits,
    with a point and the digits after it when there are any; as the
    integer its digits spell and the number of digits after the point. *)
Definition digitsAt (s : string) : string := Str.takeWhile Str.is_digit s.

Definition numberAt (s : string) : string * string :=
  let whole := digitsAt s in
  match Str.drop (String.length whole) s with
  | String c rest =>
      if Str.is_dot c then (whole, digitsAt rest) else (whole, EmptyString)
  | EmptyString => (whole, EmptyString)
  end.

Fixpoint amountMatch (s : string) : option (string * string) :=
  match s with
  | EmptyString => None
  | String c rest =>
      if Str.is_digit c then Some (numberAt s) else amountMatch rest
  end.

(** [parseFloat] of the match: the nearest number to the decimal. *)
Definition amountOf (text : string) : option float :=
  match amountMatch text with
  | Some (whole, frac) =>
      match Env.digitsValue 0 (whole ++ frac) with
      | Some n =>
          Some (Units.numberOfUnits n (Z.of_nat (String.length frac)))
      | None => None
      end
  | None => None
  end.

Section Conversion.

(** [new Date(ms).toISOString()]. *)
Variable toISOString : Z -> string.

Definition convertMessageToActivity (msg : TransactionStatus.StatusMessage)
  : option ActivityEntry :=
  let messageText := Str.toLowerCase (TransactionStatus.message msg) in
  let isWithdraw := Str.includes "withdraw" messageText in
  let isApproval := Str.includes "approval" messageText in
  if isApproval then None
  else
    Some {| id := "tx_" ++ TransactionStatus.id msg;
            type := if isWithdraw then WITHDRAWAL else DEPOSIT;
            title := TransactionStatus.message msg;
            description := "Recent transaction";
            amount := amountOf (TransactionStatus.message msg);
            chainName := None;
            userAddress := None;
            transactionHash := TransactionStatus.txHash msg;
            timestamp := toISOString (TransactionStatus.timestamp msg);
            icon := if isWithdraw then "/withdraw.svg" else "/deposit.svg";
            timeAgo := None |}.

(** The filter with the [seen] set: a transaction is kept when its hash
    is truthy and has not been seen. *)
Fixpoint uniqueTransactions (seen : list string)
         (allTransactions : list TransactionStatus.StatusMessage)
  : list TransactionStatus.StatusMessage :=
  match allTransactions with
  | [] => []
  | tx :: rest =>
      match Orchestrator.truthyString (TransactionStatus.txHash tx) with
      | Some hash =>
          if existsb (String.eqb hash) seen
          then uniqueTransactions seen rest
          else tx :: uniqueTransactions (hash :: seen) rest
      | None => uniqueTransactions seen rest
      end
  end.

(** [list.map(f).filter(Boolean)]. *)
Fixpoint present {A : Type} (l : list (option A)) : list A :=
  match l with
  | [] => []
  | Some a :: rest => a :: present rest
  | None :: rest => present rest
  end.

Definition getRecentTransactionActivities (s : TransactionStatus.State)
  : list ActivityEntry :=
  let allTransactions :=
    (List.filter
       (fun msg =>
          TransactionStatus.isSuccess (TransactionStatus.type msg)
          && TransactionStatus.hasHash (TransactionStatus.txHash msg))
       (TransactionStatus.messages s)
     ++ TransactionStatus.persistedTransactions s)%list in
  present (map convertMessageToActivity
               (uniqueTransactions [] allTransactions)).

End Conversion.

End Activity.

(** ** Terms of use (TermsModal)

    The modal is shown until the current version of the terms has been
    accepted; the accepted version is kept in the browser's storage, which
    the component reads and writes without a [try]. *)

Module Terms.

Definition TERMS_ACCEPTED_KEY : string := "yieldr_terms_accepted".
Definition TERMS_VERSION : string := "2025-12-03".

Record State : Type := {
  showModal : bool;
  mounted : bool
}.

Definition initial : State := {| showModal := false; mounted := false |}.

(** The browser's storage as the component meets it: the item under
    [TERMS_ACCEPTED_KEY], and the exception that [getItem] and [setItem]
    throw when they do (storage blocked, quota exceeded). *)
Record Storage : Type := {
  item : option string;
  getItemThrows : option string;
  setItemThrows : option string
}.

Definition getItem (storage : Storage) : Result (option string) :=
  match getItemThrows storage with
  | Some e => Throw e
  | None => Ok (item storage)
  end.

(** [setItem(TERMS_ACCEPTED_KEY, value)]: the storage afterwards. *)
Definition setItem (value : string) (storage : Storage) : Result Storage :=
  match setItemThrows storage with
  | Some e => Throw e
  | None => Ok {| item := Some value;
                  getItemThrows := getItemThrows storage;
                  setItemThrows := setItemThrows storage |}
  end.

(** [acceptedVersion !== TERMS_VERSION] on what [getItem] returns. *)
Definition isCurrent (acceptedVersion : option string) : bool :=
  match acceptedVersion with
  | Some v => String.eqb v TERMS_VERSION
  | None => false
  end.

(** The mount effect: [setMounted(true)] comes first, so it stands when
    [getItem] throws. *)
Definition mount (storage : Storage) (s : State) : State * Result unit :=
  let s1 := {| showModal := showModal s; mounted := true |} in
  match getItem storage with
  | Ok acceptedVersion =>
      (if isCurrent acceptedVersion then s1
       else {| showModal := true; mounted := mounted s1 |}, Ok tt)
  | Throw e => (s1, Throw e)
  end.

(** [handleAccept]: the cells and the storage afterwards.  [setItem] comes
    first: when it throws, the modal is not hidden. *)
Definition handleAccept (storage : Storage) (s : State)
  : State * Storage * Result unit :=
  match setItem TERMS_VERSION storage with
  | Ok written =>
      ({| showModal := false; mounted := mounted s |}, written, Ok tt)
  | Throw e => (s, storage, Throw e)
  end.

(** Whether the component renders the modal. *)
Definition rendered (s : State) : bool :=
  negb (negb (mounted s) || negb (showModal s)).

(** A storage that works and holds [acceptedVersion]. *)
Definition working (acceptedVersion : option string) : Storage :=
  {| item := acceptedVersion; getItemThrows := None; setItemThrows := None |}.

End Terms.

(** * Properties *)

(** ** Strings *)

Section StrFacts.

Variable p : ascii -> bool.

Lemma count_append (a b : string) :
  Str.count p (a ++ b) = (Str.count p a + Str.count p b)%nat.
Proof.
  induction a as [|c a IH]; simpl; [reflexivity|].
  destruct (p c); simpl; rewrite IH; reflexivity.
Qed.

Lemma forallb_append (a b : string) :
  Str.forallb p (a ++ b) = Str.forallb p a && Str.forallb p b.
Proof.
  induction a as [|c a IH]; simpl; [reflexivity|].
  rewrite IH, andb_assoc. reflexivity.
Qed.

Lemma forallb_filter (s : string) : Str.forallb p (Str.filter p s) = true.
Proof.
  induction s as [|c s IH]; simpl; [reflexivity|].
  destruct (p c) eqn:E; simpl; [rewrite E|]; exact IH.
Qed.

Lemma forallb_take (n : nat) (s : string) :
  Str.forallb p s = true -> Str.forallb p (Str.take n s) = true.
Proof.
  revert s. induction n as [|n IH]; intros [|c s]; simpl; try reflexivity.
  intro H. apply andb_true_iff in H. destruct H as [Hc Hs].
  rewrite Hc. simpl. apply IH. exact Hs.
Qed.

Lemma count_take_zero (n : nat) (s : string) :
  Str.count p s = O -> Str.count p (Str.take n s) = O.
Proof.
  revert s. induction n as [|n IH]; intros [|c s]; simpl; try reflexivity.
  destruct (p c); [discriminate|]. apply IH.
Qed.

Lemma forallb_join (parts : list string) :
  Forall (fun q => Str.forallb p q = true) parts ->
  Str.forallb p (Str.join parts) = true.
Proof.
  induction 1 as [|q parts Hq _ IH]; simpl; [reflexivity|].
  rewrite forallb_append, Hq, IH. reflexivity.
Qed.

Lemma count_join_zero (parts : list string) :
  Forall (fun q => Str.count p q = O) parts ->
  Str.count p (Str.join parts) = O.
Proof.
  induction 1 as [|q parts Hq _ IH]; simpl; [reflexivity|].
  rewrite count_append, Hq, IH. reflexivity.
Qed.

End StrFacts.

Lemma length_take (n : nat) (s : string) :
  (String.length (Str.take n s) <= n)%nat.
Proof.
  revert s. induction n as [|n IH]; intros [|c s]; simpl; try lia.
  specialize (IH s). lia.
Qed.

(** The parts of a split hold no separator, and there is one more part than
    there are separators. *)
Lemma split_parts_clean (s : string) :
  Forall (fun q => Str.count Str.is_dot q = O) (Str.split "." s).
Proof.
  induction s as [|c s IH]; simpl.
  - constructor; [reflexivity | constructor].
  - destruct (Ascii.eqb c ".") eqn:E.
    + constructor; [reflexivity | exact IH].
    + destruct (Str.split "." s) as [|q qs].
      * constructor; [|constructor]. simpl. unfold Str.is_dot. rewrite E.
        reflexivity.
      * inversion IH as [|? ? Hq Hqs]; subst. constructor; [|exact Hqs].
        simpl. unfold Str.is_dot at 1. rewrite E. exact Hq.
Qed.

Lemma split_length (s : string) :
  List.length (Str.split "." s) = S (Str.count Str.is_dot s).
Proof.
  induction s as [|c s IH]; simpl; [reflexivity|].
  unfold Str.is_dot at 1. destruct (Ascii.eqb c ".") eqn:E; simpl.
  - rewrite IH. reflexivity.
  - destruct (Str.split "." s) as [|q qs]; simpl in *; [discriminate|].
    exact IH.
Qed.

Lemma split_parts_forallb (p : ascii -> bool) (s : string) :
  Str.forallb p s = true ->
  Forall (fun q => Str.forallb p q = true) (Str.split "." s).
Proof.
  induction s as [|c s IH]; simpl; intro H.
  - constructor; [reflexivity | constructor].
  - apply andb_true_iff in H. destruct H as [Hc Hs]. specialize (IH Hs).
    destruct (Ascii.eqb c ".").
    + constructor; [reflexivity | exact IH].
    + destruct (Str.split "." s) as [|q qs].
      * constructor; [|constructor]. simpl. rewrite Hc. reflexivity.
      * inversion IH as [|? ? Hq Hqs]; subst. constructor; [|exact Hqs].
        simpl. rewrite Hc, Hq. reflexivity.
Qed.

(** Joining the parts with the separator gives the string back. *)
Lemma split_concat (s : string) : String.concat "." (Str.split "." s) = s.
Proof.
  induction s as [|c s IH]; simpl; [reflexivity|].
  destruct (Ascii.eqb c ".") eqn:E.
  - apply Ascii.eqb_eq in E. subst c.
    destruct (Str.split "." s) as [|q qs] eqn:Es.
    + pose proof (split_length s) as L. rewrite Es in L. discriminate.
    + cbn [String.concat]. cbn [String.concat] in IH. rewrite IH.
      reflexivity.
  - destruct (Str.split "." s) as [|q qs] eqn:Es.
    + pose proof (split_length s) as L. rewrite Es in L. discriminate.
    + rewrite <- IH. destruct qs as [|q' qs']; reflexivity.
Qed.

Lemma split_clean (s : string) :
  Str.count Str.is_dot s = O -> Str.split "." s = [s].
Proof.
  induction s as [|c s IH]; simpl; [reflexivity|].
  unfold Str.is_dot at 1. destruct (Ascii.eqb c "."); [discriminate|].
  intro H. rewrite (IH H). reflexivity.
Qed.

Lemma split_two (a b : string) :
  Str.count Str.is_dot a = O -> Str.count Str.is_dot b = O ->
  Str.split "." (a ++ "." ++ b) = [a; b].
Proof.
  intros Ha Hb. induction a as [|c a IH]; simpl.
  - rewrite (split_clean b Hb). reflexivity.
  - simpl in Ha. unfold Str.is_dot at 1 in Ha.
    destruct (Ascii.eqb c "."); [discriminate|].
    simpl in IH. rewrite (IH Ha). reflexivity.
Qed.

Lemma fraction_two (a b : string) :
  Str.count Str.is_dot a = O -> Str.count Str.is_dot b = O ->
  Str.fraction (a ++ "." ++ b) = b.
Proof.
  intros Ha Hb. unfold Str.fraction. rewrite (split_two a b Ha Hb).
  reflexivity.
Qed.

(** ** Amount input *)

Lemma amountChar_dot : AmountInput.amountChar "." = true.
Proof. reflexivity. Qed.

Lemma strip_chars (value : string) :
  Str.forallb AmountInput.amountChar (AmountInput.strip value) = true.
Proof. apply forallb_filter. Qed.

(** The two shapes a sanitized amount is built in. *)
Lemma dotted_chars (a b : string) :
  Str.forallb AmountInput.amountChar a = true ->
  Str.forallb AmountInput.amountChar b = true ->
  Str.forallb AmountInput.amountChar (a ++ "." ++ b) = true.
Proof.
  intros Ha Hb. rewrite !forallb_append, Ha, Hb. reflexivity.
Qed.

Lemma dotted_one_point (a b : string) :
  Str.count Str.is_dot a = O -> Str.count Str.is_dot b = O ->
  Str.count Str.is_dot (a ++ "." ++ b) = 1%nat.
Proof.
  intros Ha Hb. rewrite !count_append, Ha, Hb. reflexivity.
Qed.

(** C9, as the code has it: [sanitizeAmountInput] keeps only digits and
    decimal points and leaves at most one point; when the entry holds at
    most one point, at most six digits follow it.  The entry "12.345678"
    already has six fractional digits and is returned unchanged;
    "12.3456789" is cut to "12.345678". *)
Theorem sanitizeAmountInput_shape (value : string) :
  let out := AmountInput.sanitizeAmountInput value in
  Str.forallb AmountInput.amountChar out = true
  /\ (Str.count Str.is_dot out <= 1)%nat
  /\ ((Str.count Str.is_dot (AmountInput.strip value) <= 1)%nat ->
      (String.length (Str.fraction out) <= 6)%nat)
  /\ AmountInput.sanitizeAmountInput "12.345678" = "12.345678"
  /\ AmountInput.sanitizeAmountInput "12.3456789" = "12.345678".
Proof.
  cbv zeta. unfold AmountInput.sanitizeAmountInput.
  pose proof (strip_chars value) as Hchars.
  pose proof (split_parts_clean (AmountInput.strip value)) as Hclean.
  pose proof (split_parts_forallb AmountInput.amountChar _ Hchars) as Hparts.
  pose proof (split_length (AmountInput.strip value)) as Hlen.
  pose proof (split_concat (AmountInput.strip value)) as Hcat.
  destruct (Str.split "." (AmountInput.strip value))
    as [|p0 [|p1 [|p2 rest]]] eqn:E.
  - discriminate Hlen.
  - change (2 <? List.length [p0])%nat with false. cbv iota.
    cbn [String.concat] in Hcat.
    pose proof (Forall_inv Hclean) as H0. pose proof (Forall_inv Hparts) as C0.
    cbv beta in H0, C0. rewrite <- Hcat.
    repeat split; try reflexivity.
    + exact C0.
    + rewrite H0. lia.
    + intros _. unfold Str.fraction. rewrite (split_clean p0 H0). simpl. lia.
  - change (2 <? List.length [p0; p1])%nat with false. cbv iota.
    cbn [String.concat] in Hcat.
    pose proof (Forall_inv Hclean) as H0. pose proof (Forall_inv Hparts) as C0.
    pose proof (Forall_inv (Forall_inv_tail Hclean)) as H1.
    pose proof (Forall_inv (Forall_inv_tail Hparts)) as C1.
    cbv beta in H0, C0, H1, C1.
    destruct (6 <? String.length p1)%nat eqn:L.
    + repeat split; try reflexivity.
      * apply dotted_chars; [exact C0 | apply forallb_take; exact C1].
      * rewrite dotted_one_point;
          [lia | exact H0 | apply count_take_zero; exact H1].
      * intros _. rewrite fraction_two;
          [apply length_take | exact H0 | apply count_take_zero; exact H1].
    + rewrite <- Hcat. repeat split; try reflexivity.
      * apply dotted_chars; assumption.
      * rewrite dotted_one_point; [lia | exact H0 | exact H1].
      * intros _. rewrite fraction_two; [|exact H0 | exact H1].
        apply Nat.ltb_ge in L. exact L.
  - change (2 <? List.length (p0 :: p1 :: p2 :: rest))%nat with true.
    cbv iota.
    pose proof (Forall_inv Hclean) as H0. pose proof (Forall_inv Hparts) as C0.
    pose proof (Forall_inv_tail Hclean) as Hc1.
    pose proof (Forall_inv_tail Hparts) as Hp1.
    cbv beta in H0, C0.
    repeat split; try reflexivity.
    + apply dotted_chars; [exact C0 | apply forallb_join; exact Hp1].
    + rewrite dotted_one_point;
        [lia | exact H0 | apply count_join_zero; exact Hc1].
    + intro Hone. simpl in Hlen. lia.
Qed.

(** The shape theorem at the entry "12.3456789": one point, so at most six
    fractional digits remain. *)
Lemma sanitizeAmountInput_shape_witness :
  (String.length
     (Str.fraction (AmountInput.sanitizeAmountInput "12.3456789")) <= 6)%nat.
Proof.
  apply (proj1 (proj2 (proj2 (sanitizeAmountInput_shape "12.3456789")))).
  vm_compute. lia.
Defined.

(** C9 as stated fails: the entry "12.345678" is not cut to "12.3456". *)
Lemma sanitizeAmountInput_example_counterexample :
  AmountInput.sanitizeAmountInput "12.345678" = "12.345678"
  /\ AmountInput.sanitizeAmountInput "12.345678" <> "12.3456".
Proof. split; [reflexivity | discriminate]. Qed.

(** With a second decimal point in the entry the six-digit cut is skipped:
    the length test still looks at the parts of the entry before the points
    were merged. *)
Lemma sanitizeAmountInput_second_point :
  AmountInput.sanitizeAmountInput "1.2.3456789" = "1.23456789"
  /\ String.length
       (Str.fraction (AmountInput.sanitizeAmountInput "1.2.3456789")) = 8%nat.
Proof. split; reflexivity. Qed.

(** ** Allocation *)

Section AllocationFacts.

Import Allocation.

Variable readTotalAssets : ChainConfig -> Result Z.

Lemma getVaultBalance_chainId (config : ChainConfig) :
  resultChainId (getVaultBalance readTotalAssets config) = chainId config.
Proof.
  unfold getVaultBalance. destruct (no_vault config); [reflexivity|].
  destruct (readTotalAssets config); reflexivity.
Qed.

Lemma rawBalance_unsigned (config : ChainConfig) :
  unsignedReads readTotalAssets -> 0 <= rawBalance readTotalAssets config.
Proof.
  intro U. unfold rawBalance, getVaultBalance.
  destruct (no_vault config); simpl; [lia|].
  destruct (readTotalAssets config) as [v|e] eqn:E; simpl; [|lia].
  exact (U config v E).
Qed.

(** A failed read or an undeployed vault contributes zero. *)
Lemma rawBalance_failed (config : ChainConfig) :
  no_vault config = true \/ (exists e, readTotalAssets config = Throw e) ->
  rawBalance readTotalAssets config = 0.
Proof.
  unfold rawBalance, getVaultBalance. intros [H | [e H]].
  - rewrite H. reflexivity.
  - destruct (no_vault config); [reflexivity|]. rewrite H. reflexivity.
Qed.

Lemma fold_left_balance (results : list BalanceResult) (acc : Z) :
  fold_left (fun sum result => sum + balance result) results acc
  = acc + sumZ (map balance results).
Proof.
  revert acc. induction results as [|x results IH]; intro acc; simpl.
  - lia.
  - rewrite IH. lia.
Qed.

Lemma totalOf_sum (configs : list ChainConfig) :
  totalOf (map (getVaultBalance readTotalAssets) configs)
  = totalRawOf readTotalAssets configs.
Proof.
  unfold totalOf, totalRawOf. rewrite fold_left_balance, map_map.
  reflexivity.
Qed.

(** With distinct chain ids, the lookup by chain id finds the network's own
    read. *)
Lemma balanceFor_own (configs : list ChainConfig) (config : ChainConfig) :
  NoDup (map chainId configs) -> In config configs ->
  balanceFor (map (getVaultBalance readTotalAssets) configs) config
  = rawBalance readTotalAssets config.
Proof.
  unfold balanceFor. induction configs as [|x configs IH]; intros ND Hin.
  - destruct Hin.
  - inversion ND as [|? ? Hx ND']; subst. simpl.
    rewrite getVaultBalance_chainId.
    destruct (chainId x =? chainId config) eqn:E.
    + apply Z.eqb_eq in E. destruct Hin as [-> | Hin]; [reflexivity|].
      exfalso. apply Hx. rewrite E. apply in_map. exact Hin.
    + destruct Hin as [-> | Hin]; [rewrite Z.eqb_refl in E; discriminate|].
      apply IH; assumption.
Qed.

Lemma insertByAllocation_perm (x : AllocationItem) (l : list AllocationItem) :
  Permutation (insertByAllocation x l) (x :: l).
Proof.
  induction l as [|y l IH]; simpl; [apply Permutation_refl|].
  destruct (allocation y - allocation x <=? 0); [apply Permutation_refl|].
  eapply Permutation_trans; [apply perm_skip; exact IH | apply perm_swap].
Qed.

Lemma sortByAllocation_perm (l : list AllocationItem) :
  Permutation (sortByAllocation l) l.
Proof.
  induction l as [|x l IH]; simpl; [apply Permutation_refl|].
  eapply Permutation_trans; [apply insertByAllocation_perm|].
  apply perm_skip. exact IH.
Qed.

Lemma sumZ_perm (l l' : list Z) : Permutation l l' -> sumZ l = sumZ l'.
Proof. induction 1; simpl; lia. Qed.

(** The items of a pass before sorting, with the balance each is built
    from. *)
Lemma allocationItems_own (configs : list ChainConfig) :
  NoDup (map chainId configs) ->
  map (allocationItem (map (getVaultBalance readTotalAssets) configs)
                      (totalOf (map (getVaultBalance readTotalAssets) configs)))
      configs
  = map (fun config =>
           {| name := chainName config;
              icon := or_default
                        (lookup PROTOCOL_ICONS
                                (Str.toLowerCase (chainName config)))
                        "/Chain=ETH.svg";
              apy := calculateEstimatedAPY (chainName config);
              allocation := allocationPercent (totalRawOf readTotalAssets configs)
                                              (rawBalance readTotalAssets config);
              color := or_default
                         (lookup PROTOCOL_COLORS
                                 (Str.toLowerCase (chainName config)))
                         "#666666" |}) configs.
Proof.
  intro ND. apply map_ext_in. intros config Hin. unfold allocationItem.
  rewrite (balanceFor_own configs config ND Hin), totalOf_sum. reflexivity.
Qed.

Lemma percentages_perm (configs : list ChainConfig) :
  NoDup (map chainId configs) ->
  Permutation
    (percentages (fetchAllocationDataOn readTotalAssets configs false))
    (map (fun config =>
            allocationPercent (totalRawOf readTotalAssets configs)
                              (rawBalance readTotalAssets config))
         configs).
Proof.
  intro ND. unfold percentages, fetchAllocationDataOn. cbn [allocations].
  eapply Permutation_trans;
    [apply Permutation_map; apply sortByAllocation_perm|].
  rewrite (allocationItems_own configs ND), map_map. cbn [allocation].
  apply Permutation_refl.
Qed.

(** On unsigned balances truncating division is the floor. *)
Lemma allocationPercent_floor (total bal : Z) :
  0 < total -> 0 <= bal ->
  allocationPercent total bal = (100 * bal) / total.
Proof.
  intros Ht Hb. unfold allocationPercent.
  destruct (0 <? total) eqn:E; [|apply Z.ltb_ge in E; lia].
  rewrite Z.quot_div_nonneg by lia. f_equal. lia.
Qed.

Lemma sumZ_cons (x : Z) (l : list Z) : sumZ (x :: l) = x + sumZ l.
Proof. reflexivity. Qed.

(** Floors of shares of a positive total: the sum of the floors, scaled by
    the total, brackets a hundred times the sum of the balances. *)
Lemma floors_bracket (total : Z) (bals : list Z) :
  0 < total -> Forall (fun b => 0 <= b) bals ->
  let floors := sumZ (map (fun b => (100 * b) / total) bals) in
  total * floors <= 100 * sumZ bals
  /\ 100 * sumZ bals
     <= total * floors + Z.of_nat (List.length bals) * (total - 1).
Proof.
  intros Ht. induction 1 as [|b bals Hb _ IH]; cbv zeta in *.
  - cbn [map List.length]. unfold sumZ. cbn [fold_right]. lia.
  - cbn [map List.length]. rewrite !sumZ_cons.
    pose proof (Z.mul_div_le (100 * b) total Ht) as Hlo.
    pose proof (Z.mod_pos_bound (100 * b) total Ht) as Hmod.
    pose proof (Z.div_mod (100 * b) total ltac:(lia)) as Hdm.
    rewrite Nat2Z.inj_succ, Z.mul_succ_l, Z.mul_add_distr_l.
    destruct IH as [IH1 IH2]. split; lia.
Qed.

End AllocationFacts.

Lemma fetch_length (read : Allocation.ChainConfig -> Result Z)
      (configs : list Allocation.ChainConfig) :
  List.length
    (Allocation.allocations (Allocation.fetchAllocationDataOn read configs false))
  = List.length configs.
Proof.
  unfold Allocation.fetchAllocationDataOn. cbn [Allocation.allocations].
  rewrite (Permutation_length (sortByAllocation_perm _)).
  apply length_map.
Qed.

Lemma fetch_names (read : Allocation.ChainConfig -> Result Z)
      (configs : list Allocation.ChainConfig) :
  Permutation
    (map Allocation.name
       (Allocation.allocations
          (Allocation.fetchAllocationDataOn read configs false)))
    (map Allocation.chainName configs).
Proof.
  unfold Allocation.fetchAllocationDataOn. cbn [Allocation.allocations].
  eapply Permutation_trans;
    [apply Permutation_map; apply sortByAllocation_perm|].
  rewrite map_map. cbn [Allocation.allocationItem Allocation.name].
  apply Permutation_refl.
Qed.

Lemma percentages_floor_sum (read : Allocation.ChainConfig -> Result Z)
      (configs : list Allocation.ChainConfig) :
  NoDup (map Allocation.chainId configs) -> Allocation.unsignedReads read ->
  0 < Allocation.totalRawOf read configs ->
  Allocation.sumZ
    (Allocation.percentages
       (Allocation.fetchAllocationDataOn read configs false))
  = Allocation.sumZ
      (map (fun b => (100 * b) / Allocation.totalRawOf read configs)
           (map (Allocation.rawBalance read) configs)).
Proof.
  intros ND U Ht. rewrite (sumZ_perm _ _ (percentages_perm read configs ND)).
  rewrite map_map. f_equal. apply map_ext. intro config.
  apply allocationPercent_floor; [exact Ht | apply rawBalance_unsigned, U].
Qed.

Lemma shipped_nodup : NoDup (map Allocation.chainId Allocation.CHAIN_CONFIGS).
Proof. repeat constructor; simpl; intuition discriminate. Qed.

Lemma allocationPercent_all (total : Z) :
  0 < total -> Allocation.allocationPercent total total = 100.
Proof.
  intro Ht. unfold Allocation.allocationPercent.
  destruct (0 <? total) eqn:E; [|apply Z.ltb_ge in E; lia].
  rewrite Z.mul_comm. apply Z.quot_mul. lia.
Qed.

Lemma allocationPercent_none (total : Z) :
  Allocation.allocationPercent total 0 = 0.
Proof.
  unfold Allocation.allocationPercent. destruct (0 <? total); reflexivity.
Qed.

(** With the shipped configuration only one vault is deployed, so a positive
    total is all on one network and the percentages do sum to 100. *)
Lemma shipped_percentages_sum (read : Allocation.ChainConfig -> Result Z) :
  0 < Allocation.totalRawOf read Allocation.CHAIN_CONFIGS ->
  Allocation.sumZ
    (Allocation.percentages (Allocation.fetchAllocationData read false))
  = 100.
Proof.
  unfold Allocation.fetchAllocationData.
  rewrite (sumZ_perm _ _
             (percentages_perm read Allocation.CHAIN_CONFIGS shipped_nodup)).
  unfold Allocation.totalRawOf, Allocation.CHAIN_CONFIGS.
  match goal with
  | |- context [map (Allocation.rawBalance read) [?a; ?b; ?c; ?d]] =>
      assert (Hb : Allocation.rawBalance read b = 0)
        by (apply rawBalance_failed; left; reflexivity);
      assert (Hc : Allocation.rawBalance read c = 0)
        by (apply rawBalance_failed; left; reflexivity);
      assert (Hd : Allocation.rawBalance read d = 0)
        by (apply rawBalance_failed; left; reflexivity)
  end.
  cbn [map]. rewrite Hb, Hc, Hd. unfold Allocation.sumZ. cbn [fold_right].
  rewrite !Z.add_0_r. intro Ht.
  rewrite (allocationPercent_all _ Ht), !allocationPercent_none. reflexivity.
Qed.

(** With mock data the four fixed entries are returned, largest first. *)
Lemma mock_percentages (read : Allocation.ChainConfig -> Result Z)
      (configs : list Allocation.ChainConfig) :
  Allocation.percentages (Allocation.fetchAllocationDataOn read configs true)
  = [44; 27; 15; 14].
Proof. reflexivity. Qed.

(** C1, as the code has it: a pass over networks with distinct chain ids
    returns one entry per network (same names), is never aborted by a failed
    read -- a failed read or an undeployed vault counts as zero -- and its
    percentages, each rounded down, sum to at most 100 and to more than 100
    less the number of networks when the total is positive; all are 0 when
    the total is zero.  Over the shipped configuration, where one vault is
    deployed, a positive total does give a sum of exactly 100. *)
Theorem aggregate_entries_and_percentages
        (read : Allocation.ChainConfig -> Result Z)
        (configs : list Allocation.ChainConfig) :
  NoDup (map Allocation.chainId configs) -> Allocation.unsignedReads read ->
  let pass := Allocation.fetchAllocationDataOn read configs false in
  List.length (Allocation.allocations pass) = List.length configs
  /\ Permutation (map Allocation.name (Allocation.allocations pass))
                 (map Allocation.chainName configs)
  /\ Allocation.error pass = None
  /\ (forall config,
         Allocation.no_vault config = true
         \/ (exists e, read config = Throw e) ->
         Allocation.rawBalance read config = 0)
  /\ (0 < Allocation.totalRawOf read configs ->
      100 - Z.of_nat (List.length configs)
      < Allocation.sumZ (Allocation.percentages pass) <= 100)
  /\ (Allocation.totalRawOf read configs = 0 ->
      Forall (fun percent => percent = 0) (Allocation.percentages pass))
  /\ (0 < Allocation.totalRawOf read Allocation.CHAIN_CONFIGS ->
      Allocation.sumZ
        (Allocation.percentages (Allocation.fetchAllocationData read false))
      = 100).
Proof.
  intros ND U pass. subst pass.
  split; [apply fetch_length|].
  split; [apply fetch_names|].
  split; [reflexivity|].
  split; [intro config; apply rawBalance_failed|].
  split.
  - intro Ht. rewrite (percentages_floor_sum read configs ND U Ht).
    assert (Hb : Forall (fun b => 0 <= b)
                        (map (Allocation.rawBalance read) configs)).
    { apply Forall_forall. intros b Hin. apply in_map_iff in Hin.
      destruct Hin as [config [<- _]]. apply rawBalance_unsigned, U. }
    pose proof (floors_bracket (Allocation.totalRawOf read configs) _ Ht Hb)
      as [Hlo Hhi].
    cbv zeta in Hlo, Hhi. rewrite length_map in Hhi.
    fold (Allocation.totalRawOf read configs) in Hlo, Hhi.
    set (T := Allocation.totalRawOf read configs) in *.
    set (F := Allocation.sumZ (map (fun b => 100 * b / T) _)) in *.
    assert (Hn : (0 < List.length configs)%nat).
    { destruct configs; [unfold T, Allocation.totalRawOf in Ht; simpl in Ht; lia|].
      simpl. lia. }
    split; nia.
  - split; [|apply shipped_percentages_sum].
    intro Hz.
    eapply Permutation_Forall;
      [apply Permutation_sym, (percentages_perm read configs ND)|].
    apply Forall_forall. intros percent Hin. apply in_map_iff in Hin.
    destruct Hin as [config [<- _]]. rewrite Hz. reflexivity.
Qed.

(** The shipped configuration satisfies the hypotheses of the pass theorem. *)
Lemma aggregate_entries_and_percentages_witness :
  List.length
    (Allocation.allocations
       (Allocation.fetchAllocationData (fun _ => Ok 5000000) false))
  = 4%nat.
Proof.
  refine (proj1 (aggregate_entries_and_percentages
                   (fun _ => Ok 5000000) Allocation.CHAIN_CONFIGS _ _)).
  - exact shipped_nodup.
  - intros config v H. injection H as <-. lia.
Defined.

(** C1 as stated fails: balances 999, 1, 0, 0 have a positive total and
    percentages 99, 0, 0, 0, which sum to 99. *)
Lemma percentages_sum_counterexample :
  let read := Allocation.readsOf [(1, 999); (2, 1); (3, 0); (4, 0)] in
  let pass := Allocation.fetchAllocationDataOn read Allocation.fourChains false in
  Allocation.totalRawOf read Allocation.fourChains = 1000
  /\ Allocation.sumZ (Allocation.percentages pass) = 99
  /\ Allocation.sumZ (Allocation.percentages pass) <> 100.
Proof. cbv zeta. split; [|split]; [reflexivity | reflexivity | discriminate]. Qed.

(** C5: with distinct chain ids, unsigned reads and a positive total T, the
    entry of each network carries floor(100 * b / T) of its raw balance b, in
    integer arithmetic; balances 999, 1, 0, 0 give 99, 0, 0, 0. *)
Theorem percentage_is_floor
        (read : Allocation.ChainConfig -> Result Z)
        (configs : list Allocation.ChainConfig) :
  NoDup (map Allocation.chainId configs) -> Allocation.unsignedReads read ->
  0 < Allocation.totalRawOf read configs ->
  Permutation
    (map (fun item => (Allocation.name item, Allocation.allocation item))
       (Allocation.allocations
          (Allocation.fetchAllocationDataOn read configs false)))
    (map (fun config =>
            (Allocation.chainName config,
             (100 * Allocation.rawBalance read config) / Allocation.totalRawOf read configs))
       configs)
  /\ Allocation.percentages
       (Allocation.fetchAllocationDataOn
          (Allocation.readsOf [(1, 999); (2, 1); (3, 0); (4, 0)])
          Allocation.fourChains false)
     = [99; 0; 0; 0].
Proof.
  intros ND U Ht. split; [|reflexivity].
  unfold Allocation.fetchAllocationDataOn. cbn [Allocation.allocations].
  eapply Permutation_trans;
    [apply Permutation_map; apply sortByAllocation_perm|].
  rewrite (allocationItems_own read configs ND), map_map.
  cbn [Allocation.name Allocation.allocation].
  erewrite map_ext; [apply Permutation_refl|].
  intro config. cbv beta. f_equal.
  apply allocationPercent_floor; [exact Ht | apply rawBalance_unsigned, U].
Qed.

(** The floor theorem at balances 999, 1, 0, 0. *)
Lemma percentage_is_floor_witness :
  Permutation
    (map (fun item => (Allocation.name item, Allocation.allocation item))
       (Allocation.allocations
          (Allocation.fetchAllocationDataOn
             (Allocation.readsOf [(1, 999); (2, 1); (3, 0); (4, 0)])
             Allocation.fourChains false)))
    [("A", 99); ("B", 0); ("C", 0); ("D", 0)].
Proof.
  refine (proj1 (percentage_is_floor
                   (Allocation.readsOf [(1, 999); (2, 1); (3, 0); (4, 0)])
                   Allocation.fourChains _ _ _)).
  - repeat constructor; simpl; intuition discriminate.
  - intros config v. unfold Allocation.readsOf. cbn [find].
    repeat match goal with
           | |- context [if ?b then _ else _] => destruct b; cbn [fst snd]
           end; intro H; try discriminate H; injection H as <-; lia.
  - reflexivity.
Defined.

(** ** Reconciliation *)

(** C8, as the code has it, on the numbers the three reads convert to: when
    shares, total assets and total supply are all positive, the value is
    [shares * totalAssets / totalSupply] and the share price is
    [totalAssets / totalSupply] in binary64 arithmetic; otherwise the share
    price is 1 and the value is the shares when they are positive and 0 when
    they are not.  No shares give value 0 whatever the totals, and 100 shares
    of a vault with no assets and no supply are worth 100. *)
Theorem reconcile_cases (userShareBalance contractTotalAssets
                         contractTotalSupply : option Z) :
  let userShares := Reconciler.readAsNumber userShareBalance in
  let totalAssetValue := Reconciler.readAsNumber contractTotalAssets in
  let totalSupplyValue := Reconciler.readAsNumber contractTotalSupply in
  let position :=
    Reconciler.reconcile userShareBalance contractTotalAssets
                         contractTotalSupply in
  (Reconciler.positive userShares && Reconciler.positive totalAssetValue
   && Reconciler.positive totalSupplyValue = true ->
   Reconciler.userVaultValue position
   = PrimFloat.div (PrimFloat.mul userShares totalAssetValue) totalSupplyValue
   /\ Reconciler.sharePrice position
      = PrimFloat.div totalAssetValue totalSupplyValue)
  /\ (Reconciler.positive userShares && Reconciler.positive totalAssetValue
      && Reconciler.positive totalSupplyValue = false ->
      Reconciler.sharePrice position = 1%float
      /\ (Reconciler.positive userShares = true ->
          Reconciler.userVaultValue position = userShares)
      /\ (Reconciler.positive userShares = false ->
          Reconciler.userVaultValue position = 0%float))
  /\ (userShareBalance = None \/ userShareBalance = Some 0 ->
      Reconciler.userVaultValue position = 0%float)
  /\ Reconciler.reconcileNumbers 100 0 0
     = {| Reconciler.userVaultValue := 100; Reconciler.sharePrice := 1 |}
  /\ Reconciler.reconcile (Some 100000000) (Some 0) (Some 0)
     = {| Reconciler.userVaultValue := 100; Reconciler.sharePrice := 1 |}.
Proof.
  cbv zeta. unfold Reconciler.reconcile, Reconciler.reconcileNumbers.
  split; [|split; [|split; [|split]]].
  - intro H. rewrite H. split; reflexivity.
  - intro H. rewrite H. split; [|split].
    + destruct (Reconciler.positive _); reflexivity.
    + intro P. rewrite P. reflexivity.
    + intro P. rewrite P. reflexivity.
  - intros [-> | ->]; reflexivity.
  - reflexivity.
  - reflexivity.
Qed.

(** The case theorem at 100 shares of a vault holding 3 for a supply of 2. *)
Lemma reconcile_cases_witness :
  Reconciler.userVaultValue
    (Reconciler.reconcile (Some 100000000) (Some 3000000) (Some 2000000))
  = 150%float
  /\ Reconciler.sharePrice
       (Reconciler.reconcile (Some 100000000) (Some 3000000) (Some 2000000))
     = 1.5%float.
Proof.
  exact (proj1 (reconcile_cases (Some 100000000) (Some 3000000) (Some 2000000))
               eq_refl).
Defined.

(** C8 as stated fails on the share price: with no shares held, a vault
    holding 2 for a supply of 1 is reported at share price 1, not 2. *)
Lemma sharePrice_counterexample :
  Reconciler.sharePrice
    (Reconciler.reconcile (Some 0) (Some 2000000) (Some 1000000))
  <> PrimFloat.div (Reconciler.readAsNumber (Some 2000000))
                   (Reconciler.readAsNumber (Some 1000000)).
Proof.
  intro H. pose proof (f_equal (PrimFloat.eqb 1%float) H) as E.
  vm_compute in E. discriminate E.
Qed.

(** ** Orchestration *)

Ltac run_handler :=
  cbv [Orchestrator.bind Orchestrator.ret Orchestrator.emit Orchestrator.lift
       Orchestrator.throw Orchestrator.tryCatch Orchestrator.when
       Orchestrator.stateOf Orchestrator.commandsOf Orchestrator.resultOf
       Orchestrator.resetErrors Orchestrator.failDeposit
       Orchestrator.failWithdraw Orchestrator.depositSetupFailed
       Orchestrator.setCurrentState Orchestrator.setDepositAmount
       Orchestrator.setWithdrawAmount Orchestrator.setDepositStep
       Orchestrator.setWithdrawStep Orchestrator.setErrorMessage
       Orchestrator.setDepositValidationError
       Orchestrator.setWithdrawValidationError
       Orchestrator.pendingMessage];
  cbn [fst snd app existsb List.filter Orchestrator.isWrite
       Orchestrator.isVaultWrite Orchestrator.isUSDCWrite
       Orchestrator.isAwaitSignature Orchestrator.isAllowanceCheck orb
       andb negb Orchestrator.depositStep Orchestrator.errorMessage
       Orchestrator.withdrawStep Orchestrator.DepositStep_eqb
       Orchestrator.WithdrawStep_eqb].

(** C6: once the oracle has answered with a snapshot whose numeric fields
    read as integers, on a chain whose vault address resolves, the deposit
    issues exactly one write: the plain [deposit(amount, receiver)] when the
    attested balance is zero, and otherwise
    [depositWithExtraInfoViaSignature] with the snapshot tuple (balance,
    nonce, deadline, assets, receiver) and the signature. *)
Theorem deposit_path_selection
        (BigInt : string -> Result Z) (h : Orchestrator.Hooks)
        (amountInWei : Z) (snapshot : Orchestrator.Snapshot)
        (c0 : Orchestrator.Component)
        (account vault : string) (chain b n d a : Z) :
  Orchestrator.truthyString (Orchestrator.address h) = Some account ->
  Orchestrator.truthyChain (Orchestrator.chainId h) = Some chain ->
  ChainRegistry.getContractAddress chain = Ok vault ->
  BigInt "0" = Ok 0 ->
  BigInt (Orchestrator.balance snapshot) = Ok b ->
  BigInt (Orchestrator.nonce snapshot) = Ok n ->
  BigInt (Orchestrator.deadline snapshot) = Ok d ->
  BigInt (Orchestrator.assets snapshot) = Ok a ->
  let run :=
    Orchestrator.resumeConfirmDeposit BigInt h amountInWei (Ok snapshot) c0 in
  List.filter Orchestrator.isWrite (Orchestrator.commandsOf run)
  = [Orchestrator.WriteVault
       (if b =? 0
        then Orchestrator.plainDeposit vault amountInWei account
        else Orchestrator.signedDeposit vault amountInWei account b n d a
               (Orchestrator.receiver snapshot)
               (Orchestrator.signature snapshot))]
  /\ Orchestrator.stateOf run = c0.
Proof.
  intros Haccount Hchain Hvault Hzero Hb Hn Hd Ha run. subst run.
  unfold Orchestrator.resumeConfirmDeposit, Orchestrator.submitDeposit.
  rewrite Haccount, Hchain. run_handler.
  destruct (String.eqb (Orchestrator.balance snapshot) "0") eqn:E.
  - apply String.eqb_eq in E. rewrite E, Hzero in Hb. injection Hb as <-.
    run_handler. rewrite Hvault. run_handler. split; reflexivity.
  - rewrite Hb. run_handler.
    destruct (b =? 0); run_handler; rewrite Hvault; run_handler.
    + split; reflexivity.
    + rewrite Hn, Hd, Ha. run_handler. split; reflexivity.
Qed.

(** The selection theorem at a snapshot attesting a balance of 55. *)
Lemma deposit_path_selection_witness :
  List.filter Orchestrator.isWrite
    (Orchestrator.commandsOf
       (Env.resumeConfirmDeposit Env.funded 10000000
          (Ok (Env.snapshotWith "55"))
          (Env.depositing10 Orchestrator.StepDepositing)))
  = [Orchestrator.WriteVault
       (Orchestrator.signedDeposit Env.vault 10000000 Env.account
          55 7 1700000000 10000000 Env.account "0xsigned")].
Proof.
  exact (proj1 (deposit_path_selection
                  Env.BigInt Env.funded 10000000 (Env.snapshotWith "55")
                  (Env.depositing10 Orchestrator.StepDepositing)
                  Env.account Env.vault 421614 55 7 1700000000 10000000
                  eq_refl eq_refl eq_refl eq_refl eq_refl eq_refl eq_refl
                  eq_refl)).
Defined.

(** The zero-balance side of the selection: the plain deposit. *)
Lemma deposit_path_zero_balance :
  List.filter Orchestrator.isWrite
    (Orchestrator.commandsOf
       (Env.resumeConfirmDeposit Env.funded 10000000
          (Ok (Env.snapshotWith "0"))
          (Env.depositing10 Orchestrator.StepDepositing)))
  = [Orchestrator.WriteVault
       (Orchestrator.plainDeposit Env.vault 10000000 Env.account)].
Proof. reflexivity. Qed.

(** *** Runs compose *)

Section Runs.

Import Orchestrator.

Context {A B : Type}.

Lemma commands_bind (m : M A) (k : A -> M B) (c : Component) :
  commandsOf (bind m k c)
  = match resultOf (m c) with
    | Ok a => (commandsOf (m c) ++ commandsOf (k a (stateOf (m c))))%list
    | Throw _ => commandsOf (m c)
    end.
Proof.
  unfold bind, commandsOf, resultOf, stateOf.
  destruct (m c) as [[c1 out1] [a|e]]; simpl; [|reflexivity].
  destruct (k a c1) as [[c2 out2] res]. reflexivity.
Qed.

Lemma state_bind (m : M A) (k : A -> M B) (c : Component) :
  stateOf (bind m k c)
  = match resultOf (m c) with
    | Ok a => stateOf (k a (stateOf (m c)))
    | Throw _ => stateOf (m c)
    end.
Proof.
  unfold bind, commandsOf, resultOf, stateOf.
  destruct (m c) as [[c1 out1] [a|e]]; simpl; [|reflexivity].
  destruct (k a c1) as [[c2 out2] res]. reflexivity.
Qed.

Lemma result_bind (m : M A) (k : A -> M B) (c : Component) :
  resultOf (bind m k c)
  = match resultOf (m c) with
    | Ok a => resultOf (k a (stateOf (m c)))
    | Throw e => Throw e
    end.
Proof.
  unfold bind, commandsOf, resultOf, stateOf.
  destruct (m c) as [[c1 out1] [a|e]]; simpl; [|reflexivity].
  destruct (k a c1) as [[c2 out2] res]. reflexivity.
Qed.

Lemma quiet_bind (P : Command -> bool) (m : M A) (k : A -> M B) :
  quiet P m -> (forall a, quiet P (k a)) -> quiet P (bind m k).
Proof.
  intros Hm Hk c. rewrite commands_bind.
  destruct (resultOf (m c)); [|apply Hm].
  rewrite existsb_app, Hm, Hk. reflexivity.
Qed.

Lemma succeeds_bind (m : M A) (k : A -> M B) :
  succeeds m -> (forall a, succeeds (k a)) -> succeeds (bind m k).
Proof.
  intros Hm Hk c. rewrite result_bind. destruct (Hm c) as [a ->]. apply Hk.
Qed.

Lemma keeps_bind (I : Component -> Prop) (m : M A) (k : A -> M B) :
  keeps I m -> (forall a, keeps I (k a)) -> keeps I (bind m k).
Proof.
  intros Hm Hk c Hc. rewrite state_bind.
  destruct (resultOf (m c)); [apply Hk|]; apply Hm; exact Hc.
Qed.

(** A command emitted after a part that returns normally is emitted. *)
Lemma heard_after (P : Command -> bool) (m : M A) (k : A -> M B)
      (c : Component) :
  succeeds m ->
  (forall a c1, existsb P (commandsOf (k a c1)) = true) ->
  existsb P (commandsOf (bind m k c)) = true.
Proof.
  intros Hm Hk. rewrite commands_bind. destruct (Hm c) as [a ->].
  rewrite existsb_app, Hk. apply orb_true_r.
Qed.

End Runs.

Section RunsOfOne.

Import Orchestrator.

Context {A : Type}.

Lemma quiet_tryCatch (P : Command -> bool) (body : M A)
      (handler : string -> M A) :
  quiet P body -> (forall e, quiet P (handler e)) ->
  quiet P (tryCatch body handler).
Proof.
  intros Hb Hh c. specialize (Hb c). unfold tryCatch.
  destruct (body c) as [[c1 out1] [a|e]]; [exact Hb|].
  specialize (Hh e c1). destruct (handler e c1) as [[c2 out2] res].
  unfold commandsOf in *. simpl in *. rewrite existsb_app, Hb, Hh.
  reflexivity.
Qed.

Lemma succeeds_tryCatch (body : M A) (handler : string -> M A) :
  (forall e, succeeds (handler e)) -> succeeds (tryCatch body handler).
Proof.
  intros Hh c. unfold tryCatch.
  destruct (body c) as [[c1 out1] [a|e]]; [exists a; reflexivity|].
  specialize (Hh e c1). destruct (handler e c1) as [[c2 out2] res].
  exact Hh.
Qed.

Lemma keeps_tryCatch (I : Component -> Prop) (body : M A)
      (handler : string -> M A) :
  keeps I body -> (forall e, keeps I (handler e)) ->
  keeps I (tryCatch body handler).
Proof.
  intros Hb Hh c Hc. specialize (Hb c Hc). unfold tryCatch.
  destruct (body c) as [[c1 out1] [a|e]]; [exact Hb|].
  specialize (Hh e c1 Hb). destruct (handler e c1) as [[c2 out2] res].
  exact Hh.
Qed.

Lemma quiet_lift (P : Command -> bool) (r : Result A) : quiet P (lift r).
Proof. destruct r; intro c; reflexivity. Qed.

Lemma keeps_lift (I : Component -> Prop) (r : Result A) : keeps I (lift r).
Proof. destruct r; intros c Hc; exact Hc. Qed.

End RunsOfOne.

Lemma quiet_when (P : Orchestrator.Command -> bool) (b : bool)
      (m : Orchestrator.M unit) :
  Orchestrator.quiet P m -> Orchestrator.quiet P (Orchestrator.when b m).
Proof. destruct b; [trivial | intros _ c; reflexivity]. Qed.

Lemma succeeds_when (b : bool) (m : Orchestrator.M unit) :
  Orchestrator.succeeds m -> Orchestrator.succeeds (Orchestrator.when b m).
Proof. destruct b; [trivial | intros _ c; exists tt; reflexivity]. Qed.

Lemma keeps_when (I : Orchestrator.Component -> Prop) (b : bool)
      (m : Orchestrator.M unit) :
  Orchestrator.keeps I m -> Orchestrator.keeps I (Orchestrator.when b m).
Proof. destruct b; [trivial | intros _ c Hc; exact Hc]. Qed.

(** One step of a proof that a handler is quiet, returns, or keeps a
    property: split a sequence, enter a guard, decide a branch, or close a
    primitive by running it. *)
Ltac quiet_step :=
  first
    [ match goal with
      | |- Orchestrator.quiet _
             (Orchestrator.bind (Orchestrator.lift (Throw _)) _) =>
          intro; reflexivity
      end
    | apply quiet_bind; [|intro]
    | apply quiet_when
    | apply quiet_tryCatch; [|intro]
    | apply quiet_lift
    | match goal with
      | |- Orchestrator.quiet _ (if ?b then _ else _) => destruct b
      | |- Orchestrator.quiet _ (match ?x with _ => _ end) => destruct x
      end
    | solve [intro; reflexivity] ].

(** Read a goal about the commands of one run as quietness of the handler. *)
Ltac as_quiet :=
  match goal with
  | |- existsb ?P (Orchestrator.commandsOf (?m ?c)) = false =>
      revert c; change (Orchestrator.quiet P m)
  end.

Ltac succeeds_step :=
  first
    [ apply succeeds_bind; [|intro]
    | apply succeeds_when
    | apply succeeds_tryCatch; intro
    | match goal with
      | |- Orchestrator.succeeds (if ?b then _ else _) => destruct b
      | |- Orchestrator.succeeds (match ?x with _ => _ end) => destruct x
      end
    | solve [intro; eexists; reflexivity] ].

Ltac keeps_step :=
  first
    [ apply keeps_bind; [|intro]
    | apply keeps_when
    | apply keeps_tryCatch; [|intro]
    | apply keeps_lift
    | match goal with
      | |- Orchestrator.keeps _ (if ?b then _ else _) => destruct b
      | |- Orchestrator.keeps _ (match ?x with _ => _ end) => destruct x
      end
    | solve [intros ? ?; assumption]
    | solve [intros ? ?; unfold Orchestrator.notDepositing; cbn; discriminate] ].

Section HandlerFacts.

Import Orchestrator.

Variable parseFloat : string -> float.
Variable parseUnits : string -> Z -> Result Z.

Lemma handleConfirmDeposit_succeeds (r : Component) (h : Hooks) :
  succeeds (handleConfirmDeposit parseFloat parseUnits r h).
Proof.
  unfold handleConfirmDeposit, depositSetupFailed. repeat succeeds_step.
Qed.

Lemma handleConfirmDeposit_no_write (r : Component) (h : Hooks) :
  quiet isWrite (handleConfirmDeposit parseFloat parseUnits r h).
Proof.
  unfold handleConfirmDeposit, depositSetupFailed, resetErrors.
  repeat quiet_step.
Qed.

Lemma handleConfirmDeposit_no_check (r : Component) (h : Hooks) :
  quiet isAllowanceCheck (handleConfirmDeposit parseFloat parseUnits r h).
Proof.
  unfold handleConfirmDeposit, depositSetupFailed, resetErrors.
  repeat quiet_step.
Qed.

End HandlerFacts.

Section EffectFacts.

Import Orchestrator.

Variable parseFloat : string -> float.
Variable parseUnits : string -> Z -> Result Z.

(** The error reporter emits nothing. *)
Lemma reportWriteErrors_quiet (P : Command -> bool) (r : Component) (h : Hooks) :
  quiet P (reportWriteErrors r h).
Proof. unfold reportWriteErrors. repeat quiet_step. Qed.


(** The watcher never writes to the vault or the asset by itself. *)
Lemma watchTransactions_no_write (r : Component) (h : Hooks) :
  quiet isWrite (watchTransactions parseFloat parseUnits r h).
Proof.
  unfold watchTransactions, onVaultWriteError, failDeposit, failWithdraw.
  repeat first [apply handleConfirmDeposit_no_write | quiet_step].
Qed.

(** Unless the approval receipt reports success in the approving step, the
    watcher requests no signature and does not enter the depositing step. *)
Lemma watchTransactions_waits (r : Component) (h : Hooks) :
  isUSDCTxSuccess h && DepositStep_eqb (depositStep r) StepApproving = false ->
  quiet isAwaitSignature (watchTransactions parseFloat parseUnits r h)
  /\ keeps notDepositing (watchTransactions parseFloat parseUnits r h).
Proof.
  intro Hno.
  unfold watchTransactions, onVaultWriteError, failDeposit, failWithdraw.
  rewrite Hno. cbn [when]. split.
  - repeat quiet_step.
  - repeat keeps_step.
Qed.

Lemma watchTransactions_succeeds (r : Component) (h : Hooks) :
  succeeds (watchTransactions parseFloat parseUnits r h).
Proof.
  unfold watchTransactions, onVaultWriteError, failDeposit, failWithdraw.
  repeat first [apply handleConfirmDeposit_succeeds | succeeds_step].
Qed.

(** A failed approval write in the approving step always ends the commit in
    the error step: the error reporter runs last. *)
Lemma reportWriteErrors_shows_error (r : Component) (h : Hooks) (msg : string)
      (c : Component) :
  depositStep r = StepApproving -> usdcWriteError h = Some msg ->
  depositStep (stateOf (reportWriteErrors r h c)) = StepError.
Proof.
  intros Hstep Herr. unfold reportWriteErrors. rewrite Hstep, Herr.
  cbn [DepositStep_eqb andb when].
  destruct (isUserCancellation (Some msg));
    destruct (vaultWriteError h);
    destruct (WithdrawStep_eqb (withdrawStep r) Withdrawing);
    try destruct (isUserCancellation (Some _)); reflexivity.
Qed.

End EffectFacts.

Section RequestFacts.

Import Orchestrator.

Variable parseFloat : string -> float.
Variable parseUnits : string -> Z -> Result Z.
Variable BigInt : string -> Result Z.

(** With an account, a chain and a valid amount that reads as units,
    [handleConfirmDeposit] enters the depositing step and asks the oracle,
    whatever the receipts, the allowance and the write hooks show. *)
Lemma handleConfirmDeposit_requests (r : Component) (h : Hooks)
      (c : Component) (account : string) (chain amountInWei : Z) :
  truthyString (address h) = Some account ->
  truthyChain (chainId h) = Some chain ->
  ChainRegistry.is_empty (depositAmount r) = false ->
  isValidAmount parseFloat (depositAmount r) = true ->
  parseUnits (depositAmount r) 6 = Ok amountInWei ->
  let run := handleConfirmDeposit parseFloat parseUnits r h c in
  commandsOf run
  = [ResetVaultWrite; RemoveMessage "deposit-approving";
     UpsertMessage "deposit-pending"
       (pendingMessage "Getting cross-chain signature...");
     AwaitSignature amountInWei account chain]
  /\ resultOf run = Ok (Some amountInWei)
  /\ depositStep (stateOf run) = StepDepositing.
Proof.
  intros Haccount Hchain Hne Hvalid Hunits. cbv zeta.
  unfold handleConfirmDeposit.
  rewrite Haccount, Hchain, Hne, Hvalid. cbn [negb].
  run_handler. rewrite Hunits. run_handler.
  repeat split; reflexivity.
Qed.

(** When the oracle's answer is a failure, the rest of
    [handleConfirmDeposit] is its [catch], in whatever state the component
    is by then. *)
Lemma resumeConfirmDeposit_failure (h : Hooks) (amountInWei : Z)
      (e : string) (c : Component) (account : string) (chain : Z) :
  truthyString (address h) = Some account ->
  truthyChain (chainId h) = Some chain ->
  let late := resumeConfirmDeposit BigInt h amountInWei (Throw e) c in
  commandsOf late = [RemoveMessage "deposit-pending"]
  /\ depositStep (stateOf late) = StepError
  /\ errorMessage (stateOf late)
     = (if Str.includes "Oracle" e
        then "Oracle service error: " ++ orElse e "Unable to get signature."
        else "Deposit failed: "
             ++ orElse e "Please check your wallet and try again.")
  /\ resultOf late = Ok tt.
Proof.
  intros Haccount Hchain. cbv zeta. unfold resumeConfirmDeposit.
  rewrite Haccount, Hchain. unfold depositSetupFailed. run_handler.
  destruct (Str.includes "Oracle" e); run_handler; repeat split; reflexivity.
Qed.

(** Where the allowance does not cover the amount, the press of the button
    submits the unlimited approval and does not ask the oracle. *)
Lemma handleInitiateDeposit_approves (r : Component) (h : Hooks)
      (c : Component) (account usdc vault : string) (chain : Z) :
  truthyString (address h) = Some account ->
  truthyChain (chainId h) = Some chain ->
  ChainRegistry.is_empty (depositAmount r) = false ->
  isValidAmount parseFloat (depositAmount r) = true ->
  hasEnoughAllowance parseFloat parseUnits h (depositAmount r) = false ->
  ChainRegistry.getUSDCAddress chain = Ok usdc ->
  ChainRegistry.getContractAddress chain = Ok vault ->
  let pressed := handleInitiateDeposit parseFloat parseUnits r h c in
  List.filter isWrite (commandsOf pressed)
  = [WriteUSDC {| contract := usdc; functionName := "approve";
                  args := [ArgAddress vault; ArgUint maxAmount];
                  gas := 100000 |}]
  /\ existsb isAwaitSignature (commandsOf pressed) = false
  /\ depositStep (stateOf pressed) = StepApproving.
Proof.
  intros Haccount Hchain Hne Hvalid Hshort Husdc Hvault. cbv zeta.
  unfold handleInitiateDeposit. rewrite Hne, Hshort.
  unfold handleApproveUSDC. rewrite Haccount, Hchain, Hne, Hvalid.
  cbn [negb]. run_handler. rewrite Husdc. run_handler.
  rewrite Hvault. run_handler. repeat split; reflexivity.
Qed.

(** Where the allowance covers the amount, the press of the button writes
    nothing. *)
Lemma handleInitiateDeposit_covered (r : Component) (h : Hooks) :
  hasEnoughAllowance parseFloat parseUnits h (depositAmount r) = true ->
  quiet isWrite (handleInitiateDeposit parseFloat parseUnits r h).
Proof.
  intro Hcovers. unfold handleInitiateDeposit. rewrite Hcovers.
  destruct (ChainRegistry.is_empty (depositAmount r));
    [intro; reflexivity|].
  apply quiet_bind; [apply handleConfirmDeposit_no_write|].
  intros _ c. reflexivity.
Qed.

(** The press of the button never writes to the vault. *)
Lemma handleInitiateDeposit_no_vault_write (r : Component) (h : Hooks) :
  quiet isVaultWrite (handleInitiateDeposit parseFloat parseUnits r h).
Proof.
  unfold handleInitiateDeposit, handleApproveUSDC, handleConfirmDeposit,
    depositSetupFailed, resetErrors.
  repeat quiet_step.
Qed.

(** Both effects of a commit write nothing. *)
Lemma runEffects_no_write (r : Component) (h : Hooks) :
  quiet isWrite (runEffects parseFloat parseUnits r h).
Proof.
  unfold runEffects.
  apply quiet_bind;
    [apply watchTransactions_no_write | intro; apply reportWriteErrors_quiet].
Qed.

End RequestFacts.

(** C7, as the code has it: when the oracle request fails, the call of
    [handleConfirmDeposit] that made it -- reached with an account, a chain
    and a valid amount that [parseUnits] reads -- has asked the oracle, ends
    in the error step with the failure in the error message, and submits no
    write, neither to the asset nor to the vault; the press of the button
    never writes to the vault; the failure has the same outcome in whatever
    state the component is when the answer arrives, and the effects of a
    commit write nothing.  So no vault write is submitted for the attempt,
    and no write at all where the allowance covers the amount.  Where
    approval is required, on a chain whose asset and vault addresses
    resolve, the press of the button has submitted the approval write
    without asking the oracle: the approval precedes the oracle request,
    and nothing after the failure writes again. *)
Theorem oracle_failure_aborts_without_write
        (parseFloat : string -> float) (parseUnits : string -> Z -> Result Z)
        (BigInt : string -> Result Z)
        (getDepositSignature : string -> string -> Z
                               -> Result Orchestrator.Snapshot)
        (r : Orchestrator.Component) (h : Orchestrator.Hooks)
        (c0 : Orchestrator.Component) :
  (forall amount depositor chain,
      exists e, getDepositSignature amount depositor chain = Throw e) ->
  let run :=
    Orchestrator.confirmDeposit parseFloat parseUnits BigInt
      getDepositSignature r h c0 in
  existsb Orchestrator.isWrite (Orchestrator.commandsOf run) = false
  /\ (forall c,
         existsb Orchestrator.isWrite
           (Orchestrator.commandsOf
              (Orchestrator.runEffects parseFloat parseUnits r h c)) = false)
  /\ existsb Orchestrator.isVaultWrite
       (Orchestrator.commandsOf
          (Orchestrator.handleInitiateDeposit parseFloat parseUnits r h c0))
     = false
  /\ (Orchestrator.hasEnoughAllowance parseFloat parseUnits h
        (Orchestrator.depositAmount r) = true ->
      existsb Orchestrator.isWrite
        (Orchestrator.commandsOf
           (Orchestrator.handleInitiateDeposit parseFloat parseUnits r h c0))
      = false)
  /\ (forall account chain amountInWei,
         Orchestrator.truthyString (Orchestrator.address h) = Some account ->
         Orchestrator.truthyChain (Orchestrator.chainId h) = Some chain ->
         ChainRegistry.is_empty (Orchestrator.depositAmount r) = false ->
         Orchestrator.isValidAmount parseFloat (Orchestrator.depositAmount r)
         = true ->
         parseUnits (Orchestrator.depositAmount r) 6 = Ok amountInWei ->
         In (Orchestrator.AwaitSignature amountInWei account chain)
            (Orchestrator.commandsOf run)
         /\ Orchestrator.depositStep (Orchestrator.stateOf run)
            = Orchestrator.StepError
         /\ (exists e,
                getDepositSignature (string_of_Z amountInWei) account chain
                = Throw e
                /\ Orchestrator.errorMessage (Orchestrator.stateOf run)
                   = if Str.includes "Oracle" e
                     then "Oracle service error: "
                          ++ Orchestrator.orElse e "Unable to get signature."
                     else "Deposit failed: "
                          ++ Orchestrator.orElse
                               e "Please check your wallet and try again.")
         /\ (forall e c1,
                let late :=
                  Orchestrator.resumeConfirmDeposit BigInt h amountInWei
                    (Throw e) c1 in
                Orchestrator.commandsOf late
                = [Orchestrator.RemoveMessage "deposit-pending"]
                /\ Orchestrator.depositStep (Orchestrator.stateOf late)
                   = Orchestrator.StepError
                /\ Orchestrator.errorMessage (Orchestrator.stateOf late)
                   = if Str.includes "Oracle" e
                     then "Oracle service error: "
                          ++ Orchestrator.orElse e "Unable to get signature."
                     else "Deposit failed: "
                          ++ Orchestrator.orElse
                               e "Please check your wallet and try again.")
         /\ (forall usdc vault,
                Orchestrator.hasEnoughAllowance parseFloat parseUnits h
                  (Orchestrator.depositAmount r) = false ->
                ChainRegistry.getUSDCAddress chain = Ok usdc ->
                ChainRegistry.getContractAddress chain = Ok vault ->
                let pressed :=
                  Orchestrator.handleInitiateDeposit parseFloat parseUnits
                    r h c0 in
                List.filter Orchestrator.isWrite
                  (Orchestrator.commandsOf pressed)
                = [Orchestrator.WriteUSDC
                     {| Orchestrator.contract := usdc;
                        Orchestrator.functionName := "approve";
                        Orchestrator.args :=
                          [Orchestrator.ArgAddress vault;
                           Orchestrator.ArgUint Orchestrator.maxAmount];
                        Orchestrator.gas := 100000 |}]
                /\ existsb Orchestrator.isAwaitSignature
                     (Orchestrator.commandsOf pressed) = false
                /\ Orchestrator.depositStep (Orchestrator.stateOf pressed)
                   = Orchestrator.StepApproving)).
Proof.
  intros Hfail run.
  assert (Quiet : existsb Orchestrator.isWrite (Orchestrator.commandsOf run)
                  = false).
  { subst run. as_quiet. unfold Orchestrator.confirmDeposit.
    apply quiet_bind; [apply handleConfirmDeposit_no_write|].
    intros [amountInWei|]; [|intro; reflexivity].
    destruct (Orchestrator.truthyString (Orchestrator.address h))
      as [account|] eqn:Haccount; [|intro; reflexivity].
    destruct (Orchestrator.truthyChain (Orchestrator.chainId h))
      as [chain|] eqn:Hchain; [|intro; reflexivity].
    destruct (Hfail (string_of_Z amountInWei) account chain) as [e ->].
    intro c.
    destruct (resumeConfirmDeposit_failure BigInt h amountInWei e c
                account chain Haccount Hchain) as [-> _].
    reflexivity. }
  split; [exact Quiet|].
  split; [intro c; apply runEffects_no_write|].
  split; [apply handleInitiateDeposit_no_vault_write|].
  split; [intro Hcovers; apply handleInitiateDeposit_covered, Hcovers|].
  intros account chain amountInWei Haccount Hchain Hne Hvalid Hunits.
  destruct (handleConfirmDeposit_requests parseFloat parseUnits r h c0
              account chain amountInWei Haccount Hchain Hne Hvalid Hunits)
    as [Hasked [Hwaiting _]].
  destruct (Hfail (string_of_Z amountInWei) account chain) as [e He].
  assert (Hrun : run
                 = let asked :=
                     Orchestrator.handleConfirmDeposit parseFloat parseUnits
                       r h c0 in
                   let late :=
                     Orchestrator.resumeConfirmDeposit BigInt h amountInWei
                       (Throw e) (Orchestrator.stateOf asked) in
                   (Orchestrator.stateOf late,
                    (Orchestrator.commandsOf asked
                     ++ Orchestrator.commandsOf late)%list,
                    Orchestrator.resultOf late)).
  { subst run. unfold Orchestrator.confirmDeposit, Orchestrator.bind at 1.
    cbv zeta.
    destruct (Orchestrator.handleConfirmDeposit parseFloat parseUnits r h c0)
      as [[c1 out1] res] eqn:E.
    unfold Orchestrator.resultOf in Hwaiting. cbn [snd] in Hwaiting.
    subst res. rewrite Haccount, Hchain, He.
    unfold Orchestrator.stateOf, Orchestrator.commandsOf,
      Orchestrator.resultOf. cbn [fst snd].
    destruct (Orchestrator.resumeConfirmDeposit BigInt h amountInWei
                (Throw e) c1) as [[c2 out2] res2].
    reflexivity. }
  cbv zeta in Hrun.
  destruct (resumeConfirmDeposit_failure BigInt h amountInWei e
              (Orchestrator.stateOf
                 (Orchestrator.handleConfirmDeposit parseFloat parseUnits
                    r h c0))
              account chain Haccount Hchain) as [Hout [Hstep [Htext _]]].
  split; [|split; [|split; [|split]]].
  - rewrite Hrun. unfold Orchestrator.commandsOf at 1. cbn [fst snd].
    apply in_or_app. left. rewrite Hasked. right. right. right. left.
    reflexivity.
  - rewrite Hrun. unfold Orchestrator.stateOf at 1. cbn [fst]. exact Hstep.
  - exists e. split; [exact He|]. rewrite Hrun.
    unfold Orchestrator.stateOf at 1. cbn [fst]. exact Htext.
  - intros e' c1.
    destruct (resumeConfirmDeposit_failure BigInt h amountInWei e' c1
                account chain Haccount Hchain) as [H1 [H2 [H3 _]]].
    cbv zeta. split; [exact H1 | split; [exact H2 | exact H3]].
  - intros usdc vault Hshort Husdc Hvault.
    apply (handleInitiateDeposit_approves parseFloat parseUnits r h c0
             account usdc vault chain Haccount Hchain Hne Hvalid Hshort
             Husdc Hvault).
Qed.

(** The abort theorem against an oracle that cannot be reached, at a
    render whose allowance covers ten USDC: the oracle has been asked, the
    attempt is in the error step and nothing has been written. *)
Lemma oracle_failure_aborts_without_write_witness :
  existsb Orchestrator.isWrite
    (Orchestrator.commandsOf
       (Env.confirmDeposit (fun _ _ _ => Throw "Oracle unreachable")
          (Env.depositing10 Orchestrator.StepApproving) Env.funded
          (Env.depositing10 Orchestrator.StepApproving)))
  = false
  /\ In (Orchestrator.AwaitSignature 10000000 Env.account 421614)
        (Orchestrator.commandsOf
           (Env.confirmDeposit (fun _ _ _ => Throw "Oracle unreachable")
              (Env.depositing10 Orchestrator.StepApproving) Env.funded
              (Env.depositing10 Orchestrator.StepApproving)))
  /\ Orchestrator.depositStep
       (Orchestrator.stateOf
          (Env.confirmDeposit (fun _ _ _ => Throw "Oracle unreachable")
             (Env.depositing10 Orchestrator.StepApproving) Env.funded
             (Env.depositing10 Orchestrator.StepApproving)))
     = Orchestrator.StepError.
Proof.
  pose proof (oracle_failure_aborts_without_write
                Env.parseFloat Env.parseUnits Env.BigInt
                (fun _ _ _ => Throw "Oracle unreachable")
                (Env.depositing10 Orchestrator.StepApproving) Env.funded
                (Env.depositing10 Orchestrator.StepApproving)
                (fun _ _ _ => ex_intro _ "Oracle unreachable" eq_refl)) as T.
  cbv zeta in T. destruct T as [Quiet [_ [_ [_ Reached]]]].
  destruct (Reached Env.account 421614 10000000
              eq_refl eq_refl eq_refl eq_refl eq_refl) as [Asked [Step _]].
  exact (conj Quiet (conj Asked Step)).
Defined.

(** C7 as stated fails on the approval: with no allowance, the press of the
    button submits the approval write; once its receipt reports success the
    effect asks the oracle; the oracle cannot be reached and the attempt
    ends in the error step -- with the approval write submitted. *)
Lemma approval_precedes_oracle_failure_counterexample :
  let input := Env.depositing10 Orchestrator.StepInput in
  let pressed := Env.handleInitiateDeposit input Env.idle input in
  let approving := Orchestrator.stateOf pressed in
  let approved := Env.approvalConfirmed "0xapprove" Env.idle in
  let woken := Env.runEffects approving approved approving in
  let failed :=
    Env.resumeConfirmDeposit approved 10000000 (Throw "Oracle unreachable")
      (Orchestrator.stateOf woken) in
  Orchestrator.hasEnoughAllowance Env.parseFloat Env.parseUnits Env.idle "10"
  = false
  /\ List.filter Orchestrator.isWrite (Orchestrator.commandsOf pressed)
     = [Orchestrator.WriteUSDC
          {| Orchestrator.contract := Env.usdc;
             Orchestrator.functionName := "approve";
             Orchestrator.args :=
               [Orchestrator.ArgAddress Env.vault;
                Orchestrator.ArgUint Orchestrator.maxAmount];
             Orchestrator.gas := 100000 |}]
  /\ Orchestrator.depositStep approving = Orchestrator.StepApproving
  /\ List.filter Orchestrator.isAwaitSignature (Orchestrator.commandsOf woken)
     = [Orchestrator.AwaitSignature 10000000 Env.account 421614]
  /\ Orchestrator.depositStep (Orchestrator.stateOf failed)
     = Orchestrator.StepError
  /\ Orchestrator.errorMessage (Orchestrator.stateOf failed)
     = "Oracle service error: Oracle unreachable"
  /\ List.filter Orchestrator.isWrite
       (Orchestrator.commandsOf pressed ++ Orchestrator.commandsOf woken
        ++ Orchestrator.commandsOf failed)%list
     = [Orchestrator.WriteUSDC
          {| Orchestrator.contract := Env.usdc;
             Orchestrator.functionName := "approve";
             Orchestrator.args :=
               [Orchestrator.ArgAddress Env.vault;
                Orchestrator.ArgUint Orchestrator.maxAmount];
             Orchestrator.gas := 100000 |}].
Proof. cbv zeta. repeat split. Qed.




(** The confirm button is the other such start: in the approving step with
    nothing in flight, no hash, no receipt and no allowance, the button is
    enabled and its press enters the depositing step and asks the oracle. *)
Lemma confirm_button_starts_without_receipt :
  let r := Env.depositing10 Orchestrator.StepApproving in
  let pressed := Env.handleConfirmDeposit r Env.idle r in
  Orchestrator.confirmButtonEnabled r Env.idle = true
  /\ Orchestrator.isUSDCTxSuccess Env.idle = false
  /\ Orchestrator.usdcTxHash Env.idle = None
  /\ Orchestrator.hasEnoughAllowance Env.parseFloat Env.parseUnits Env.idle
       "10" = false
  /\ Orchestrator.depositStep (Orchestrator.stateOf pressed)
     = Orchestrator.StepDepositing
  /\ List.filter Orchestrator.isAwaitSignature
       (Orchestrator.commandsOf pressed)
     = [Orchestrator.AwaitSignature 10000000 Env.account 421614].
Proof. cbv zeta. repeat split. Qed.

(** C4, as the code has it: in the approving step, an approval failure that
    carries the simulation-error signature and none of the rejection words
    makes the watcher re-read the allowance, while the error reporter of the
    same commit shows the error step.  When the re-read allowance covers the
    requested positive amount the deposit starts without the user (step
    depositing, signature requested); when it is zero or unavailable the
    attempt is put in the error step with the message that points to the
    block explorer. *)
Theorem simulation_error_recovery
        (parseFloat : string -> float) (parseUnits : string -> Z -> Result Z)
        (r : Orchestrator.Component) (h : Orchestrator.Hooks)
        (account : string) (chain amountInWei newAllowance : Z) :
  Orchestrator.depositStep r = Orchestrator.StepApproving ->
  Orchestrator.isMetaMaskSimulationError (Orchestrator.usdcWriteError h) = true ->
  Orchestrator.isUserRejection (Orchestrator.usdcWriteError h) = false ->
  Orchestrator.truthyString (Orchestrator.address h) = Some account ->
  Orchestrator.truthyChain (Orchestrator.chainId h) = Some chain ->
  Orchestrator.isValidAmount parseFloat (Orchestrator.depositAmount r) = true ->
  parseUnits (Orchestrator.depositAmount r) 6 = Ok amountInWei ->
  0 < amountInWei <= newAllowance ->
  existsb Orchestrator.isAllowanceCheck
    (Orchestrator.commandsOf
       (Orchestrator.watchTransactions parseFloat parseUnits r h r)) = true
  /\ Orchestrator.depositStep
       (Orchestrator.stateOf
          (Orchestrator.runEffects parseFloat parseUnits r h r))
     = Orchestrator.StepError
  /\ (let run :=
        Orchestrator.onAllowanceRefetched parseFloat parseUnits r h
          (Some newAllowance) r in
      Orchestrator.depositStep (Orchestrator.stateOf run)
      = Orchestrator.StepDepositing
      /\ In (Orchestrator.AwaitSignature amountInWei account chain)
            (Orchestrator.commandsOf run))
  /\ (forall unchanged,
         unchanged = None \/ unchanged = Some 0 ->
         let run :=
           Orchestrator.onAllowanceRefetched parseFloat parseUnits r h
             unchanged r in
         Orchestrator.depositStep (Orchestrator.stateOf run)
         = Orchestrator.StepError
         /\ Orchestrator.errorMessage (Orchestrator.stateOf run)
            = Orchestrator.falseNegativeApproval
         /\ Orchestrator.commandsOf run = [])
  /\ Str.includes "check Arbiscan to verify" Orchestrator.falseNegativeApproval
     = true.
Proof.
  intros Hstep Hsim Hrej Haccount Hchain Hvalid Hunits [Hpos Hcover].
  split; [|split; [|split; [|split]]].
  - unfold Orchestrator.watchTransactions. rewrite Hstep, Hrej, Hsim.
    destruct (Orchestrator.usdcWriteError h) as [msg|];
      [|discriminate Hsim].
    repeat (apply heard_after;
            [repeat first [apply handleConfirmDeposit_succeeds
                          | succeeds_step]
            | intros ? ?]).
    reflexivity.
  - unfold Orchestrator.runEffects. rewrite state_bind.
    destruct (watchTransactions_succeeds parseFloat parseUnits r h r)
      as [u ->].
    destruct (Orchestrator.usdcWriteError h) as [msg|] eqn:Herr;
      [|discriminate Hsim].
    apply (reportWriteErrors_shows_error r h msg _ Hstep Herr).
  - cbv zeta. unfold Orchestrator.onAllowanceRefetched.
    assert (E : (0 <? newAllowance) = true) by (apply Z.ltb_lt; lia).
    rewrite E. unfold Orchestrator.handleConfirmDeposit.
    rewrite Haccount, Hchain, Hvalid.
    assert (N : ChainRegistry.is_empty (Orchestrator.depositAmount r) = false).
    { destruct (Orchestrator.depositAmount r); [discriminate Hvalid|].
      reflexivity. }
    rewrite N. run_handler. rewrite Hunits. run_handler.
    split; [reflexivity|]. cbn [In].
    repeat first [left; reflexivity | right].
  - intros unchanged [-> | ->]; cbv zeta; repeat split.
  - reflexivity.
Qed.

(** The recovery theorem at a bare simulation error, with the full
    allowance re-read. *)
Lemma simulation_error_recovery_witness :
  existsb Orchestrator.isAllowanceCheck
    (Orchestrator.commandsOf
       (Env.watchTransactions
          (Env.depositing10 Orchestrator.StepApproving)
          (Orchestrator.withApproval
             None false (Some "Internal JSON-RPC error.") false Env.idle)
          (Env.depositing10 Orchestrator.StepApproving)))
  = true.
Proof.
  refine (proj1 (simulation_error_recovery
                   Env.parseFloat Env.parseUnits
                   (Env.depositing10 Orchestrator.StepApproving)
                   (Orchestrator.withApproval
                      None false (Some "Internal JSON-RPC error.") false
                      Env.idle)
                   Env.account 421614 10000000 Orchestrator.maxAmount
                   eq_refl eq_refl eq_refl eq_refl eq_refl eq_refl eq_refl _)).
  split; [reflexivity | discriminate].
Defined.

(** C4 as stated fails: a failure that carries the simulation-error
    signature together with a rejection word is treated as a rejection; the
    allowance is not re-read and the attempt goes straight to the error
    step.  And the error with the block-explorer message does not wait for
    an unchanged allowance: an allowance of 5 that is re-read as 0 gets
    it. *)
Lemma simulation_error_rejected_counterexample :
  let r := Env.depositing10 Orchestrator.StepApproving in
  let h := Orchestrator.withApproval
             None false
             (Some "Internal JSON-RPC error: transaction rejected") false
             Env.idle in
  let h5 := Orchestrator.withAllowance (Some 5) 0%float
              (Orchestrator.withApproval
                 None false (Some "Internal JSON-RPC error.") false
                 Env.idle) in
  Orchestrator.isMetaMaskSimulationError (Orchestrator.usdcWriteError h) = true
  /\ existsb Orchestrator.isAllowanceCheck
       (Orchestrator.commandsOf (Env.watchTransactions r h r)) = false
  /\ Orchestrator.depositStep
       (Orchestrator.stateOf (Env.watchTransactions r h r))
     = Orchestrator.StepError
  /\ Orchestrator.errorMessage
       (Orchestrator.stateOf (Env.watchTransactions r h r))
     = Orchestrator.rejected
  /\ Orchestrator.usdcAllowance h5 = Some 5
  /\ Orchestrator.depositStep
       (Orchestrator.stateOf (Env.onAllowanceRefetched r h5 (Some 0) r))
     = Orchestrator.StepError
  /\ Orchestrator.errorMessage
       (Orchestrator.stateOf (Env.onAllowanceRefetched r h5 (Some 0) r))
     = Orchestrator.falseNegativeApproval.
Proof. cbv zeta. repeat split. Qed.

(** After a simulation error the re-read allowance is only compared with
    zero: an earlier allowance of 5 units, unchanged and short of the ten
    USDC requested, starts the deposit all the same. *)
Lemma short_allowance_starts_deposit :
  let r := Env.depositing10 Orchestrator.StepApproving in
  let h := Orchestrator.withAllowance (Some 5) 0%float
             (Orchestrator.withApproval
                None false (Some "Internal JSON-RPC error.") false Env.idle) in
  Orchestrator.hasEnoughAllowance Env.parseFloat Env.parseUnits h "10" = false
  /\ Orchestrator.depositStep
       (Orchestrator.stateOf (Env.onAllowanceRefetched r h (Some 5) r))
     = Orchestrator.StepDepositing.
Proof. cbv zeta. repeat split. Qed.

(** C3 on the code: [handleConfirmDeposit] does not look at the pending flag
    of the vault write, and neither does the button that initiates a
    deposit.  Called while a vault write is pending it resets the write and,
    once the oracle has answered, submits a second one; the continuation of
    an allowance re-read calls it in the depositing step just the same;
    [handleWithdraw] under the same pending flag submits nothing. *)
Theorem confirm_deposit_ignores_pending_write
        (parseFloat : string -> float) (parseUnits : string -> Z -> Result Z)
        (BigInt : string -> Result Z)
        (getDepositSignature : string -> string -> Z
                               -> Result Orchestrator.Snapshot)
        (r c0 : Orchestrator.Component) (h : Orchestrator.Hooks)
        (pending : bool) :
  Orchestrator.confirmDeposit parseFloat parseUnits BigInt getDepositSignature
    r (Orchestrator.withVaultPending pending h) c0
  = Orchestrator.confirmDeposit parseFloat parseUnits BigInt
      getDepositSignature r h c0
  /\ Orchestrator.initiateButtonEnabled parseFloat r
       (Orchestrator.withVaultPending pending h)
     = Orchestrator.initiateButtonEnabled parseFloat r h
  /\ List.filter
       (fun c => Orchestrator.isWrite c
                 || match c with
                    | Orchestrator.ResetVaultWrite => true
                    | _ => false
                    end)
       (Orchestrator.commandsOf
          (Env.confirmDeposit (fun _ _ _ => Ok (Env.snapshotWith "0"))
             (Env.depositing10 Orchestrator.StepInput)
             (Orchestrator.withVaultPending true Env.funded)
             (Env.depositing10 Orchestrator.StepInput)))
     = [Orchestrator.ResetVaultWrite;
        Orchestrator.WriteVault
          (Orchestrator.plainDeposit Env.vault 10000000 Env.account)]
  /\ existsb Orchestrator.isAwaitSignature
       (Orchestrator.commandsOf
          (Env.onAllowanceRefetched
             (Env.depositing10 Orchestrator.StepDepositing)
             (Orchestrator.withVaultPending true Env.funded)
             (Some Orchestrator.maxAmount)
             (Env.depositing10 Orchestrator.StepDepositing)))
     = true
  /\ Orchestrator.commandsOf
       (Env.handleWithdraw Env.withdrawing10
          (Orchestrator.withVaultPending true Env.funded) Env.withdrawing10)
     = []
  /\ List.filter Orchestrator.isWrite
       (Orchestrator.commandsOf
          (Env.handleWithdraw Env.withdrawing10 Env.funded Env.withdrawing10))
     = [Orchestrator.WriteVault
          {| Orchestrator.contract := Env.vault;
             Orchestrator.functionName := "withdraw";
             Orchestrator.args :=
               [Orchestrator.ArgUint 10000000;
                Orchestrator.ArgAddress Env.account;
                Orchestrator.ArgAddress Env.account];
             Orchestrator.gas := 350000 |}].
Proof. repeat split. Qed.

(** C10: on Optimism Sepolia (chain id 11155420) the vault address lookup
    throws, for the configured vault address is empty, while the asset
    address lookup returns a non-empty address and the chain id has a case
    of its own in both lookups.  Hence no handler submits a write on that
    chain: not the approval, not either deposit, not the withdrawal. *)
Theorem optimism_sepolia_vault_unresolvable
        (parseFloat : string -> float) (parseUnits : string -> Z -> Result Z)
        (BigInt : string -> Result Z)
        (r c0 : Orchestrator.Component) (h : Orchestrator.Hooks)
        (amountInWei : Z) (answer : Result Orchestrator.Snapshot) :
  let onOptimism := Orchestrator.withChain (Some 11155420) h in
  ChainRegistry.getContractAddress 11155420
  = Throw "AAVE Vault not yet deployed on Optimism Sepolia. Coming soon!"
  /\ ChainRegistry.optimismSepolia ChainRegistry.CONTRACT_ADDRESSES = ""
  /\ ChainRegistry.getUSDCAddress 11155420
     = Ok "0x5fd84259d66Cd46123540766Be93DFE6D43130D7"
  /\ ChainRegistry.dispatched 11155420 = true
  /\ existsb Orchestrator.isWrite
       (Orchestrator.commandsOf
          (Orchestrator.handleApproveUSDC parseFloat r onOptimism c0)) = false
  /\ existsb Orchestrator.isWrite
       (Orchestrator.commandsOf
          (Orchestrator.handleConfirmDeposit parseFloat parseUnits r
             onOptimism c0)) = false
  /\ existsb Orchestrator.isWrite
       (Orchestrator.commandsOf
          (Orchestrator.resumeConfirmDeposit BigInt onOptimism amountInWei
             answer c0)) = false
  /\ existsb Orchestrator.isWrite
       (Orchestrator.commandsOf
          (Orchestrator.handleInitiateDeposit parseFloat parseUnits r
             onOptimism c0)) = false
  /\ existsb Orchestrator.isWrite
       (Orchestrator.commandsOf
          (Orchestrator.handleWithdraw parseFloat parseUnits r onOptimism c0))
     = false.
Proof.
  cbv zeta.
  assert (Happrove :
            Orchestrator.quiet Orchestrator.isWrite
              (Orchestrator.handleApproveUSDC parseFloat r
                 (Orchestrator.withChain (Some 11155420) h))).
  { unfold Orchestrator.handleApproveUSDC, Orchestrator.resetErrors.
    cbn [Orchestrator.withChain Orchestrator.chainId Orchestrator.address
         Orchestrator.truthyChain Z.eqb].
    change (ChainRegistry.getContractAddress 11155420)
      with (@Throw string
              "AAVE Vault not yet deployed on Optimism Sepolia. Coming soon!").
    repeat quiet_step. }
  split; [reflexivity|]. split; [reflexivity|]. split; [reflexivity|].
  split; [reflexivity|]. split; [apply Happrove|].
  split; [apply handleConfirmDeposit_no_write|].
  split; [|split].
  - unfold Orchestrator.resumeConfirmDeposit, Orchestrator.submitDeposit,
      Orchestrator.depositSetupFailed.
    cbn [Orchestrator.withChain Orchestrator.chainId Orchestrator.address
         Orchestrator.truthyChain Z.eqb].
    change (ChainRegistry.getContractAddress 11155420)
      with (@Throw string
              "AAVE Vault not yet deployed on Optimism Sepolia. Coming soon!").
    as_quiet. repeat quiet_step.
  - unfold Orchestrator.handleInitiateDeposit. as_quiet.
    repeat first [apply handleConfirmDeposit_no_write | apply Happrove
                 | quiet_step].
  - unfold Orchestrator.handleWithdraw.
    cbn [Orchestrator.withChain Orchestrator.chainId Orchestrator.address
         Orchestrator.truthyChain Z.eqb].
    change (ChainRegistry.getContractAddress 11155420)
      with (@Throw string
              "AAVE Vault not yet deployed on Optimism Sepolia. Coming soon!").
    as_quiet. repeat quiet_step.
Qed.

(** * Further properties *)

(** ** The registry and the reads set up while rendering *)

Lemma getContractAddress_resolves (chainId : Z) (a : string) :
  ChainRegistry.getContractAddress chainId = Ok a ->
  ContractReads.vaultResolves chainId = true
  /\ ChainRegistry.is_empty a = false.
Proof.
  unfold ChainRegistry.getContractAddress, ChainRegistry.getContractAddressIn,
    ContractReads.vaultResolves.
  destruct (chainId =? 31337); [intro H; injection H as <-; split; reflexivity|].
  destruct (chainId =? 1); [intro H; injection H as <-; split; reflexivity|].
  destruct (chainId =? 84532);
    [intro H; injection H as <-; split; reflexivity|].
  destruct (chainId =? 421614);
    [intro H; injection H as <-; split; reflexivity|].
  destruct (chainId =? 11155420); cbn; discriminate.
Qed.

Lemma getContractAddress_throws (chainId : Z) :
  ContractReads.vaultResolves chainId = false ->
  exists e, ChainRegistry.getContractAddress chainId = Throw e.
Proof.
  intro H. destruct (ChainRegistry.getContractAddress chainId) as [a|e] eqn:E.
  - apply getContractAddress_resolves in E. destruct E as [E _].
    rewrite E in H. discriminate.
  - exists e. reflexivity.
Qed.

Lemma vaultResolves_dispatched (chainId : Z) :
  ContractReads.vaultResolves chainId = true ->
  ChainRegistry.dispatched chainId = true.
Proof.
  unfold ContractReads.vaultResolves, ChainRegistry.dispatched. intro H.
  rewrite H. reflexivity.
Qed.

Lemma getUSDCAddress_resolves (chainId : Z) :
  ChainRegistry.dispatched chainId = true ->
  exists a, ChainRegistry.getUSDCAddress chainId = Ok a
            /\ ChainRegistry.is_empty a = false.
Proof.
  unfold ChainRegistry.getUSDCAddress, ChainRegistry.getUSDCAddressIn,
    ChainRegistry.dispatched.
  destruct (chainId =? 31337); [intros _; eexists; split; reflexivity|].
  destruct (chainId =? 1); [intros _; eexists; split; reflexivity|].
  destruct (chainId =? 84532); [intros _; eexists; split; reflexivity|].
  destruct (chainId =? 421614); [intros _; eexists; split; reflexivity|].
  destruct (chainId =? 11155420); [intros _; eexists; split; reflexivity|].
  discriminate.
Qed.

Lemma lookups_unsupported (chainId : Z) :
  ChainRegistry.dispatched chainId = false ->
  ChainRegistry.getContractAddress chainId
  = Throw (ChainRegistry.unsupported chainId)
  /\ ChainRegistry.getUSDCAddress chainId
     = Throw (ChainRegistry.unsupported chainId).
Proof.
  unfold ChainRegistry.getContractAddress, ChainRegistry.getContractAddressIn,
    ChainRegistry.getUSDCAddress, ChainRegistry.getUSDCAddressIn,
    ChainRegistry.dispatched.
  destruct (chainId =? 31337); [discriminate|].
  destruct (chainId =? 1); [discriminate|].
  destruct (chainId =? 84532); [discriminate|].
  destruct (chainId =? 421614); [discriminate|].
  destruct (chainId =? 11155420); [discriminate|].
  intros _. split; reflexivity.
Qed.

Lemma getContractAddress_returns (chainId : Z) :
  ContractReads.vaultResolves chainId = true ->
  exists a, ChainRegistry.getContractAddress chainId = Ok a
            /\ ChainRegistry.is_empty a = false.
Proof.
  unfold ChainRegistry.getContractAddress, ChainRegistry.getContractAddressIn,
    ContractReads.vaultResolves.
  destruct (chainId =? 31337); [intros _; eexists; split; reflexivity|].
  destruct (chainId =? 1); [intros _; eexists; split; reflexivity|].
  destruct (chainId =? 84532); [intros _; eexists; split; reflexivity|].
  destruct (chainId =? 421614); [intros _; eexists; split; reflexivity|].
  discriminate.
Qed.


Lemma whenChain_throws (chain : Z) (lookup : Z -> Result string) :
  chain <> 0 ->
  ContractReads.throws (ContractReads.whenChain (Some chain) lookup)
  = ContractReads.throws (lookup chain).
Proof.
  intro H. unfold ContractReads.whenChain, Orchestrator.truthyChain.
  destruct (chain =? 0) eqn:E; [apply Z.eqb_eq in E; contradiction|].
  destruct (lookup chain); reflexivity.
Qed.

Lemma getContractAddress_throws_iff (chain : Z) :
  ContractReads.throws (ChainRegistry.getContractAddress chain)
  = negb (ContractReads.vaultResolves chain).
Proof.
  destruct (ContractReads.vaultResolves chain) eqn:V.
  - destruct (getContractAddress_returns chain V) as [a [-> _]]. reflexivity.
  - destruct (getContractAddress_throws chain V) as [e ->]. reflexivity.
Qed.

Lemma getUSDCAddress_throws_iff (chain : Z) :
  ContractReads.throws (ChainRegistry.getUSDCAddress chain)
  = negb (ChainRegistry.dispatched chain).
Proof.
  destruct (ChainRegistry.dispatched chain) eqn:D.
  - destruct (getUSDCAddress_resolves chain D) as [a [-> _]]. reflexivity.
  - destruct (lookups_unsupported chain D) as [_ ->]. reflexivity.
Qed.

(** X2: with the wallet on a chain (a chain id that is not 0), setting up
    the contract reads in the render of the balance component and in the
    render of the welcome provider throws exactly when the vault lookup
    does -- on every chain but localhost, Ethereum, Base Sepolia and
    Arbitrum Sepolia, so on Optimism Sepolia and on Ethereum Sepolia too;
    the wallet panel's read throws only on a chain the registry has no
    case for; the performance hook catches the failure, never throws and
    reads no vault exactly where the others throw. *)
Theorem render_reads_by_chain (address : option string) (chain : Z) :
  chain <> 0 ->
  ContractReads.throws (ContractReads.balanceReads address (Some chain))
  = negb (ContractReads.vaultResolves chain)
  /\ ContractReads.throws (ContractReads.welcomeRead (Some chain))
     = negb (ContractReads.vaultResolves chain)
  /\ ContractReads.throws (ContractReads.walletConnectionRead (Some chain))
     = negb (ChainRegistry.dispatched chain)
  /\ (ContractReads.performanceRead (Some chain) = None
      <-> ContractReads.vaultResolves chain = false).
Proof.
  intro H. split; [|split; [|split]].
  - unfold ContractReads.balanceReads, ContractReads.whenChain,
      Orchestrator.truthyChain.
    destruct (chain =? 0) eqn:E; [apply Z.eqb_eq in E; contradiction|].
    destruct (ContractReads.vaultResolves chain) eqn:V.
    + destruct (getContractAddress_returns chain V) as [a [-> _]].
      destruct (getUSDCAddress_resolves chain (vaultResolves_dispatched chain V))
        as [u [-> _]].
      destruct (Orchestrator.truthyString address); reflexivity.
    + destruct (getContractAddress_throws chain V) as [e ->].
      destruct (ChainRegistry.getUSDCAddress chain); [|reflexivity].
      destruct (Orchestrator.truthyString address); reflexivity.
  - unfold ContractReads.welcomeRead.
    rewrite (whenChain_throws chain _ H). apply getContractAddress_throws_iff.
  - unfold ContractReads.walletConnectionRead.
    rewrite (whenChain_throws chain _ H). apply getUSDCAddress_throws_iff.
  - unfold ContractReads.performanceRead, Orchestrator.truthyChain.
    destruct (chain =? 0) eqn:E; [apply Z.eqb_eq in E; contradiction|].
    destruct (ContractReads.vaultResolves chain) eqn:V.
    + destruct (getContractAddress_returns chain V) as [a [-> _]].
      split; discriminate.
    + destruct (getContractAddress_throws chain V) as [e ->].
      split; reflexivity.
Qed.

Lemma render_reads_by_chain_witness :
  11155420 <> 0
  /\ ContractReads.throws
       (ContractReads.balanceReads (Some Env.account) (Some 11155420)) = true
  /\ ContractReads.throws (ContractReads.welcomeRead (Some 11155420)) = true
  /\ ContractReads.throws
       (ContractReads.walletConnectionRead (Some 11155420)) = false.
Proof.
  split; [lia|].
  destruct (render_reads_by_chain (Some Env.account) 11155420 ltac:(lia))
    as [B [W [P _]]].
  split; [exact B | split; [exact W | exact P]].
Defined.

(** ** The allocation list *)

Lemma insertByAllocation_In (x y : Allocation.AllocationItem)
      (l : list Allocation.AllocationItem) :
  In y (Allocation.insertByAllocation x l) -> y = x \/ In y l.
Proof.
  intro H.
  apply (Permutation_in y (insertByAllocation_perm x l)) in H.
  destruct H as [-> | H]; [left; reflexivity | right; exact H].
Qed.

Lemma insertByAllocation_descending (x : Allocation.AllocationItem)
      (l : list Allocation.AllocationItem) :
  Order.descendingBy Allocation.allocation l ->
  Order.descendingBy Allocation.allocation (Allocation.insertByAllocation x l).
Proof.
  induction l as [|y l IH]; intro D.
  - cbn. split; [intros z []|exact I].
  - cbn [Allocation.insertByAllocation]. destruct D as [Dy Dl].
    destruct (Allocation.allocation y - Allocation.allocation x <=? 0) eqn:E.
    + apply Z.leb_le in E. split; [|split; assumption].
      intros z [<- | Hz]; [lia|]. specialize (Dy z Hz). lia.
    + apply Z.leb_gt in E. split; [|apply IH, Dl].
      intros z Hz. apply insertByAllocation_In in Hz.
      destruct Hz as [-> | Hz]; [lia | apply Dy, Hz].
Qed.

Lemma sortByAllocation_descending (l : list Allocation.AllocationItem) :
  Order.descendingBy Allocation.allocation (Allocation.sortByAllocation l).
Proof.
  induction l as [|x l IH]; [exact I|].
  apply insertByAllocation_descending, IH.
Qed.

(** X3: the allocation list of a pass -- mock or read from the chains,
    whatever the reads return -- comes out in descending order of
    percentage, so its first entry is a largest one. *)
Theorem allocations_descending
        (read : Allocation.ChainConfig -> Result Z)
        (configs : list Allocation.ChainConfig) (useMock : bool) :
  Order.descendingBy Allocation.allocation
    (Allocation.allocations
       (Allocation.fetchAllocationDataOn read configs useMock)).
Proof.
  unfold Allocation.fetchAllocationDataOn.
  destruct useMock; cbn [Allocation.allocations];
    apply sortByAllocation_descending.
Qed.

Lemma allocationPercent_bounds (total bal : Z) :
  0 <= bal <= total ->
  0 <= Allocation.allocationPercent total bal <= 100.
Proof.
  intros [Hb Ht]. unfold Allocation.allocationPercent.
  destruct (0 <? total) eqn:E; [|lia]. apply Z.ltb_lt in E.
  rewrite Z.quot_div_nonneg by lia. split.
  - apply Z.div_pos; lia.
  - apply Z.div_le_upper_bound; lia.
Qed.

Lemma rawBalance_le_total (read : Allocation.ChainConfig -> Result Z)
      (configs : list Allocation.ChainConfig)
      (config : Allocation.ChainConfig) :
  Allocation.unsignedReads read -> In config configs ->
  Allocation.rawBalance read config <= Allocation.totalRawOf read configs.
Proof.
  intros U. unfold Allocation.totalRawOf.
  induction configs as [|x configs IH]; intro Hin; [destruct Hin|].
  cbn [map]. rewrite sumZ_cons.
  assert (0 <= Allocation.sumZ (map (Allocation.rawBalance read) configs)) as Hs.
  { clear IH Hin. induction configs as [|y configs IH'].
    - cbn. lia.
    - cbn [map]. rewrite sumZ_cons.
      pose proof (rawBalance_unsigned read y U). lia. }
  destruct Hin as [-> | Hin].
  - lia.
  - pose proof (rawBalance_unsigned read x U). specialize (IH Hin). lia.
Qed.

(** X4: with distinct chain ids and unsigned reads, every percentage of a
    pass lies between 0 and 100. *)
Theorem percentages_within_bounds
        (read : Allocation.ChainConfig -> Result Z)
        (configs : list Allocation.ChainConfig) :
  NoDup (map Allocation.chainId configs) -> Allocation.unsignedReads read ->
  Forall (fun p => 0 <= p <= 100)
         (Allocation.percentages
            (Allocation.fetchAllocationDataOn read configs false)).
Proof.
  intros ND U. apply Forall_forall. intros p Hp.
  apply (Permutation_in p (percentages_perm read configs ND)) in Hp.
  apply in_map_iff in Hp. destruct Hp as [config [<- Hin]].
  apply allocationPercent_bounds. split.
  - apply rawBalance_unsigned, U.
  - apply rawBalance_le_total; assumption.
Qed.

Lemma percentages_within_bounds_witness :
  Forall (fun p => 0 <= p <= 100)
         (Allocation.percentages
            (Allocation.fetchAllocationDataOn
               (Allocation.readsOf [(1, 999); (2, 1); (3, 0); (4, 0)])
               Allocation.fourChains false)).
Proof.
  refine (percentages_within_bounds
            (Allocation.readsOf [(1, 999); (2, 1); (3, 0); (4, 0)])
            Allocation.fourChains _ _).
  - repeat constructor; simpl; intuition discriminate.
  - intros config v. unfold Allocation.readsOf. cbn [find].
    repeat match goal with
           | |- context [if ?b then _ else _] => destruct b; cbn [fst snd]
           end; intro H; try discriminate H; injection H as <-; lia.
Defined.

(** ** The amount field over several keystrokes *)

Lemma filter_all (p : ascii -> bool) (s : string) :
  Str.forallb p s = true -> Str.filter p s = s.
Proof.
  induction s as [|c s IH]; simpl; [reflexivity|].
  intro H. apply andb_true_iff in H. destruct H as [Hc Hs].
  rewrite Hc, (IH Hs). reflexivity.
Qed.

(** On an entry of digits with at most one point the sanitizer only cuts
    the fraction. *)
Lemma sanitize_clean (v : string) :
  Str.forallb AmountInput.amountChar v = true ->
  (Str.count Str.is_dot v <= 1)%nat ->
  Str.forallb AmountInput.amountChar (AmountInput.sanitizeAmountInput v) = true
  /\ (Str.count Str.is_dot (AmountInput.sanitizeAmountInput v) <= 1)%nat
  /\ (String.length (Str.fraction (AmountInput.sanitizeAmountInput v)) <= 6)%nat
  /\ ((String.length (Str.fraction v) <= 6)%nat ->
      AmountInput.sanitizeAmountInput v = v).
Proof.
  intros Hchars Hone. unfold AmountInput.sanitizeAmountInput, AmountInput.strip.
  rewrite (filter_all _ _ Hchars).
  pose proof (split_parts_clean v) as Hclean.
  pose proof (split_parts_forallb AmountInput.amountChar _ Hchars) as Hparts.
  pose proof (split_length v) as Hlen.
  pose proof (split_concat v) as Hcat.
  unfold Str.fraction at 2.
  destruct (Str.split "." v) as [|p0 [|p1 [|p2 rest]]] eqn:E.
  - discriminate Hlen.
  - change (2 <? List.length [p0])%nat with false. cbv iota.
    cbn [String.concat] in Hcat. subst p0.
    pose proof (Forall_inv Hclean) as H0. cbv beta in H0.
    repeat split; try assumption; try reflexivity.
    unfold Str.fraction. rewrite E. simpl. lia.
  - change (2 <? List.length [p0; p1])%nat with false. cbv iota.
    cbn [String.concat] in Hcat.
    pose proof (Forall_inv Hclean) as H0. pose proof (Forall_inv Hparts) as C0.
    pose proof (Forall_inv (Forall_inv_tail Hclean)) as H1.
    pose proof (Forall_inv (Forall_inv_tail Hparts)) as C1.
    cbv beta in H0, C0, H1, C1. cbn [rev app].
    destruct (6 <? String.length p1)%nat eqn:L.
    + repeat split.
      * apply dotted_chars; [exact C0 | apply forallb_take; exact C1].
      * rewrite dotted_one_point;
          [lia | exact H0 | apply count_take_zero; exact H1].
      * rewrite fraction_two;
          [apply length_take | exact H0 | apply count_take_zero; exact H1].
      * intro Short. apply Nat.ltb_lt in L. lia.
    + apply Nat.ltb_ge in L. repeat split; try assumption; try reflexivity.
      rewrite <- Hcat, fraction_two; assumption.
  - simpl in Hlen. lia.
Qed.

(** The output of one pass is an entry of digits with at most one point. *)
Lemma sanitize_once (value : string) :
  Str.forallb AmountInput.amountChar (AmountInput.sanitizeAmountInput value)
  = true
  /\ (Str.count Str.is_dot (AmountInput.sanitizeAmountInput value) <= 1)%nat.
Proof.
  unfold AmountInput.sanitizeAmountInput.
  pose proof (strip_chars value) as Hchars.
  pose proof (split_parts_clean (AmountInput.strip value)) as Hclean.
  pose proof (split_parts_forallb AmountInput.amountChar _ Hchars) as Hparts.
  pose proof (split_length (AmountInput.strip value)) as Hlen.
  pose proof (split_concat (AmountInput.strip value)) as Hcat.
  destruct (Str.split "." (AmountInput.strip value))
    as [|p0 [|p1 [|p2 rest]]] eqn:E.
  - discriminate Hlen.
  - change (2 <? List.length [p0])%nat with false. cbv iota.
    cbn [String.concat] in Hcat.
    pose proof (Forall_inv Hclean) as H0. pose proof (Forall_inv Hparts) as C0.
    cbv beta in H0, C0. rewrite <- Hcat. split; [exact C0 | lia].
  - change (2 <? List.length [p0; p1])%nat with false. cbv iota.
    pose proof (Forall_inv Hclean) as H0. pose proof (Forall_inv Hparts) as C0.
    pose proof (Forall_inv (Forall_inv_tail Hclean)) as H1.
    pose proof (Forall_inv (Forall_inv_tail Hparts)) as C1.
    cbv beta in H0, C0, H1, C1. cbn [String.concat] in Hcat.
    destruct (6 <? String.length p1)%nat.
    + split; [apply dotted_chars; [exact C0 | apply forallb_take; exact C1]|].
      rewrite dotted_one_point;
        [lia | exact H0 | apply count_take_zero; exact H1].
    + rewrite <- Hcat.
      split; [apply dotted_chars; assumption|].
      rewrite dotted_one_point; [lia | exact H0 | exact H1].
  - change (2 <? List.length (p0 :: p1 :: p2 :: rest))%nat with true.
    cbv iota.
    pose proof (Forall_inv Hclean) as H0. pose proof (Forall_inv Hparts) as C0.
    cbv beta in H0, C0.
    split;
      [apply dotted_chars;
        [exact C0 | apply forallb_join; exact (Forall_inv_tail Hparts)]|].
    rewrite dotted_one_point;
      [lia | exact H0 | apply count_join_zero; exact (Forall_inv_tail Hclean)].
Qed.

(** X12: the amount field settles.  An entry that already is an amount
    -- digits, at most one point, at most six digits after it -- is
    returned unchanged; for every entry, sanitizing the sanitized text
    again (as the next keystroke does) leaves at most six digits after
    the point, also after an entry with several points that escaped the
    cut the first time, and from then on sanitizing changes nothing. *)
Theorem sanitizeAmountInput_settles (value : string) :
  let once := AmountInput.sanitizeAmountInput value in
  let twice := AmountInput.sanitizeAmountInput once in
  (Str.forallb AmountInput.amountChar value = true ->
   (Str.count Str.is_dot value <= 1)%nat ->
   (String.length (Str.fraction value) <= 6)%nat ->
   once = value)
  /\ (String.length (Str.fraction twice) <= 6)%nat
  /\ AmountInput.sanitizeAmountInput twice = twice
  /\ AmountInput.sanitizeAmountInput
       (AmountInput.sanitizeAmountInput "1.2.3456789") = "1.234567".
Proof.
  cbv zeta. split; [|split; [|split; [|reflexivity]]].
  - intros C P F. apply (sanitize_clean value C P). exact F.
  - destruct (sanitize_once value) as [C P].
    apply (sanitize_clean _ C P).
  - destruct (sanitize_once value) as [C P].
    destruct (sanitize_clean _ C P) as [C2 [P2 [F2 _]]].
    apply (sanitize_clean _ C2 P2). exact F2.
Qed.

(** ** The handlers' writes *)

Lemma quiet_not_In {A : Type} (P : Orchestrator.Command -> bool)
      (m : Orchestrator.M A) (c : Orchestrator.Component)
      (cmd : Orchestrator.Command) :
  Orchestrator.quiet P m -> P cmd = true ->
  ~ In cmd (Orchestrator.commandsOf (m c)).
Proof.
  intros Q HP Hin. specialize (Q c).
  assert (existsb P (Orchestrator.commandsOf (m c)) = true) as E.
  { apply existsb_exists. exists cmd. split; assumption. }
  rewrite E in Q. discriminate.
Qed.

Section WriteFacts.

Import Orchestrator.

Variable parseFloat : string -> float.
Variable parseUnits : string -> Z -> Result Z.

Lemma handleApproveUSDC_no_signature (r : Component) (h : Hooks) :
  quiet isAwaitSignature (handleApproveUSDC parseFloat r h).
Proof. unfold handleApproveUSDC, resetErrors. repeat quiet_step. Qed.

Lemma handleApproveUSDC_no_vault_write (r : Component) (h : Hooks) :
  quiet isVaultWrite (handleApproveUSDC parseFloat r h).
Proof. unfold handleApproveUSDC, resetErrors. repeat quiet_step. Qed.

Lemma handleWithdraw_no_USDC_write (r : Component) (h : Hooks) :
  quiet isUSDCWrite (handleWithdraw parseFloat parseUnits r h).
Proof. unfold handleWithdraw. repeat quiet_step. Qed.

End WriteFacts.

(** X5: the only write [handleApproveUSDC] ever issues is
    [approve(vault, 2^256 - 1)] on the asset of the wallet's chain with a
    gas limit of 100000, for the vault the registry resolves on that
    chain; it issues it only for a valid amount, after resetting the
    write hook and announcing the approval, and leaves the deposit in the
    approving step.  It never writes to the vault. *)
Theorem approval_is_unlimited_and_for_the_vault
        (parseFloat : string -> float)
        (r : Orchestrator.Component) (h : Orchestrator.Hooks)
        (c : Orchestrator.Component) :
  let run := Orchestrator.handleApproveUSDC parseFloat r h c in
  existsb Orchestrator.isVaultWrite (Orchestrator.commandsOf run) = false
  /\ (forall req,
        In (Orchestrator.WriteUSDC req) (Orchestrator.commandsOf run) ->
        exists chain usdc vault,
          Orchestrator.truthyChain (Orchestrator.chainId h) = Some chain
          /\ ChainRegistry.getUSDCAddress chain = Ok usdc
          /\ ChainRegistry.getContractAddress chain = Ok vault
          /\ req = {| Orchestrator.contract := usdc;
                      Orchestrator.functionName := "approve";
                      Orchestrator.args :=
                        [Orchestrator.ArgAddress vault;
                         Orchestrator.ArgUint (2 ^ 256 - 1)];
                      Orchestrator.gas := 100000 |}
          /\ Orchestrator.isValidAmount parseFloat
               (Orchestrator.depositAmount r) = true
          /\ Orchestrator.commandsOf run
             = [Orchestrator.ResetUSDCWrite;
                Orchestrator.UpsertMessage "deposit-approving"
                  (Orchestrator.pendingMessage "Approving spending limit...");
                Orchestrator.WriteUSDC req]
          /\ Orchestrator.depositStep (Orchestrator.stateOf run)
             = Orchestrator.StepApproving)
  /\ Orchestrator.commandsOf
       (Env.handleApproveUSDC (Env.depositing10 Orchestrator.StepInput)
          Env.idle (Env.depositing10 Orchestrator.StepInput))
     = [Orchestrator.ResetUSDCWrite;
        Orchestrator.UpsertMessage "deposit-approving"
          (Orchestrator.pendingMessage "Approving spending limit...");
        Orchestrator.WriteUSDC
          {| Orchestrator.contract :=
               "0x75faf114eafb1BDbe2F0316DF893fd58CE46AA4d";
             Orchestrator.functionName := "approve";
             Orchestrator.args :=
               [Orchestrator.ArgAddress Env.vault;
                Orchestrator.ArgUint (2 ^ 256 - 1)];
             Orchestrator.gas := 100000 |}].
Proof.
  cbv zeta. split; [|split; [|reflexivity]].
  - apply handleApproveUSDC_no_vault_write.
  - intro req. unfold Orchestrator.handleApproveUSDC.
    destruct (Orchestrator.truthyString (Orchestrator.address h));
      [|intros []].
    destruct (Orchestrator.truthyChain (Orchestrator.chainId h)) as [chain|];
      [|intros []].
    destruct (ChainRegistry.is_empty (Orchestrator.depositAmount r));
      [intros []|].
    destruct (Orchestrator.isValidAmount parseFloat
                (Orchestrator.depositAmount r)); [|intros []].
    cbn [negb].
    destruct (ChainRegistry.getUSDCAddress chain) as [usdc|e] eqn:U;
      [|run_handler; cbn; intuition discriminate].
    destruct (ChainRegistry.getContractAddress chain) as [vault|e] eqn:V;
      [|run_handler; cbn; intuition discriminate].
    run_handler. cbn.
    intros [H | [H | [H | []]]]; try discriminate H.
    injection H as <-.
    exists chain, usdc, vault. repeat split; first [assumption | reflexivity].
Qed.

(** X6: the only write [handleWithdraw] ever issues is
    [withdraw(assets, account, account)] on the vault of the wallet's
    chain, with the entered amount at 6 decimals and the connected
    account as receiver and owner; it issues it only when no vault write
    is pending, the amount is valid and not above the value the account
    holds in the vault, and it then shows the withdrawing step.  It never
    writes to the asset. *)
Theorem withdraw_write_is_guarded
        (parseFloat : string -> float)
        (parseUnits : string -> Z -> Result Z)
        (r : Orchestrator.Component) (h : Orchestrator.Hooks)
        (c : Orchestrator.Component) :
  let run := Orchestrator.handleWithdraw parseFloat parseUnits r h c in
  existsb Orchestrator.isUSDCWrite (Orchestrator.commandsOf run) = false
  /\ (forall req,
        In (Orchestrator.WriteVault req) (Orchestrator.commandsOf run) ->
        Orchestrator.isVaultPending h = false
        /\ Orchestrator.isValidAmount parseFloat
             (Orchestrator.withdrawAmount r) = true
        /\ PrimFloat.leb (parseFloat (Orchestrator.withdrawAmount r))
                         (Orchestrator.userVaultValue h) = true
        /\ exists chain account assetsWei vault,
             Orchestrator.truthyChain (Orchestrator.chainId h) = Some chain
             /\ Orchestrator.truthyString (Orchestrator.address h)
                = Some account
             /\ parseUnits (Orchestrator.withdrawAmount r) 6 = Ok assetsWei
             /\ ChainRegistry.getContractAddress chain = Ok vault
             /\ req = {| Orchestrator.contract := vault;
                         Orchestrator.functionName := "withdraw";
                         Orchestrator.args :=
                           [Orchestrator.ArgUint assetsWei;
                            Orchestrator.ArgAddress account;
                            Orchestrator.ArgAddress account];
                         Orchestrator.gas := 350000 |}
             /\ Orchestrator.commandsOf run
                = [Orchestrator.ResetVaultWrite; Orchestrator.WriteVault req]
             /\ Orchestrator.withdrawStep (Orchestrator.stateOf run)
                = Orchestrator.Withdrawing)
  /\ Orchestrator.commandsOf
       (Env.handleWithdraw Env.withdrawing10 Env.funded Env.withdrawing10)
     = [Orchestrator.ResetVaultWrite;
        Orchestrator.WriteVault
          {| Orchestrator.contract := Env.vault;
             Orchestrator.functionName := "withdraw";
             Orchestrator.args :=
               [Orchestrator.ArgUint 10000000;
                Orchestrator.ArgAddress Env.account;
                Orchestrator.ArgAddress Env.account];
             Orchestrator.gas := 350000 |}].
Proof.
  cbv zeta. split; [|split; [|reflexivity]].
  - apply handleWithdraw_no_USDC_write.
  - intro req. unfold Orchestrator.handleWithdraw.
    destruct (Orchestrator.truthyChain (Orchestrator.chainId h)) as [chain|];
      [|intros []].
    destruct (Orchestrator.truthyString (Orchestrator.address h))
      as [account|]; [|intros []].
    destruct (ChainRegistry.is_empty (Orchestrator.withdrawAmount r));
      [intros []|].
    destruct (Orchestrator.canWithdraw parseFloat r h) eqn:Can; [|intros []].
    cbn [negb orb].
    destruct (Orchestrator.isValidAmount parseFloat
                (Orchestrator.withdrawAmount r)) eqn:Valid; [|intros []].
    cbn [negb].
    destruct (parseUnits (Orchestrator.withdrawAmount r) 6)
      as [assetsWei|e] eqn:U;
      [|run_handler; cbn; intuition discriminate].
    destruct (ChainRegistry.getContractAddress chain) as [vault|e] eqn:V;
      [|run_handler; cbn; intuition discriminate].
    run_handler. cbn.
    intros [H | [H | []]]; try discriminate H.
    injection H as <-.
    unfold Orchestrator.canWithdraw, Orchestrator.hasEnoughWithdrawBalance
      in Can.
    apply andb_prop in Can. destruct Can as [Can _].
    apply andb_prop in Can. destruct Can as [Can Pending].
    apply andb_prop in Can. destruct Can as [_ Can].
    apply andb_prop in Can. destruct Can as [Can Le].
    apply andb_prop in Can. destruct Can as [Pos _].
    assert (Orchestrator.withdrawableAmount h = Orchestrator.userVaultValue h)
      as Same.
    { revert Pos. unfold Orchestrator.withdrawableAmount.
      destruct (PrimFloat.is_nan (Orchestrator.userVaultValue h)
                || PrimFloat.is_zero (Orchestrator.userVaultValue h));
        [vm_compute; discriminate | reflexivity]. }
    rewrite Same in Le.
    split; [destruct (Orchestrator.isVaultPending h);
            [discriminate Pending | reflexivity]|].
    split; [reflexivity|]. split; [exact Le|].
    exists chain, account, assetsWei, vault.
    repeat split; first [assumption | reflexivity].
Qed.

Section InitiateFacts.

Import Orchestrator.

Variable parseFloat : string -> float.
Variable parseUnits : string -> Z -> Result Z.

Lemma hasEnoughAllowance_covers (h : Hooks) (amount : string) :
  hasEnoughAllowance parseFloat parseUnits h amount = true ->
  exists allowance amountInWei,
    usdcAllowance h = Some allowance
    /\ parseUnits amount 6 = Ok amountInWei
    /\ amountInWei <= allowance /\ allowance <> 0
    /\ isValidAmount parseFloat amount = true.
Proof.
  unfold hasEnoughAllowance.
  destruct (usdcAllowance h) as [allowance|]; [|discriminate].
  destruct (allowance =? 0) eqn:Z0; [discriminate|]. cbn [orb].
  destruct (ChainRegistry.is_empty amount); [discriminate|]. cbn [orb].
  destruct (isValidAmount parseFloat amount); [|discriminate]. cbn [negb].
  destruct (parseUnits amount 6) as [amountInWei|]; [|discriminate].
  intro H. apply Z.leb_le in H. apply Z.eqb_neq in Z0.
  exists allowance, amountInWei. repeat split; assumption.
Qed.

End InitiateFacts.

(** X7: pressing Deposit asks for an approval only when the allowance
    read in this render does not cover the entered amount, and then
    requests no signature; it requests the oracle's signature directly
    only when a non-zero allowance covers the amount, and then issues no
    approval.  Either way it writes nothing to the vault itself. *)
Theorem initiate_chooses_by_allowance
        (parseFloat : string -> float)
        (parseUnits : string -> Z -> Result Z)
        (r : Orchestrator.Component) (h : Orchestrator.Hooks)
        (c : Orchestrator.Component) :
  let cmds :=
    Orchestrator.commandsOf
      (Orchestrator.handleInitiateDeposit parseFloat parseUnits r h c) in
  existsb Orchestrator.isVaultWrite cmds = false
  /\ (existsb Orchestrator.isUSDCWrite cmds = true ->
      Orchestrator.hasEnoughAllowance parseFloat parseUnits h
        (Orchestrator.depositAmount r) = false
      /\ existsb Orchestrator.isAwaitSignature cmds = false)
  /\ (existsb Orchestrator.isAwaitSignature cmds = true ->
      existsb Orchestrator.isUSDCWrite cmds = false
      /\ exists allowance amountInWei,
           Orchestrator.usdcAllowance h = Some allowance
           /\ parseUnits (Orchestrator.depositAmount r) 6 = Ok amountInWei
           /\ amountInWei <= allowance /\ allowance <> 0)
  /\ existsb Orchestrator.isUSDCWrite
       (Orchestrator.commandsOf
          (Env.handleInitiateDeposit (Env.depositing10 Orchestrator.StepInput)
             Env.idle (Env.depositing10 Orchestrator.StepInput))) = true
  /\ existsb Orchestrator.isAwaitSignature
       (Orchestrator.commandsOf
          (Env.handleInitiateDeposit (Env.depositing10 Orchestrator.StepInput)
             Env.funded (Env.depositing10 Orchestrator.StepInput))) = true.
Proof.
  cbv zeta. split; [|split; [|split; [|split; reflexivity]]].
  - as_quiet. unfold Orchestrator.handleInitiateDeposit.
    destruct (ChainRegistry.is_empty (Orchestrator.depositAmount r));
      [intro; reflexivity|].
    destruct (Orchestrator.hasEnoughAllowance parseFloat parseUnits h
                (Orchestrator.depositAmount r)).
    + apply quiet_bind; [|intro; intro; reflexivity].
      unfold Orchestrator.handleConfirmDeposit, Orchestrator.depositSetupFailed,
        Orchestrator.resetErrors.
      repeat quiet_step.
    + apply handleApproveUSDC_no_vault_write.
  - unfold Orchestrator.handleInitiateDeposit.
    destruct (ChainRegistry.is_empty (Orchestrator.depositAmount r));
      [discriminate|].
    destruct (Orchestrator.hasEnoughAllowance parseFloat parseUnits h
                (Orchestrator.depositAmount r)).
    + intro H. exfalso. revert H.
      assert (Orchestrator.quiet Orchestrator.isUSDCWrite
                (Orchestrator.bind
                   (Orchestrator.handleConfirmDeposit parseFloat parseUnits r h)
                   (fun _ => Orchestrator.ret tt))) as Q.
      { apply quiet_bind; [|intro; intro; reflexivity].
        unfold Orchestrator.handleConfirmDeposit,
          Orchestrator.depositSetupFailed, Orchestrator.resetErrors.
        repeat quiet_step. }
      rewrite (Q c). discriminate.
    + intros _. split; [reflexivity|].
      apply handleApproveUSDC_no_signature.
  - unfold Orchestrator.handleInitiateDeposit.
    destruct (ChainRegistry.is_empty (Orchestrator.depositAmount r));
      [discriminate|].
    destruct (Orchestrator.hasEnoughAllowance parseFloat parseUnits h
                (Orchestrator.depositAmount r)) eqn:Enough.
    + intros _. split.
      * as_quiet. apply quiet_bind; [|intro; intro; reflexivity].
        unfold Orchestrator.handleConfirmDeposit,
          Orchestrator.depositSetupFailed, Orchestrator.resetErrors.
        repeat quiet_step.
      * destruct (hasEnoughAllowance_covers parseFloat parseUnits h _ Enough)
          as [allowance [amountInWei [A [P [L [N _]]]]]].
        exists allowance, amountInWei. repeat split; assumption.
    + rewrite (handleApproveUSDC_no_signature parseFloat r h c).
      discriminate.
Qed.

(** ** The effects of a commit *)

(** X8: while the deposit is in its input or confirming step and the
    withdrawal in its input or confirming step, the two effects of a
    commit do nothing at all, whatever the hooks show -- receipts,
    hashes and write errors left over from earlier transactions
    included: no state cell changes and no command is issued. *)
Theorem effects_idle_at_rest
        (parseFloat : string -> float)
        (parseUnits : string -> Z -> Result Z)
        (r : Orchestrator.Component) (h : Orchestrator.Hooks)
        (c : Orchestrator.Component) :
  Orchestrator.depositStep r = Orchestrator.StepInput
  \/ Orchestrator.depositStep r = Orchestrator.StepConfirming ->
  Orchestrator.withdrawStep r = Orchestrator.WithdrawInput
  \/ Orchestrator.withdrawStep r = Orchestrator.WithdrawConfirming ->
  Orchestrator.runEffects parseFloat parseUnits r h c = (c, [], Ok tt).
Proof.
  intros D W.
  unfold Orchestrator.runEffects, Orchestrator.watchTransactions,
    Orchestrator.reportWriteErrors, Orchestrator.onVaultWriteError.
  destruct D as [-> | ->]; destruct W as [-> | ->];
    cbn [Orchestrator.DepositStep_eqb Orchestrator.WithdrawStep_eqb orb];
    rewrite !andb_false_r; reflexivity.
Qed.

Lemma effects_idle_at_rest_witness :
  Env.runEffects (Env.depositing10 Orchestrator.StepConfirming)
    (Orchestrator.withApproval (Some "0xapproval") false
       (Some "Internal JSON-RPC error") false Env.funded)
    (Env.depositing10 Orchestrator.StepConfirming)
  = (Env.depositing10 Orchestrator.StepConfirming, [], Ok tt).
Proof.
  apply (effects_idle_at_rest Env.parseFloat Env.parseUnits
           (Env.depositing10 Orchestrator.StepConfirming));
    [right; reflexivity | left; reflexivity].
Defined.

Lemma prefix_empty (t : string) : String.prefix "" t = true.
Proof. destruct t; reflexivity. Qed.

Lemma prefix_split (p s : string) :
  String.prefix p s = true -> exists t, s = p ++ t.
Proof.
  revert s. induction p as [|a p IH]; intros s H.
  - exists s. reflexivity.
  - destruct s as [|b s]; [discriminate|]. cbn [String.prefix] in H.
    destruct (Ascii.ascii_dec a b) as [<-|]; [|discriminate].
    destruct (IH s H) as [t ->]. exists t. reflexivity.
Qed.

(** Wherever [userrequestrejected] occurs, [rejected] does. *)
Lemma includes_rejected (s : string) :
  Str.includes "userrequestrejected" s = true ->
  Str.includes "rejected" s = true.
Proof.
  induction s as [|ch s IH].
  - discriminate.
  - intro H. cbn [Str.includes] in H. apply orb_prop in H.
    destruct H as [H | H].
    + destruct (prefix_split _ _ H) as [t ->].
      cbn. rewrite prefix_empty. reflexivity.
    + cbn [Str.includes]. rewrite (IH H). apply orb_true_r.
Qed.

Lemma rejection_is_cancellation (e : option string) :
  Orchestrator.isUserRejection e = true ->
  Orchestrator.isUserCancellation e = true.
Proof.
  destruct e as [m|]; [|discriminate].
  unfold Orchestrator.isUserRejection, Orchestrator.isUserCancellation.
  cbv zeta. intro H.
  apply orb_prop in H. destruct H as [H | H];
    [|rewrite (includes_rejected _ H), orb_true_r; reflexivity].
  apply orb_prop in H. destruct H as [H | H];
    [|rewrite H, !orb_true_r; reflexivity].
  apply orb_prop in H. destruct H as [H | H]; rewrite H;
    [|rewrite orb_true_r]; reflexivity.
Qed.

Section RunsThatReturn.

Import Orchestrator.

Context {A B : Type}.

Lemma bind_ret (a : A) (k : A -> M B) (c : Component) :
  bind (ret a) k c = k a c.
Proof. unfold bind, ret. destruct (k a c) as [[c2 out2] res]. reflexivity. Qed.

Lemma state_bind_returned (m : M A) (k : A -> M B) (c : Component) (a : A) :
  resultOf (m c) = Ok a ->
  stateOf (bind m k c) = stateOf (k a (stateOf (m c))).
Proof. intro H. rewrite state_bind, H. reflexivity. Qed.

Lemma commands_bind_returned (m : M A) (k : A -> M B) (c : Component)
      (a : A) :
  resultOf (m c) = Ok a ->
  commandsOf (bind m k c)
  = (commandsOf (m c) ++ commandsOf (k a (stateOf (m c))))%list.
Proof. intro H. rewrite commands_bind, H. reflexivity. Qed.

End RunsThatReturn.

(** What is left of the effects once the deposit has been confirmed keeps
    it confirmed. *)
Ltac keeps_confirmed :=
  match goal with
  | |- Orchestrator.depositStep (Orchestrator.stateOf (?m ?c0))
       = Orchestrator.StepConfirming =>
      cut (Orchestrator.keeps Orchestrator.confirming m);
      [ let K := fresh "K" in intro K; apply (K c0) | ]
  end.

(** Enter a sequence whose first part returns by computation. *)
Ltac enter_returned :=
  match goal with
  | |- context [Orchestrator.stateOf (Orchestrator.bind ?m ?k ?c)] =>
      rewrite (state_bind_returned m k c tt eq_refl)
  | |- context [Orchestrator.commandsOf (Orchestrator.bind ?m ?k ?c)] =>
      rewrite (commands_bind_returned m k c tt eq_refl)
  end.

Section Confirmation.

Import Orchestrator.

Variable parseFloat : string -> float.
Variable parseUnits : string -> Z -> Result Z.
Variable r : Component.
Variable h : Hooks.

Hypothesis receipt : isVaultTxSuccess h = true.
Hypothesis failing :
  depositStep r = StepError
  \/ (depositStep r = StepDepositing
      /\ isVaultTxError h = false /\ vaultWriteError h = None).

Lemma reportWriteErrors_keeps_confirmed :
  keeps confirming (reportWriteErrors r h).
Proof.
  unfold reportWriteErrors.
  destruct failing as [D | [D [_ W]]]; rewrite D; [|rewrite W];
    cbn [DepositStep_eqb andb]; rewrite ?andb_false_r; cbn [when];
    repeat keeps_step.
Qed.

Lemma watchTransactions_confirms (c : Component) :
  confirming (stateOf (watchTransactions parseFloat parseUnits r h c))
  /\ exists rest,
       commandsOf (watchTransactions parseFloat parseUnits r h c)
       = ([RemoveMessage "deposit-pending";
           UpsertMessage "deposit-success"
             {| type := Success;
                message := "Deposit of " ++ depositAmount r
                           ++ " USDC completed successfully!";
                txHash := vaultTxHash h; messageChainId := chainId h |};
           RefreshAllBalances] ++ rest)%list.
Proof.
  unfold watchTransactions, onVaultWriteError, confirming. rewrite receipt.
  destruct failing as [D | [D [E W]]]; rewrite D; [|rewrite E, W];
    cbn [DepositStep_eqb andb orb]; rewrite ?andb_false_r; cbn [when];
    rewrite bind_ret.
  - split.
    + enter_returned. keeps_confirmed.
      * reflexivity.
      * repeat keeps_step.
    + enter_returned. eexists. reflexivity.
  - split.
    + enter_returned. keeps_confirmed.
      * reflexivity.
      * repeat keeps_step.
    + enter_returned. eexists. reflexivity.
Qed.

End Confirmation.

(** X9: a vault receipt that reports success completes the deposit not
    only from the depositing step but also from the error step -- the
    recovery for a wallet that reported a failure for a transaction that
    went through: the effects of that commit show the confirming step,
    drop the pending message, announce the deposit of the entered amount
    as completed under the receipt's hash, ask for the balances to be
    refreshed, and submit nothing. *)
Theorem vault_receipt_confirms_deposit
        (parseFloat : string -> float)
        (parseUnits : string -> Z -> Result Z)
        (r : Orchestrator.Component) (h : Orchestrator.Hooks)
        (c : Orchestrator.Component) :
  Orchestrator.isVaultTxSuccess h = true ->
  Orchestrator.depositStep r = Orchestrator.StepError
  \/ (Orchestrator.depositStep r = Orchestrator.StepDepositing
      /\ Orchestrator.isVaultTxError h = false
      /\ Orchestrator.vaultWriteError h = None) ->
  let run := Orchestrator.runEffects parseFloat parseUnits r h c in
  Orchestrator.depositStep (Orchestrator.stateOf run)
  = Orchestrator.StepConfirming
  /\ In (Orchestrator.UpsertMessage "deposit-success"
           {| Orchestrator.type := Orchestrator.Success;
              Orchestrator.message :=
                "Deposit of " ++ Orchestrator.depositAmount r
                ++ " USDC completed successfully!";
              Orchestrator.txHash := Orchestrator.vaultTxHash h;
              Orchestrator.messageChainId := Orchestrator.chainId h |})
        (Orchestrator.commandsOf run)
  /\ In (Orchestrator.RemoveMessage "deposit-pending")
        (Orchestrator.commandsOf run)
  /\ In Orchestrator.RefreshAllBalances (Orchestrator.commandsOf run)
  /\ existsb Orchestrator.isWrite (Orchestrator.commandsOf run) = false
  /\ existsb Orchestrator.isAwaitSignature (Orchestrator.commandsOf run)
     = false.
Proof.
  intros S D. cbv zeta.
  destruct (watchTransactions_confirms parseFloat parseUnits r h S D c)
    as [Confirmed [rest Commands]].
  destruct (watchTransactions_succeeds parseFloat parseUnits r h c)
    as [[] Returned].
  unfold Orchestrator.runEffects.
  rewrite (state_bind_returned _ _ _ tt Returned),
    (commands_bind_returned _ _ _ tt Returned), Commands.
  split; [apply (reportWriteErrors_keeps_confirmed r h D), Confirmed|].
  split; [cbn; auto|]. split; [cbn; auto|]. split; [cbn; auto|].
  rewrite <- Commands. split.
  - rewrite existsb_app, (watchTransactions_no_write parseFloat parseUnits r h c).
    apply reportWriteErrors_quiet.
  - rewrite existsb_app.
    assert (Orchestrator.isUSDCTxSuccess h
            && Orchestrator.DepositStep_eqb (Orchestrator.depositStep r)
                 Orchestrator.StepApproving = false) as Off.
    { destruct D as [-> | [-> _]]; apply andb_false_r. }
    rewrite (proj1 (watchTransactions_waits parseFloat parseUnits r h Off) c).
    apply reportWriteErrors_quiet.
Qed.

Lemma vault_receipt_confirms_deposit_witness :
  Orchestrator.depositStep
    (Orchestrator.stateOf
       (Env.runEffects (Env.depositing10 Orchestrator.StepError)
          (Env.vaultConfirmed "0xdeposit" Env.funded)
          (Env.depositing10 Orchestrator.StepError)))
  = Orchestrator.StepConfirming.
Proof.
  refine (proj1
            (vault_receipt_confirms_deposit Env.parseFloat Env.parseUnits
               (Env.depositing10 Orchestrator.StepError)
               (Env.vaultConfirmed "0xdeposit" Env.funded)
               (Env.depositing10 Orchestrator.StepError) _ _));
    [reflexivity | left; reflexivity].
Defined.

(** X10: when the approval write fails in the approving step, the commit
    ends in the error step with the error reporter's text, not the
    watcher's: the reporter runs last and writes the same cell.  The text
    is the wallet-cancellation notice whenever the failure mentions a
    rejection, a denial or a cancellation -- in particular whenever the
    watcher classified it as a user rejection -- and the cleaned-up
    failure otherwise.  (A vault write that failed during a withdrawal is
    reported by the same effect after it; the statement leaves that
    render out.) *)
Theorem approval_failure_shows_reporter_text
        (parseFloat : string -> float)
        (parseUnits : string -> Z -> Result Z)
        (r : Orchestrator.Component) (h : Orchestrator.Hooks)
        (c : Orchestrator.Component) (msg : string) :
  Orchestrator.depositStep r = Orchestrator.StepApproving ->
  Orchestrator.usdcWriteError h = Some msg ->
  Orchestrator.vaultWriteError h = None
  \/ Orchestrator.withdrawStep r <> Orchestrator.Withdrawing ->
  let s := Orchestrator.stateOf
             (Orchestrator.runEffects parseFloat parseUnits r h c) in
  Orchestrator.depositStep s = Orchestrator.StepError
  /\ Orchestrator.errorMessage s
     = (if Orchestrator.isUserCancellation (Some msg)
        then "Approval was cancelled in wallet."
        else Orchestrator.getCleanErrorMessage msg "Approval")
  /\ (Orchestrator.isUserRejection (Some msg) = true ->
      Orchestrator.errorMessage s = "Approval was cancelled in wallet.").
Proof.
  intros D E W. cbv zeta.
  assert (Orchestrator.depositStep
            (Orchestrator.stateOf
               (Orchestrator.runEffects parseFloat parseUnits r h c))
          = Orchestrator.StepError
          /\ Orchestrator.errorMessage
               (Orchestrator.stateOf
                  (Orchestrator.runEffects parseFloat parseUnits r h c))
             = (if Orchestrator.isUserCancellation (Some msg)
                then "Approval was cancelled in wallet."
                else Orchestrator.getCleanErrorMessage msg "Approval")) as H.
  { unfold Orchestrator.runEffects. rewrite state_bind.
    destruct (Orchestrator.watchTransactions parseFloat parseUnits r h c)
      as [[c1 out1] [[]|e]] eqn:Run.
    - cbn [Orchestrator.stateOf Orchestrator.resultOf fst snd].
      unfold Orchestrator.reportWriteErrors. rewrite D, E.
      cbn [Orchestrator.DepositStep_eqb andb Orchestrator.message_of].
      rewrite !andb_false_r.
      assert ((match Orchestrator.vaultWriteError h with
               | Some _ => true
               | None => false
               end
               && Orchestrator.WithdrawStep_eqb (Orchestrator.withdrawStep r)
                    Orchestrator.Withdrawing) = false) as Off.
      { destruct W as [-> | W]; [reflexivity|].
        destruct (Orchestrator.withdrawStep r); try apply andb_false_r.
        contradiction W. reflexivity. }
      rewrite Off.
      destruct (Orchestrator.isUserCancellation (Some msg));
        run_handler; cbn; split; reflexivity.
    - destruct (watchTransactions_succeeds parseFloat parseUnits r h c)
        as [a Ha].
      rewrite Run in Ha. discriminate Ha. }
  destruct H as [H1 H2]. split; [exact H1|]. split; [exact H2|].
  intro R. rewrite H2, (rejection_is_cancellation _ R). reflexivity.
Qed.

Lemma approval_failure_shows_reporter_text_witness :
  Orchestrator.errorMessage
    (Orchestrator.stateOf
       (Env.runEffects (Env.depositing10 Orchestrator.StepApproving)
          (Orchestrator.withApproval None false
             (Some "User rejected the request.") false Env.idle)
          (Env.depositing10 Orchestrator.StepApproving)))
  = "Approval was cancelled in wallet.".
Proof.
  refine (proj1 (proj2
            (approval_failure_shows_reporter_text Env.parseFloat Env.parseUnits
               (Env.depositing10 Orchestrator.StepApproving)
               (Orchestrator.withApproval None false
                  (Some "User rejected the request.") false Env.idle)
               (Env.depositing10 Orchestrator.StepApproving)
               "User rejected the request." _ _ _)));
    [reflexivity | reflexivity | left; reflexivity].
Defined.

(** ** The text of a failure *)

Lemma length_append (a b : string) :
  String.length (a ++ b) = (String.length a + String.length b)%nat.
Proof. induction a as [|c a IH]; simpl; [reflexivity | rewrite IH; reflexivity]. Qed.

Lemma append_not_empty (a b : string) : b <> "" -> a ++ b <> "".
Proof. destruct a; [trivial | discriminate]. Qed.

Ltac literal_length s :=
  let n := eval vm_compute in (String.length s) in
  change (String.length s) with n.

(** X11: the text the error reporter derives from a failed write is never
    empty and never longer than 153 characters plus the length of the
    action's name, however long the wallet's message is. *)
Theorem getCleanErrorMessage_bounded (e action : string) :
  Orchestrator.getCleanErrorMessage e action <> ""
  /\ (String.length (Orchestrator.getCleanErrorMessage e action)
      <= String.length action + 153)%nat.
Proof.
  unfold Orchestrator.getCleanErrorMessage. cbv zeta.
  destruct (Str.includes "insufficient funds" e);
    [split; [discriminate | simpl; lia]|].
  destruct (Str.includes "SignatureExpired" e);
    [split; [discriminate | simpl; lia]|].
  destruct (Str.includes "InvalidSignature" e);
    [split; [discriminate | simpl; lia]|].
  destruct (Str.includes "InvalidAmount" e);
    [split; [discriminate | simpl; lia]|].
  destruct (Str.includes "reverted" e).
  - destruct (Orchestrator.revertReason e) as [reason|].
    + split.
      * apply append_not_empty. discriminate.
      * rewrite !length_append. pose proof (length_take 100 reason).
        literal_length " failed: ". lia.
    + split.
      * apply append_not_empty. discriminate.
      * rewrite length_append.
        literal_length " failed: Transaction reverted. Please try again.". lia.
  - destruct (150 <? String.length (Str.trim (Str.before "Contract Call:" e)))%nat
      eqn:Long.
    + split.
      * apply append_not_empty. discriminate.
      * rewrite length_append.
        pose proof (length_take 150 (Str.trim (Str.before "Contract Call:" e))).
        literal_length "...". lia.
    + apply Nat.ltb_ge in Long. unfold Orchestrator.orElse.
      destruct (Str.trim (Str.before "Contract Call:" e)) as [|ch rest] eqn:T.
      * cbn [ChainRegistry.is_empty]. split.
        -- apply append_not_empty. discriminate.
        -- rewrite length_append.
           literal_length " failed. Please try again.".
           lia.
      * cbn [ChainRegistry.is_empty]. split; [discriminate | lia].
Qed.

(** ** The transaction status context *)

Lemma NoDup_firstn {A : Type} (n : nat) (l : list A) :
  NoDup l -> NoDup (firstn n l).
Proof.
  revert n. induction l as [|x l IH]; intros [|n] ND; cbn [firstn];
    try constructor.
  - inversion ND as [|? ? Hx ND']; subst. intro Hin. apply Hx.
    rewrite <- (firstn_skipn n l). apply in_or_app. left. exact Hin.
  - inversion ND; subst. apply IH. assumption.
Qed.

Lemma NoDup_map_filter {A B : Type} (g : A -> B) (f : A -> bool)
      (l : list A) :
  NoDup (map g l) -> NoDup (map g (List.filter f l)).
Proof.
  induction l as [|x l IH]; intro ND; cbn [List.filter map]; [constructor|].
  cbn [map] in ND. inversion ND as [|? ? Hx ND']; subst.
  destruct (f x); [|apply IH, ND'].
  cbn [map]. constructor; [|apply IH, ND'].
  intro Hin. apply Hx. apply in_map_iff in Hin.
  destruct Hin as [y [Hy Hin]]. apply filter_In in Hin.
  apply in_map_iff. exists y. split; [exact Hy | apply Hin].
Qed.

Lemma sameHash_eq (a b : option string) :
  TransactionStatus.sameHash a b = true <-> a = b.
Proof.
  destruct a as [x|], b as [y|]; cbn; split; intro H;
    try discriminate; try reflexivity.
  - apply String.eqb_eq in H. subst. reflexivity.
  - injection H as <-. apply String.eqb_refl.
Qed.

Lemma unseen_hash (hash : option string)
      (l : list TransactionStatus.StatusMessage) :
  existsb (fun tx => TransactionStatus.sameHash (TransactionStatus.txHash tx)
                                                hash) l = false ->
  ~ In hash (map TransactionStatus.txHash l).
Proof.
  intros E Hin. apply in_map_iff in Hin. destruct Hin as [tx [Htx Hin]].
  assert (existsb (fun tx => TransactionStatus.sameHash
                               (TransactionStatus.txHash tx) hash) l = true)
    as T.
  { apply existsb_exists. exists tx. split; [exact Hin|].
    apply sameHash_eq. exact Htx. }
  rewrite T in E. discriminate.
Qed.

Lemma seen_hash (hash : option string)
      (l : list TransactionStatus.StatusMessage) :
  existsb (fun tx => TransactionStatus.sameHash (TransactionStatus.txHash tx)
                                                hash) l = true ->
  In hash (map TransactionStatus.txHash l).
Proof.
  intro E. apply existsb_exists in E. destruct E as [tx [Hin Htx]].
  apply sameHash_eq in Htx. apply in_map_iff. exists tx. split; assumption.
Qed.

Section StatusFacts.

Import TransactionStatus.

Variable setItemWorks : bool.

Lemma persistTransaction_messages (m : StatusMessage) (s : State) :
  messages (persistTransaction setItemWorks m s) = messages s.
Proof.
  unfold persistTransaction.
  destruct (isSuccess (type m) && hasHash (txHash m)); [|reflexivity].
  destruct (existsb _ (persistedTransactions s)); reflexivity.
Qed.

Lemma persistTransaction_wellKept (m : StatusMessage) (s : State) :
  wellKept s -> wellKept (persistTransaction setItemWorks m s).
Proof.
  intros [L ND]. unfold persistTransaction.
  destruct (isSuccess (type m) && hasHash (txHash m)); [|split; assumption].
  destruct (existsb _ (persistedTransactions s)) eqn:E; [split; assumption|].
  unfold wellKept. cbn [persistedTransactions setPersistedTransactions].
  split; [apply firstn_le_length|].
  rewrite <- firstn_map. apply NoDup_firstn. cbn [map].
  constructor; [apply unseen_hash, E | exact ND].
Qed.

(** A transaction whose hash is kept already changes nothing. *)
Lemma persistTransaction_known (m : StatusMessage) (s : State) :
  In (txHash m) (map txHash (persistedTransactions s)) ->
  persistTransaction setItemWorks m s = s.
Proof.
  intro Hin. unfold persistTransaction.
  destruct (isSuccess (type m) && hasHash (txHash m)); [|reflexivity].
  destruct (existsb _ (persistedTransactions s)) eqn:E; [reflexivity|].
  exfalso. exact (unseen_hash _ _ E Hin).
Qed.

(** A successful transaction with a hash is kept once persisted. *)
Lemma persistTransaction_keeps (m : StatusMessage) (s : State) :
  isSuccess (type m) && hasHash (txHash m) = true ->
  In (txHash m)
     (map txHash (persistedTransactions (persistTransaction setItemWorks m s))).
Proof.
  intro C. unfold persistTransaction. rewrite C.
  destruct (existsb _ (persistedTransactions s)) eqn:E;
    [apply seen_hash, E|].
  cbn [persistedTransactions setPersistedTransactions
       MAX_PERSISTED_TRANSACTIONS firstn map].
  left. reflexivity.
Qed.

Lemma persistTransaction_mirrors (m : StatusMessage) (s : State) :
  setItemWorks = true ->
  persistedTransactions (persistTransaction setItemWorks m s)
  <> persistedTransactions s ->
  stored (persistTransaction setItemWorks m s)
  = Some (persistedTransactions (persistTransaction setItemWorks m s)).
Proof.
  intros W. unfold persistTransaction.
  destruct (isSuccess (type m) && hasHash (txHash m));
    [|intro H; contradiction H; reflexivity].
  destruct (existsb _ (persistedTransactions s));
    [intro H; contradiction H; reflexivity|].
  intros _. cbn [stored persistedTransactions setPersistedTransactions
                 savePersistedTransactions].
  rewrite W. reflexivity.
Qed.

Lemma replaceFirst_length (key : string) (updated : StatusMessage)
      (prev copy : list StatusMessage) :
  replaceFirst key updated prev = Some copy ->
  List.length copy = List.length prev.
Proof.
  revert copy. induction prev as [|m prev IH]; intros copy H; [discriminate|].
  cbn [replaceFirst] in H. destruct (String.eqb (id m) key).
  - injection H as <-. reflexivity.
  - destruct (replaceFirst key updated prev) as [rest|]; [|discriminate].
    injection H as <-. cbn [List.length]. rewrite (IH rest eq_refl).
    reflexivity.
Qed.

Lemma replaceFirst_ids (key : string) (updated : StatusMessage)
      (prev copy : list StatusMessage) :
  id updated = key ->
  replaceFirst key updated prev = Some copy ->
  map id copy = map id prev.
Proof.
  intro K. revert copy.
  induction prev as [|m prev IH]; intros copy H; [discriminate|].
  cbn [replaceFirst] in H. destruct (String.eqb (id m) key) eqn:E.
  - injection H as <-. apply String.eqb_eq in E. cbn [map].
    rewrite K, E. reflexivity.
  - destruct (replaceFirst key updated prev) as [rest|]; [|discriminate].
    injection H as <-. cbn [map]. rewrite (IH rest eq_refl). reflexivity.
Qed.

Lemma replaceFirst_find (key : string) (updated : StatusMessage)
      (prev copy : list StatusMessage) :
  id updated = key ->
  replaceFirst key updated prev = Some copy ->
  List.find (fun m => String.eqb (id m) key) copy = Some updated.
Proof.
  intro K. revert copy.
  induction prev as [|m prev IH]; intros copy H; [discriminate|].
  cbn [replaceFirst] in H. destruct (String.eqb (id m) key) eqn:E.
  - injection H as <-. cbn [List.find]. rewrite K, String.eqb_refl.
    reflexivity.
  - destruct (replaceFirst key updated prev) as [rest|]; [|discriminate].
    injection H as <-. cbn [List.find]. rewrite E. apply IH. reflexivity.
Qed.

Lemma replaceFirst_none (key : string) (updated : StatusMessage)
      (prev : list StatusMessage) :
  replaceFirst key updated prev = None -> ~ In key (map id prev).
Proof.
  induction prev as [|m prev IH]; intros H Hin; [destruct Hin|].
  cbn [replaceFirst] in H. destruct (String.eqb (id m) key) eqn:E;
    [discriminate|].
  destruct (replaceFirst key updated prev); [discriminate|].
  destruct Hin as [Hin | Hin].
  - rewrite Hin, String.eqb_refl in E. discriminate.
  - exact (IH eq_refl Hin).
Qed.

Lemma upsertMessage_messages (key : string)
      (messageData : Orchestrator.StatusMessage) (now persistedAt : Z)
      (s : State) :
  messages (upsertMessage setItemWorks key messageData now persistedAt s)
  = match replaceFirst key (stamped messageData key now) (messages s) with
    | Some copy => copy
    | None => firstn 3 (stamped messageData key now :: messages s)
    end.
Proof.
  unfold upsertMessage.
  destruct (isSuccess (Orchestrator.type messageData)
            && hasHash (Orchestrator.txHash messageData));
    [rewrite persistTransaction_messages|]; reflexivity.
Qed.

Lemma addMessage_messages (messageData : Orchestrator.StatusMessage)
      (newId : string) (now : Z) (s : State) :
  messages (fst (addMessage setItemWorks messageData newId now s))
  = firstn 3 (stamped messageData newId now :: messages s).
Proof.
  unfold addMessage. cbn [fst].
  destruct (isSuccess (Orchestrator.type messageData)
            && hasHash (Orchestrator.txHash messageData));
    [rewrite persistTransaction_messages|]; reflexivity.
Qed.

Lemma deliver_bounded (stamp : Stamp) (cmd : Orchestrator.Command)
      (s : State) :
  bounded s -> bounded (deliver setItemWorks stamp cmd s).
Proof.
  unfold bounded. intro B. destruct cmd; cbn [deliver]; try exact B.
  - rewrite upsertMessage_messages.
    destruct (replaceFirst key _ (messages s)) as [copy|] eqn:R.
    + rewrite (replaceFirst_length _ _ _ _ R). exact B.
    + apply firstn_le_length.
  - rewrite addMessage_messages. apply firstn_le_length.
  - unfold removeMessage. cbn [messages setMessages].
    pose proof (filter_length_le
                  (fun msg => negb (String.eqb (id msg) key)) (messages s)).
    lia.
  - cbn. lia.
Qed.

Lemma deliver_wellKept (stamp : Stamp) (cmd : Orchestrator.Command)
      (s : State) :
  wellKept s -> wellKept (deliver setItemWorks stamp cmd s).
Proof.
  intro K. destruct cmd; cbn [deliver]; try exact K.
  - unfold upsertMessage.
    destruct (isSuccess (Orchestrator.type m)
              && hasHash (Orchestrator.txHash m));
      [apply persistTransaction_wellKept|]; exact K.
  - unfold addMessage. cbn [fst].
    destruct (isSuccess (Orchestrator.type m)
              && hasHash (Orchestrator.txHash m));
      [apply persistTransaction_wellKept|]; exact K.
Qed.

Lemma persistTransaction_mirrored (m : StatusMessage) (s : State) :
  setItemWorks = true -> mirrored s ->
  mirrored (persistTransaction setItemWorks m s).
Proof.
  intros W M. unfold persistTransaction.
  destruct (isSuccess (type m) && hasHash (txHash m)); [|exact M].
  destruct (existsb _ (persistedTransactions s)); [exact M|].
  unfold mirrored.
  cbn [stored persistedTransactions setPersistedTransactions
       savePersistedTransactions].
  rewrite W. reflexivity.
Qed.

Lemma deliver_mirrors (stamp : Stamp) (cmd : Orchestrator.Command)
      (s : State) :
  setItemWorks = true ->
  persistedTransactions (deliver setItemWorks stamp cmd s)
  <> persistedTransactions s ->
  stored (deliver setItemWorks stamp cmd s)
  = Some (persistedTransactions (deliver setItemWorks stamp cmd s)).
Proof.
  intro W.
  destruct cmd; cbn [deliver];
    try (intro H; contradiction H; reflexivity).
  - unfold upsertMessage.
    destruct (isSuccess (Orchestrator.type m)
              && hasHash (Orchestrator.txHash m));
      [|intro H; contradiction H; reflexivity].
    intro H. apply persistTransaction_mirrors; [exact W | exact H].
  - unfold addMessage. cbn [fst].
    destruct (isSuccess (Orchestrator.type m)
              && hasHash (Orchestrator.txHash m));
      [|intro H; contradiction H; reflexivity].
    intro H. apply persistTransaction_mirrors; [exact W | exact H].
Qed.

Lemma deliver_mirrored (stamp : Stamp) (cmd : Orchestrator.Command)
      (s : State) :
  setItemWorks = true -> mirrored s ->
  mirrored (deliver setItemWorks stamp cmd s).
Proof.
  intros W M. destruct cmd; cbn [deliver]; try exact M.
  - unfold upsertMessage.
    destruct (isSuccess (Orchestrator.type m)
              && hasHash (Orchestrator.txHash m));
      [apply persistTransaction_mirrored; [exact W|]|]; exact M.
  - unfold addMessage. cbn [fst].
    destruct (isSuccess (Orchestrator.type m)
              && hasHash (Orchestrator.txHash m));
      [apply persistTransaction_mirrored; [exact W|]|]; exact M.
Qed.

Lemma clearPersistedTransaction_mirrored (key : string) (s : State) :
  setItemWorks = true ->
  mirrored (clearPersistedTransaction setItemWorks key s).
Proof.
  intro W. unfold mirrored, clearPersistedTransaction.
  cbn [stored persistedTransactions setPersistedTransactions
       savePersistedTransactions].
  rewrite W. reflexivity.
Qed.

Lemma deliverAll_invariant (I : State -> Prop) :
  (forall stamp cmd s, I s -> I (deliver setItemWorks stamp cmd s)) ->
  forall stamps cmds n s,
    I s -> I (deliverAll setItemWorks stamps n cmds s).
Proof.
  intros Step stamps cmds.
  induction cmds as [|cmd cmds IH]; intros n s Hs; [exact Hs|].
  cbn [deliverAll]. apply IH, Step, Hs.
Qed.

End StatusFacts.

(** X13: the provider never shows more than three messages: a list of
    at most three stays one under [addMessage], [upsertMessage],
    [removeMessage] and [clearMessages], and so under every sequence of
    message commands a handler or effect of the balance component
    issues.  An upsert of a key that is shown replaces in place and
    evicts nothing. *)
Theorem messages_stay_bounded
        (setItemWorks : bool) (s : TransactionStatus.State) :
  TransactionStatus.bounded s ->
  (forall stamp cmd,
      TransactionStatus.bounded
        (TransactionStatus.deliver setItemWorks stamp cmd s))
  /\ (forall stamps cmds,
         TransactionStatus.bounded
           (TransactionStatus.deliverAll setItemWorks stamps 0 cmds s))
  /\ (forall key messageData now persistedAt,
         TransactionStatus.find key s <> None ->
         List.length
           (TransactionStatus.messages
              (TransactionStatus.upsertMessage setItemWorks key messageData
                 now persistedAt s))
         = List.length (TransactionStatus.messages s)).
Proof.
  intro B. split; [|split].
  - intros stamp cmd. apply deliver_bounded, B.
  - intros stamps cmds.
    apply (deliverAll_invariant setItemWorks TransactionStatus.bounded);
      [intros; apply deliver_bounded; assumption | exact B].
  - intros key messageData now persistedAt Found.
    rewrite upsertMessage_messages.
    destruct (TransactionStatus.replaceFirst key _
                (TransactionStatus.messages s)) as [copy|] eqn:R.
    + apply (replaceFirst_length _ _ _ _ R).
    + exfalso. apply Found. unfold TransactionStatus.find.
      pose proof (replaceFirst_none _ _ _ R) as Absent.
      destruct (List.find _ (TransactionStatus.messages s)) as [m|] eqn:F;
        [|reflexivity].
      apply find_some in F. destruct F as [Hin Hid].
      apply String.eqb_eq in Hid. exfalso. apply Absent.
      apply in_map_iff. exists m. split; assumption.
Qed.

Lemma messages_stay_bounded_witness :
  TransactionStatus.bounded
    (TransactionStatus.deliverAll true
       (fun n => {| TransactionStatus.freshId := "m";
                    TransactionStatus.clock := Z.of_nat n;
                    TransactionStatus.clockAfter := Z.of_nat n |}) 0
       (Orchestrator.commandsOf
          (Env.runEffects (Env.depositing10 Orchestrator.StepError)
             (Env.vaultConfirmed "0xdeposit" Env.funded)
             (Env.depositing10 Orchestrator.StepError)))
       TransactionStatus.initial).
Proof.
  refine (proj1 (proj2
            (messages_stay_bounded true TransactionStatus.initial _)) _ _).
  unfold TransactionStatus.bounded. simpl. lia.
Defined.

Section HistoryFacts.

Import TransactionStatus.

Variable setItemWorks : bool.

Lemma replaceFirst_find_other (key other : string) (updated : StatusMessage)
      (prev copy : list StatusMessage) :
  id updated = key -> other <> key ->
  replaceFirst key updated prev = Some copy ->
  List.find (fun m => String.eqb (id m) other) copy
  = List.find (fun m => String.eqb (id m) other) prev.
Proof.
  intros K Ne. revert copy.
  induction prev as [|m prev IH]; intros copy H; [discriminate|].
  cbn [replaceFirst] in H. destruct (String.eqb (id m) key) eqn:E.
  - injection H as <-. apply String.eqb_eq in E. cbn [List.find].
    rewrite K, E.
    destruct (String.eqb key other) eqn:E2; [|reflexivity].
    apply String.eqb_eq in E2. symmetry in E2. contradiction.
  - destruct (replaceFirst key updated prev) as [rest|]; [|discriminate].
    injection H as <-. cbn [List.find]. rewrite (IH rest eq_refl).
    reflexivity.
Qed.

Lemma find_absent (key : string) (l : list StatusMessage) :
  ~ In key (map id l) ->
  List.find (fun m => String.eqb (id m) key) l = None.
Proof.
  intro Absent. destruct (List.find _ l) as [m|] eqn:F; [|reflexivity].
  apply find_some in F. destruct F as [Hin Hid].
  apply String.eqb_eq in Hid. exfalso. apply Absent.
  apply in_map_iff. exists m. split; assumption.
Qed.

Lemma find_removed (key : string) (l : list StatusMessage) :
  List.find (fun m => String.eqb (id m) key)
            (List.filter (fun msg => negb (String.eqb (id msg) key)) l)
  = None.
Proof.
  apply find_absent. intro Hin. apply in_map_iff in Hin.
  destruct Hin as [m [Hid Hin]]. apply filter_In in Hin.
  destruct Hin as [_ Hne]. rewrite Hid, String.eqb_refl in Hne.
  discriminate.
Qed.

Lemma upsertMessage_persisted_known (key : string)
      (messageData : Orchestrator.StatusMessage) (now persistedAt : Z)
      (s : State) :
  In (Orchestrator.txHash messageData)
     (map txHash (persistedTransactions s)) ->
  persistedTransactions
    (upsertMessage setItemWorks key messageData now persistedAt s)
  = persistedTransactions s.
Proof.
  intro Known. unfold upsertMessage.
  destruct (isSuccess (Orchestrator.type messageData)
            && hasHash (Orchestrator.txHash messageData)); [|reflexivity].
  rewrite persistTransaction_known; [reflexivity | exact Known].
Qed.

Lemma upsertMessage_persisted_keeps (key : string)
      (messageData : Orchestrator.StatusMessage) (now persistedAt : Z)
      (s : State) :
  isSuccess (Orchestrator.type messageData)
  && hasHash (Orchestrator.txHash messageData) = true ->
  In (Orchestrator.txHash messageData)
     (map txHash
        (persistedTransactions
           (upsertMessage setItemWorks key messageData now persistedAt s))).
Proof.
  intro C. unfold upsertMessage. rewrite C.
  apply (persistTransaction_keeps setItemWorks
           (stamped messageData key persistedAt)). exact C.
Qed.

Lemma upsertMessage_find (key : string)
      (messageData : Orchestrator.StatusMessage) (now persistedAt : Z)
      (s : State) :
  find key (upsertMessage setItemWorks key messageData now persistedAt s)
  = Some (stamped messageData key now).
Proof.
  unfold find. rewrite upsertMessage_messages.
  destruct (replaceFirst key _ (messages s)) as [copy|] eqn:R.
  - apply (replaceFirst_find key (stamped messageData key now) _ _ eq_refl R).
  - cbn [firstn List.find stamped id]. rewrite String.eqb_refl. reflexivity.
Qed.

End HistoryFacts.

(** X14: the persisted history never holds more than ten transactions
    and never holds a transaction hash twice: both are kept by every
    message command and by [clearPersistedTransaction].  Persisting a
    successful transaction with a hash makes its hash part of the
    history, and persisting it again changes nothing.  While the browser's
    storage accepts writes, every change that [persistTransaction] or a
    message command makes to the history is saved to it,
    [clearPersistedTransaction] always saves, and the stored item that is
    the history stays the history under every sequence of message
    commands.  The mount effect saves nothing: it filters what it loads
    and leaves the stored item as it was. *)
Theorem history_stays_well_kept
        (setItemWorks : bool) (s : TransactionStatus.State) :
  TransactionStatus.wellKept s ->
  (forall stamps cmds,
      TransactionStatus.wellKept
        (TransactionStatus.deliverAll setItemWorks stamps 0 cmds s))
  /\ (forall key,
         TransactionStatus.wellKept
           (TransactionStatus.clearPersistedTransaction setItemWorks key s))
  /\ (forall m,
         let kept := TransactionStatus.persistTransaction setItemWorks m s in
         TransactionStatus.wellKept kept
         /\ (TransactionStatus.isSuccess (TransactionStatus.type m)
             && TransactionStatus.hasHash (TransactionStatus.txHash m) = true ->
             In (TransactionStatus.txHash m)
                (map TransactionStatus.txHash
                   (TransactionStatus.persistedTransactions kept)))
         /\ TransactionStatus.persistTransaction setItemWorks m kept = kept
         /\ (setItemWorks = true ->
             TransactionStatus.persistedTransactions kept
             <> TransactionStatus.persistedTransactions s ->
             TransactionStatus.stored kept
             = Some (TransactionStatus.persistedTransactions kept)))
  /\ (forall stamp cmd,
         let next := TransactionStatus.deliver setItemWorks stamp cmd s in
         setItemWorks = true ->
         TransactionStatus.persistedTransactions next
         <> TransactionStatus.persistedTransactions s ->
         TransactionStatus.stored next
         = Some (TransactionStatus.persistedTransactions next))
  /\ (forall key,
         let cleared :=
           TransactionStatus.clearPersistedTransaction setItemWorks key s in
         TransactionStatus.persistedTransactions cleared
         = List.filter
             (fun tx => negb (String.eqb (TransactionStatus.id tx) key))
             (TransactionStatus.persistedTransactions s)
         /\ (setItemWorks = true ->
             TransactionStatus.stored cleared
             = Some (TransactionStatus.persistedTransactions cleared)))
  /\ (setItemWorks = true -> TransactionStatus.mirrored s ->
      forall stamps cmds,
        TransactionStatus.mirrored
          (TransactionStatus.deliverAll setItemWorks stamps 0 cmds s))
  /\ (forall now,
         let mounted := TransactionStatus.mount now s in
         TransactionStatus.stored mounted = TransactionStatus.stored s
         /\ TransactionStatus.persistedTransactions mounted
            = TransactionStatus.loadPersistedTransactions
                (TransactionStatus.stored s) now).
Proof.
  intro K. split; [|split; [|split; [|split; [|split; [|split]]]]].
  - intros stamps cmds.
    apply (deliverAll_invariant setItemWorks TransactionStatus.wellKept);
      [intros; apply deliver_wellKept; assumption | exact K].
  - intro key. destruct K as [L ND].
    unfold TransactionStatus.wellKept,
      TransactionStatus.clearPersistedTransaction.
    cbn [TransactionStatus.persistedTransactions
         TransactionStatus.setPersistedTransactions].
    split.
    + pose proof (filter_length_le
                    (fun tx => negb (String.eqb (TransactionStatus.id tx) key))
                    (TransactionStatus.persistedTransactions s)). lia.
    + apply NoDup_map_filter, ND.
  - intro m. cbv zeta. split; [apply persistTransaction_wellKept, K|].
    split; [apply persistTransaction_keeps|].
    split; [|apply persistTransaction_mirrors].
    destruct (TransactionStatus.isSuccess (TransactionStatus.type m)
              && TransactionStatus.hasHash (TransactionStatus.txHash m)) eqn:C.
    + apply persistTransaction_known, persistTransaction_keeps, C.
    + unfold TransactionStatus.persistTransaction. rewrite C. reflexivity.
  - intros stamp cmd. cbv zeta. apply deliver_mirrors.
  - intro key. cbv zeta. split; [reflexivity|].
    intro W. apply (clearPersistedTransaction_mirrored setItemWorks key s W).
  - intros W M stamps cmds.
    apply (deliverAll_invariant setItemWorks TransactionStatus.mirrored);
      [intros; apply deliver_mirrored; assumption | exact M].
  - intro now. cbv zeta. split; reflexivity.
Qed.

Lemma history_stays_well_kept_witness :
  TransactionStatus.wellKept
    (TransactionStatus.deliverAll true
       (fun n => {| TransactionStatus.freshId := "m";
                    TransactionStatus.clock := Z.of_nat n;
                    TransactionStatus.clockAfter := Z.of_nat n |}) 0
       (Orchestrator.commandsOf
          (Env.runEffects (Env.depositing10 Orchestrator.StepError)
             (Env.vaultConfirmed "0xdeposit" Env.funded)
             (Env.depositing10 Orchestrator.StepError)))
       TransactionStatus.initial).
Proof.
  refine (proj1 (history_stays_well_kept true TransactionStatus.initial _)
            _ _).
  split; [simpl; lia | constructor].
Defined.

(** X15: [upsertMessage] is an update by key: afterwards the message
    found under the key is the new one, with the key as its id; when the
    key was shown the other messages are found as before; identifiers
    that were distinct stay distinct; and [removeMessage] of the key
    leaves nothing under it. *)
Theorem upsert_is_update_by_key
        (setItemWorks : bool) (s : TransactionStatus.State) (key : string)
        (messageData : Orchestrator.StatusMessage) (now persistedAt : Z) :
  let s' := TransactionStatus.upsertMessage setItemWorks key messageData
              now persistedAt s in
  TransactionStatus.find key s'
  = Some (TransactionStatus.stamped messageData key now)
  /\ (forall other,
         other <> key -> TransactionStatus.find key s <> None ->
         TransactionStatus.find other s' = TransactionStatus.find other s)
  /\ (NoDup (map TransactionStatus.id (TransactionStatus.messages s)) ->
      NoDup (map TransactionStatus.id (TransactionStatus.messages s')))
  /\ TransactionStatus.find key (TransactionStatus.removeMessage key s')
     = None.
Proof.
  cbv zeta. split; [apply upsertMessage_find|].
  unfold TransactionStatus.find. rewrite upsertMessage_messages.
  split; [|split].
  - intros other Ne Found.
    destruct (TransactionStatus.replaceFirst key _
                (TransactionStatus.messages s)) as [copy|] eqn:R.
    + apply (replaceFirst_find_other key other
               (TransactionStatus.stamped messageData key now) _ _ eq_refl
               Ne R).
    + exfalso. apply Found. apply find_absent.
      apply (replaceFirst_none _ _ _ R).
  - intro ND.
    destruct (TransactionStatus.replaceFirst key _
                (TransactionStatus.messages s)) as [copy|] eqn:R.
    + rewrite (replaceFirst_ids key
                 (TransactionStatus.stamped messageData key now) _ _ eq_refl R).
      exact ND.
    + rewrite <- firstn_map. apply NoDup_firstn. cbn [map].
      constructor; [apply (replaceFirst_none _ _ _ R) | exact ND].
  - unfold TransactionStatus.removeMessage.
    cbn [TransactionStatus.messages TransactionStatus.setMessages].
    apply find_removed.
Qed.

(** The commands of the commit that confirms a deposit while no
    withdrawal is in flight. *)
Lemma confirmation_commands
      (parseFloat : string -> float)
      (parseUnits : string -> Z -> Result Z)
      (r : Orchestrator.Component) (h : Orchestrator.Hooks)
      (c : Orchestrator.Component) :
  Orchestrator.isVaultTxSuccess h = true ->
  Orchestrator.depositStep r = Orchestrator.StepError
  \/ (Orchestrator.depositStep r = Orchestrator.StepDepositing
      /\ Orchestrator.isVaultTxError h = false
      /\ Orchestrator.vaultWriteError h = None) ->
  Orchestrator.withdrawStep r = Orchestrator.WithdrawInput
  \/ Orchestrator.withdrawStep r = Orchestrator.WithdrawConfirming ->
  Orchestrator.commandsOf (Orchestrator.runEffects parseFloat parseUnits r h c)
  = [Orchestrator.RemoveMessage "deposit-pending";
     Orchestrator.UpsertMessage "deposit-success"
       {| Orchestrator.type := Orchestrator.Success;
          Orchestrator.message :=
            "Deposit of " ++ Orchestrator.depositAmount r
            ++ " USDC completed successfully!";
          Orchestrator.txHash := Orchestrator.vaultTxHash h;
          Orchestrator.messageChainId := Orchestrator.chainId h |};
     Orchestrator.RefreshAllBalances].
Proof.
  intros S D W.
  unfold Orchestrator.runEffects, Orchestrator.watchTransactions,
    Orchestrator.reportWriteErrors, Orchestrator.onVaultWriteError.
  rewrite S.
  destruct D as [-> | [-> [-> ->]]]; destruct W as [-> | ->];
    cbn [Orchestrator.DepositStep_eqb Orchestrator.WithdrawStep_eqb orb andb];
    rewrite ?andb_false_r; reflexivity.
Qed.

(** X16: the confirmation of a deposit reaches the history exactly once.
    Delivering the message commands of the confirming commit to the
    status provider shows the success message under its key with the
    receipt's hash, shows no pending message, and leaves the receipt's
    hash in the persisted history; delivering the commands of the same
    commit a second time does not change the history, and the history
    stays within its bounds. *)
Theorem confirmed_deposit_is_kept_once
        (setItemWorks : bool)
        (parseFloat : string -> float)
        (parseUnits : string -> Z -> Result Z)
        (r : Orchestrator.Component) (h : Orchestrator.Hooks)
        (c : Orchestrator.Component) (hash : string)
        (stamps stamps' : nat -> TransactionStatus.Stamp)
        (s : TransactionStatus.State) :
  Orchestrator.isVaultTxSuccess h = true ->
  Orchestrator.vaultTxHash h = Some hash -> hash <> "" ->
  Orchestrator.depositStep r = Orchestrator.StepError
  \/ (Orchestrator.depositStep r = Orchestrator.StepDepositing
      /\ Orchestrator.isVaultTxError h = false
      /\ Orchestrator.vaultWriteError h = None) ->
  Orchestrator.withdrawStep r = Orchestrator.WithdrawInput
  \/ Orchestrator.withdrawStep r = Orchestrator.WithdrawConfirming ->
  let cmds :=
    Orchestrator.commandsOf
      (Orchestrator.runEffects parseFloat parseUnits r h c) in
  let once := TransactionStatus.deliverAll setItemWorks stamps 0 cmds s in
  let again :=
    TransactionStatus.deliverAll setItemWorks stamps' 0 cmds once in
  In (Some hash)
     (map TransactionStatus.txHash
        (TransactionStatus.persistedTransactions once))
  /\ TransactionStatus.persistedTransactions again
     = TransactionStatus.persistedTransactions once
  /\ (TransactionStatus.wellKept s -> TransactionStatus.wellKept once)
  /\ TransactionStatus.find "deposit-pending" once = None
  /\ TransactionStatus.find "deposit-success" once
     = Some {| TransactionStatus.id := "deposit-success";
               TransactionStatus.type := Orchestrator.Success;
               TransactionStatus.message :=
                 "Deposit of " ++ Orchestrator.depositAmount r
                 ++ " USDC completed successfully!";
               TransactionStatus.timestamp :=
                 TransactionStatus.clock (stamps 1%nat);
               TransactionStatus.txHash := Some hash;
               TransactionStatus.chainId := Orchestrator.chainId h |}.
Proof.
  intros S Hh Ne D W. cbv zeta.
  rewrite (confirmation_commands parseFloat parseUnits r h c S D W), Hh.
  cbn [TransactionStatus.deliverAll TransactionStatus.deliver].
  set (data := {| Orchestrator.type := Orchestrator.Success;
                  Orchestrator.message :=
                    "Deposit of " ++ Orchestrator.depositAmount r
                    ++ " USDC completed successfully!";
                  Orchestrator.txHash := Some hash;
                  Orchestrator.messageChainId := Orchestrator.chainId h |}).
  assert (TransactionStatus.isSuccess (Orchestrator.type data)
          && TransactionStatus.hasHash (Orchestrator.txHash data) = true)
    as C.
  { cbn. destruct hash; [contradiction Ne; reflexivity | reflexivity]. }
  set (s0 := TransactionStatus.removeMessage "deposit-pending" s).
  set (once := TransactionStatus.upsertMessage setItemWorks "deposit-success"
                 data (TransactionStatus.clock (stamps 1%nat))
                 (TransactionStatus.clockAfter (stamps 1%nat)) s0).
  pose proof (upsertMessage_persisted_keeps setItemWorks "deposit-success"
                data (TransactionStatus.clock (stamps 1%nat))
                (TransactionStatus.clockAfter (stamps 1%nat)) s0 C) as Kept.
  fold once in Kept.
  split; [exact Kept|]. split; [|split; [|split]].
  - rewrite upsertMessage_persisted_known; [reflexivity | exact Kept].
  - intro K. unfold once, TransactionStatus.upsertMessage. rewrite C.
    apply persistTransaction_wellKept. exact K.
  - unfold TransactionStatus.find, once. rewrite upsertMessage_messages.
    destruct (TransactionStatus.replaceFirst "deposit-success" _
                (TransactionStatus.messages s0)) as [copy|] eqn:R.
    + rewrite (replaceFirst_find_other "deposit-success" "deposit-pending"
                 (TransactionStatus.stamped data "deposit-success"
                    (TransactionStatus.clock (stamps 1%nat)))
                 _ _ eq_refl ltac:(discriminate) R).
      apply find_removed.
    + pose proof (find_removed "deposit-pending"
                    (TransactionStatus.messages s)) as Gone.
      change (List.filter _ (TransactionStatus.messages s))
        with (TransactionStatus.messages s0) in Gone.
      destruct (TransactionStatus.messages s0) as [|m0 [|m1 rest]];
        cbn [firstn List.find TransactionStatus.stamped TransactionStatus.id
             String.eqb Ascii.eqb Bool.eqb] in *; try reflexivity.
      * exact Gone.
      * destruct (String.eqb (TransactionStatus.id m0) "deposit-pending");
          [discriminate Gone|].
        destruct (String.eqb (TransactionStatus.id m1) "deposit-pending");
          [discriminate Gone | reflexivity].
  - apply (upsertMessage_find setItemWorks "deposit-success" data).
Qed.

Lemma confirmed_deposit_is_kept_once_witness :
  In (Some "0xdeposit")
     (map TransactionStatus.txHash
        (TransactionStatus.persistedTransactions
           (TransactionStatus.deliverAll true
              (fun n => {| TransactionStatus.freshId := "m";
                           TransactionStatus.clock := Z.of_nat n;
                           TransactionStatus.clockAfter := Z.of_nat n |}) 0
              (Orchestrator.commandsOf
                 (Env.runEffects (Env.depositing10 Orchestrator.StepError)
                    (Env.vaultConfirmed "0xdeposit" Env.funded)
                    (Env.depositing10 Orchestrator.StepError)))
              TransactionStatus.initial))).
Proof.
  refine (proj1
            (confirmed_deposit_is_kept_once true Env.parseFloat Env.parseUnits
               (Env.depositing10 Orchestrator.StepError)
               (Env.vaultConfirmed "0xdeposit" Env.funded)
               (Env.depositing10 Orchestrator.StepError) "0xdeposit"
               (fun n => {| TransactionStatus.freshId := "m";
                            TransactionStatus.clock := Z.of_nat n;
                            TransactionStatus.clockAfter := Z.of_nat n |})
               (fun n => {| TransactionStatus.freshId := "m";
                            TransactionStatus.clock := Z.of_nat n;
                            TransactionStatus.clockAfter := Z.of_nat n |})
               TransactionStatus.initial _ _ _ _ _));
    [reflexivity | reflexivity | discriminate
     | left; reflexivity | left; reflexivity].
Defined.

(** X17: with the stored item equal to the history, as it is after every
    save, a transaction is in the history after a page reload exactly when
    it was in the history at the reload and is less than seven days old;
    the active messages are gone after the reload and everything it
    restores is less than seven days old.  A transaction that ten later
    transactions or [clearPersistedTransaction] have removed from the
    history by then is not restored.  A transaction that has just entered
    the history, the browser's storage accepting writes, is stored with
    it, and is there after a reload at that point exactly as long as it is
    less than seven days old. *)
Theorem persisted_transaction_survives_reload
        (s : TransactionStatus.State) (now : Z) :
  TransactionStatus.mirrored s ->
  let reloaded := TransactionStatus.reload now s in
  (forall tx,
      In tx (TransactionStatus.persistedTransactions reloaded)
      <-> In tx (TransactionStatus.persistedTransactions s)
          /\ TransactionStatus.recent now tx)
  /\ TransactionStatus.messages reloaded = []
  /\ Forall (TransactionStatus.recent now)
            (TransactionStatus.persistedTransactions reloaded)
  /\ (forall key tx,
         In tx (TransactionStatus.persistedTransactions
                  (TransactionStatus.reload now
                     (TransactionStatus.clearPersistedTransaction
                        true key s))) ->
         TransactionStatus.id tx <> key)
  /\ (forall m s0,
         TransactionStatus.isSuccess (TransactionStatus.type m)
         && TransactionStatus.hasHash (TransactionStatus.txHash m) = true ->
         ~ In (TransactionStatus.txHash m)
              (map TransactionStatus.txHash
                 (TransactionStatus.persistedTransactions s0)) ->
         let kept := TransactionStatus.persistTransaction true m s0 in
         TransactionStatus.mirrored kept
         /\ In m (TransactionStatus.persistedTransactions kept)
         /\ (In m (TransactionStatus.persistedTransactions
                     (TransactionStatus.reload now kept))
             <-> TransactionStatus.recent now m)).
Proof.
  intros M. cbv zeta.
  assert (Reload : forall s0 tx,
             TransactionStatus.mirrored s0 ->
             In tx (TransactionStatus.persistedTransactions
                      (TransactionStatus.reload now s0))
             <-> In tx (TransactionStatus.persistedTransactions s0)
                 /\ TransactionStatus.recent now tx).
  { intros s0 tx M0.
    unfold TransactionStatus.reload, TransactionStatus.mount,
      TransactionStatus.recent.
    cbn [TransactionStatus.stored TransactionStatus.persistedTransactions
         TransactionStatus.setPersistedTransactions].
    rewrite M0. cbn [TransactionStatus.loadPersistedTransactions].
    rewrite filter_In, Z.ltb_lt. reflexivity. }
  split; [|split; [|split; [|split]]].
  - intro tx. apply Reload, M.
  - reflexivity.
  - apply Forall_forall. intros tx Hin. apply (Reload s tx M) in Hin.
    exact (proj2 Hin).
  - intros key tx Hin.
    apply (Reload _ tx
             (clearPersistedTransaction_mirrored true key s eq_refl)) in Hin.
    destruct Hin as [Hin _].
    unfold TransactionStatus.clearPersistedTransaction in Hin.
    cbn [TransactionStatus.persistedTransactions
         TransactionStatus.setPersistedTransactions] in Hin.
    apply filter_In in Hin. destruct Hin as [_ Other].
    intro Same. rewrite Same, String.eqb_refl in Other. discriminate Other.
  - intros m s0 C Fresh. cbv zeta.
    assert (Kept : TransactionStatus.mirrored
                     (TransactionStatus.persistTransaction true m s0)).
    { unfold TransactionStatus.persistTransaction. rewrite C.
      destruct (existsb _ (TransactionStatus.persistedTransactions s0)) eqn:E;
        [exfalso; apply Fresh, seen_hash, E|].
      reflexivity. }
    assert (Head : In m (TransactionStatus.persistedTransactions
                           (TransactionStatus.persistTransaction true m s0))).
    { unfold TransactionStatus.persistTransaction. rewrite C.
      destruct (existsb _ (TransactionStatus.persistedTransactions s0)) eqn:E;
        [exfalso; apply Fresh, seen_hash, E|].
      cbn [TransactionStatus.persistedTransactions
           TransactionStatus.setPersistedTransactions
           TransactionStatus.MAX_PERSISTED_TRANSACTIONS firstn].
      left. reflexivity. }
    split; [exact Kept|]. split; [exact Head|].
    rewrite (Reload _ m Kept). split; [intros [_ R]; exact R|].
    intro R. split; [exact Head | exact R].
Qed.

Lemma persisted_transaction_survives_reload_witness :
  In (TransactionStatus.stamped
        {| Orchestrator.type := Orchestrator.Success;
           Orchestrator.message := "Deposit of 10 USDC completed successfully!";
           Orchestrator.txHash := Some "0xdeposit";
           Orchestrator.messageChainId := Some 421614 |}
        "deposit-success" 1700000000000)
     (TransactionStatus.persistedTransactions
        (TransactionStatus.reload 1700086400000
           (TransactionStatus.persistTransaction true
              (TransactionStatus.stamped
                 {| Orchestrator.type := Orchestrator.Success;
                    Orchestrator.message :=
                      "Deposit of 10 USDC completed successfully!";
                    Orchestrator.txHash := Some "0xdeposit";
                    Orchestrator.messageChainId := Some 421614 |}
                 "deposit-success" 1700000000000)
              TransactionStatus.initial))).
Proof.
  refine (proj2 (proj1
            (persisted_transaction_survives_reload
               (TransactionStatus.persistTransaction true
                  (TransactionStatus.stamped
                     {| Orchestrator.type := Orchestrator.Success;
                        Orchestrator.message :=
                          "Deposit of 10 USDC completed successfully!";
                        Orchestrator.txHash := Some "0xdeposit";
                        Orchestrator.messageChainId := Some 421614 |}
                     "deposit-success" 1700000000000)
                  TransactionStatus.initial)
               1700086400000 eq_refl) _) _).
  split; [left; reflexivity | unfold TransactionStatus.recent; simpl; lia].
Defined.

(** ** From the watcher's messages to the message state *)

Lemma includes_append_r (needle a b : string) :
  Str.includes needle b = true -> Str.includes needle (a ++ b) = true.
Proof.
  intro H. induction a as [|c a IH]; [exact H|].
  cbn [append Str.includes]. rewrite IH. apply orb_true_r.
Qed.

Lemma amountChar_differs (n0 c : ascii) :
  AmountInput.amountChar n0 = false -> AmountInput.amountChar c = true ->
  n0 <> c.
Proof. intros H0 Hc E. subst. rewrite H0 in Hc. discriminate. Qed.

(** A word that starts with a letter is not found in digits and points. *)
Lemma includes_past (n0 : ascii) (n a b : string) :
  AmountInput.amountChar n0 = false ->
  Str.forallb AmountInput.amountChar a = true ->
  Str.includes (String n0 n) (a ++ b) = Str.includes (String n0 n) b.
Proof.
  intros H0. induction a as [|c a IH]; intro Ha; [reflexivity|].
  cbn [Str.forallb] in Ha. apply andb_true_iff in Ha. destruct Ha as [Hc Ha].
  cbn [append Str.includes String.prefix].
  destruct (Ascii.ascii_dec n0 c) as [E|_];
    [exfalso; exact (amountChar_differs n0 c H0 Hc E)|].
  cbn [orb]. apply IH, Ha.
Qed.

Lemma toLowerCase_append (a b : string) :
  Str.toLowerCase (a ++ b) = Str.toLowerCase a ++ Str.toLowerCase b.
Proof.
  induction a as [|c a IH]; [reflexivity|].
  cbn [append Str.toLowerCase]. rewrite IH. reflexivity.
Qed.

Lemma lower_char_amount (c : ascii) :
  AmountInput.amountChar c = true -> Str.lower_char c = c.
Proof.
  destruct c as [[] [] [] [] [] [] [] []]; intro H;
    try discriminate H; reflexivity.
Qed.

Lemma toLowerCase_amount (a : string) :
  Str.forallb AmountInput.amountChar a = true -> Str.toLowerCase a = a.
Proof.
  induction a as [|c a IH]; intro H; [reflexivity|].
  cbn [Str.forallb] in H. apply andb_true_iff in H. destruct H as [Hc Ha].
  cbn [Str.toLowerCase]. rewrite (lower_char_amount c Hc), (IH Ha).
  reflexivity.
Qed.

(** Search a text that begins with a literal: the search runs through
    the literal by computation, passes the amount, and is decided on the
    rest by running it. *)
Ltac search_text Ha :=
  repeat match goal with
         | |- context [Str.includes ?n (?lit ++ (?a ++ ?b))] =>
             first
               [ change (Str.includes n (lit ++ (a ++ b))) with true
               | change (Str.includes n (lit ++ (a ++ b)))
                   with (Str.includes n (a ++ b)) ]
         end;
  repeat match goal with
         | |- context [Str.includes (String ?n0 ?n) (?a ++ ?b)] =>
             rewrite (includes_past n0 n a b eq_refl Ha)
         end;
  repeat match goal with
         | |- context [Str.includes ?n ?t] =>
             let v := eval vm_compute in (Str.includes n t) in
             change (Str.includes n t) with v
         end;
  cbn [orb andb].

Ltac lower_text Ha :=
  rewrite !toLowerCase_append, (toLowerCase_amount _ Ha);
  repeat match goal with
         | |- context [Str.toLowerCase ?t] =>
             let v := eval vm_compute in (Str.toLowerCase t) in
             change (Str.toLowerCase t) with v
         end.

Lemma deposit_text_classified (amount : string) :
  Str.forallb AmountInput.amountChar amount = true ->
  MessageState.typeOf ("Deposit of " ++ amount
                       ++ " USDC completed successfully!")
  = MessageState.Success
  /\ MessageState.categoryOf ("Deposit of " ++ amount
                              ++ " USDC completed successfully!")
     = MessageState.Deposit.
Proof.
  intro Ha. split.
  - unfold MessageState.typeOf. search_text Ha. reflexivity.
  - unfold MessageState.categoryOf. cbv zeta. lower_text Ha.
    search_text Ha. reflexivity.
Qed.

Lemma withdrawal_text_classified (amount : string) :
  Str.forallb AmountInput.amountChar amount = true ->
  MessageState.typeOf ("Withdrawal of " ++ amount
                       ++ " USDC completed successfully!")
  = MessageState.Success
  /\ MessageState.categoryOf ("Withdrawal of " ++ amount
                              ++ " USDC completed successfully!")
     = MessageState.Withdraw.
Proof.
  intro Ha. split.
  - unfold MessageState.typeOf. search_text Ha. reflexivity.
  - unfold MessageState.categoryOf. cbv zeta. lower_text Ha.
    search_text Ha. reflexivity.
Qed.

(** X25: how the message state provider reads the balance component's
    messages.  It classifies a transaction message by the words of its
    text, not by its status.  For every amount the amount field can hold
    (digits and points), the watcher's announcement of a completed
    deposit is read as a success of category deposit, and that of a
    completed withdrawal as a success of category withdraw; both are
    marked persistent with priority 90, and the auto-hide timer never
    drops them.  The pending text shown while the oracle's signature is
    awaited holds none of the words the provider looks for: it is read as
    plain information, not as loading, is not persistent, and the
    auto-hide timer drops it once it is five seconds old. *)
Theorem completion_messages_persist
        (amount key newId : string) (hash : option string)
        (chain : option Z) (now shownAt : Z) :
  Str.forallb AmountInput.amountChar amount = true ->
  let announced (text : string) :=
    TransactionStatus.stamped
      {| Orchestrator.type := Orchestrator.Success;
         Orchestrator.message := text;
         Orchestrator.txHash := hash;
         Orchestrator.messageChainId := chain |} key now in
  let depositText := "Deposit of " ++ amount ++ " USDC completed successfully!" in
  let withdrawalText :=
    "Withdrawal of " ++ amount ++ " USDC completed successfully!" in
  let waiting :=
    TransactionStatus.stamped
      (Orchestrator.pendingMessage "Getting cross-chain signature...")
      "deposit-pending" now in
  MessageState.draftOf (announced depositText)
  = {| MessageState.draftType := MessageState.Success;
       MessageState.draftCategory := MessageState.Deposit;
       MessageState.draftContent := depositText;
       MessageState.draftPersistent := Some true;
       MessageState.draftPriority := 90 |}
  /\ MessageState.draftOf (announced withdrawalText)
     = {| MessageState.draftType := MessageState.Success;
          MessageState.draftCategory := MessageState.Withdraw;
          MessageState.draftContent := withdrawalText;
          MessageState.draftPersistent := Some true;
          MessageState.draftPriority := 90 |}
  /\ (forall clock prev m,
         m = MessageState.activate
               (MessageState.draftOf (announced depositText)) newId shownAt
         \/ m = MessageState.activate
                  (MessageState.draftOf (announced withdrawalText))
                  newId shownAt ->
         In m prev -> In m (MessageState.autoHide clock prev))
  /\ MessageState.draftOf waiting
     = {| MessageState.draftType := MessageState.Info;
          MessageState.draftCategory := MessageState.Deposit;
          MessageState.draftContent := "Getting cross-chain signature...";
          MessageState.draftPersistent := Some false;
          MessageState.draftPriority := 60 |}
  /\ (forall clock,
         5000 <= clock - shownAt ->
         MessageState.autoHide clock
           [MessageState.activate (MessageState.draftOf waiting)
              newId shownAt] = []).
Proof.
  intro Ha. cbv zeta.
  destruct (deposit_text_classified amount Ha) as [Dt Dc].
  destruct (withdrawal_text_classified amount Ha) as [Wt Wc].
  assert (forall t c text,
             MessageState.typeOf text = t -> MessageState.categoryOf text = c ->
             MessageState.draftOf
               (TransactionStatus.stamped
                  {| Orchestrator.type := Orchestrator.Success;
                     Orchestrator.message := text;
                     Orchestrator.txHash := hash;
                     Orchestrator.messageChainId := chain |} key now)
             = {| MessageState.draftType := t;
                  MessageState.draftCategory := c;
                  MessageState.draftContent := text;
                  MessageState.draftPersistent :=
                    Some (MessageState.MessageType_eqb t MessageState.Loading
                          || MessageState.MessageType_eqb t
                               MessageState.Success);
                  MessageState.draftPriority :=
                    MessageState.calculatePriority t c |}) as Draft.
  { intros t c text <- <-. reflexivity. }
  rewrite (Draft _ _ _ Dt Dc), (Draft _ _ _ Wt Wc).
  split; [reflexivity|]. split; [reflexivity|]. split; [|split].
  - intros clock prev m Hm Hin. unfold MessageState.autoHide.
    apply filter_In. split; [exact Hin|].
    destruct Hm as [-> | ->]; reflexivity.
  - reflexivity.
  - intros clock Old. unfold MessageState.autoHide.
    cbn [List.filter MessageState.activate MessageState.isPersistent
         MessageState.persistent MessageState.type MessageState.category
         MessageState.timestamp].
    change (MessageState.draftOf
              (TransactionStatus.stamped
                 (Orchestrator.pendingMessage
                    "Getting cross-chain signature...")
                 "deposit-pending" now))
      with {| MessageState.draftType := MessageState.Info;
              MessageState.draftCategory := MessageState.Deposit;
              MessageState.draftContent := "Getting cross-chain signature...";
              MessageState.draftPersistent := Some false;
              MessageState.draftPriority := 60 |}.
    cbn [MessageState.draftType MessageState.draftCategory
         MessageState.draftPersistent MessageState.MessageType_eqb
         MessageState.MessageCategory_eqb orb].
    assert ((clock - shownAt <? 5000) = false) as T
        by (apply Z.ltb_ge; exact Old).
    rewrite T. reflexivity.
Qed.

Lemma completion_messages_persist_witness :
  MessageState.draftOf
    (TransactionStatus.stamped
       {| Orchestrator.type := Orchestrator.Success;
          Orchestrator.message :=
            "Deposit of " ++ "10" ++ " USDC completed successfully!";
          Orchestrator.txHash := Some "0xdeposit";
          Orchestrator.messageChainId := Some 421614 |}
       "deposit-success" 0)
  = {| MessageState.draftType := MessageState.Success;
       MessageState.draftCategory := MessageState.Deposit;
       MessageState.draftContent :=
         "Deposit of " ++ "10" ++ " USDC completed successfully!";
       MessageState.draftPersistent := Some true;
       MessageState.draftPriority := 90 |}.
Proof.
  refine (proj1
            (completion_messages_persist "10" "deposit-success" "m"
               (Some "0xdeposit") (Some 421614) 0 0 _)).
  reflexivity.
Defined.

(** ** The message state provider *)

Lemma insertByPriority_perm (x : MessageState.ActiveMessage)
      (l : list MessageState.ActiveMessage) :
  Permutation (MessageState.insertByPriority x l) (x :: l).
Proof.
  induction l as [|y l IH]; cbn [MessageState.insertByPriority];
    [apply Permutation_refl|].
  destruct (MessageState.priority y - MessageState.priority x <=? 0);
    [apply Permutation_refl|].
  eapply Permutation_trans; [apply perm_skip; exact IH | apply perm_swap].
Qed.

Lemma sortByPriority_perm (l : list MessageState.ActiveMessage) :
  Permutation (MessageState.sortByPriority l) l.
Proof.
  induction l as [|x l IH]; [apply Permutation_refl|].
  cbn [MessageState.sortByPriority fold_right].
  eapply Permutation_trans; [apply insertByPriority_perm|].
  apply perm_skip. exact IH.
Qed.

Lemma insertByPriority_descending (x : MessageState.ActiveMessage)
      (l : list MessageState.ActiveMessage) :
  Order.descendingBy MessageState.priority l ->
  Order.descendingBy MessageState.priority (MessageState.insertByPriority x l).
Proof.
  induction l as [|y l IH]; intro D.
  - cbn. split; [intros z []|exact I].
  - cbn [MessageState.insertByPriority]. destruct D as [Dy Dl].
    destruct (MessageState.priority y - MessageState.priority x <=? 0) eqn:E.
    + apply Z.leb_le in E. split; [|split; assumption].
      intros z [<- | Hz]; [lia|]. specialize (Dy z Hz). lia.
    + apply Z.leb_gt in E. split; [|apply IH, Dl].
      intros z Hz.
      apply (Permutation_in z (insertByPriority_perm x l)) in Hz.
      destruct Hz as [<- | Hz]; [lia | apply Dy, Hz].
Qed.

Lemma sortByPriority_descending (l : list MessageState.ActiveMessage) :
  Order.descendingBy MessageState.priority (MessageState.sortByPriority l).
Proof.
  induction l as [|x l IH]; [exact I|].
  apply insertByPriority_descending, IH.
Qed.

Lemma MessageCategory_eqb_eq (a b : MessageState.MessageCategory) :
  MessageState.MessageCategory_eqb a b = true <-> a = b.
Proof. destruct a, b; cbn; split; intro H; try discriminate; reflexivity. Qed.

(** X22: [addMessage] of the message state provider.  The list it leaves
    is in descending order of priority, so the primary message has the
    highest priority of all; it holds the new message, every earlier
    message of another category and every earlier message marked
    persistent, and nothing else -- an earlier message of the same
    category that is not marked persistent is replaced.  A priority lies
    between 40 and 110. *)
Theorem addMessage_orders_and_replaces
        (message : MessageState.Draft) (newId : string) (now : Z)
        (prev : list MessageState.ActiveMessage) :
  let added := MessageState.activate message newId now in
  let next := MessageState.addMessage message newId now prev in
  Order.descendingBy MessageState.priority next
  /\ (forall p, MessageState.primaryMessage next = Some p ->
                forall m, In m next ->
                          MessageState.priority m <= MessageState.priority p)
  /\ (forall m,
         In m next
         <-> m = added
             \/ (In m prev
                 /\ (MessageState.category m <> MessageState.draftCategory message
                     \/ MessageState.persistent m = Some true)))
  /\ 40 <= MessageState.priority added <= 110.
Proof.
  cbv zeta. unfold MessageState.addMessage.
  split; [apply sortByPriority_descending|]. split; [|split].
  - intros p Hp m Hm.
    pose proof (sortByPriority_descending
                  (List.filter
                     (fun msg =>
                        negb (MessageState.MessageCategory_eqb
                                (MessageState.category msg)
                                (MessageState.draftCategory message))
                        || MessageState.isPersistent msg) prev
                   ++ [MessageState.activate message newId now])%list) as D.
    destruct (MessageState.sortByPriority _) as [|q rest];
      [discriminate Hp|].
    cbn in Hp. injection Hp as <-. destruct D as [Dq _].
    destruct Hm as [<- | Hm]; [lia | apply Dq, Hm].
  - intro m. split.
    + intro Hm. apply (Permutation_in m (sortByPriority_perm _)) in Hm.
      apply in_app_or in Hm. destruct Hm as [Hm | [<- | []]];
        [|left; reflexivity].
      apply filter_In in Hm. destruct Hm as [Hin T]. right.
      split; [exact Hin|]. apply orb_prop in T. destruct T as [T | T].
      * left. intro Same. apply MessageCategory_eqb_eq in Same.
        rewrite Same in T. discriminate T.
      * right. unfold MessageState.isPersistent in T.
        destruct (MessageState.persistent m) as [[|]|];
          try discriminate T. reflexivity.
    + intro Hm.
      apply (Permutation_in m (Permutation_sym (sortByPriority_perm _))).
      apply in_or_app. destruct Hm as [-> | [Hin T]];
        [right; left; reflexivity|].
      left. apply filter_In. split; [exact Hin|].
      destruct T as [T | T].
      * destruct (MessageState.MessageCategory_eqb _ _) eqn:E;
          [|reflexivity].
        apply MessageCategory_eqb_eq in E. contradiction.
      * unfold MessageState.isPersistent. rewrite T. apply orb_true_r.
  - cbn [MessageState.activate MessageState.priority].
    destruct (MessageState.draftType message),
      (MessageState.draftCategory message); cbn; lia.
Qed.

(** ** The welcome cards *)

(** X20: a commit in which the welcome-card effect runs -- the
    connection, the address or [hasDeposits] changed, or the provider
    mounted -- never leaves both the welcome card and the welcome-back
    card switched on, whatever the cells held before and whatever the
    account shows. *)
Theorem welcome_cards_exclusive
        (d : Welcome.Changed) (r : Welcome.State) (a : Welcome.Account) :
  Welcome.isConnectedChanged d || Welcome.hasDepositsChanged d
  || Welcome.addressChanged d = true ->
  Welcome.showWelcome (Welcome.commit d r a)
  && Welcome.showWelcomeBack (Welcome.commit d r a) = false.
Proof.
  intro Runs. unfold Welcome.commit.
  assert (Welcome.addressChanged d || Welcome.isConnectedChanged d
          || Welcome.hasDepositsChanged d || Welcome.vaultSharesChanged d
          = true) as Runs'.
  { destruct (Welcome.addressChanged d), (Welcome.isConnectedChanged d),
      (Welcome.hasDepositsChanged d); try reflexivity; discriminate Runs. }
  rewrite Runs, Runs'. cbn [Welcome.runIf].
  unfold Welcome.welcomeBack, Welcome.welcomeCard.
  destruct (Welcome.isConnected a), (Welcome.hasAddress a),
    (Welcome.hasDeposits r); cbn [negb orb andb];
    try reflexivity;
    destruct (Welcome.vaultShares a) as [shares|]; try reflexivity;
    destruct (shares =? 0); reflexivity.
Qed.

Lemma welcome_cards_exclusive_witness :
  Welcome.showWelcome
    (Welcome.mount {| Welcome.address := Some Env.account;
                      Welcome.isConnected := true;
                      Welcome.chainId := Some 421614;
                      Welcome.vaultShares := Some 5000000 |})
  && Welcome.showWelcomeBack
       (Welcome.mount {| Welcome.address := Some Env.account;
                         Welcome.isConnected := true;
                         Welcome.chainId := Some 421614;
                         Welcome.vaultShares := Some 5000000 |}) = false.
Proof.
  apply (welcome_cards_exclusive Welcome.everything Welcome.initial).
  reflexivity.
Defined.



(** ** The activity panel *)

Lemma tick_counts_down (t : Activity.TimeRemaining) :
  0 <= Activity.minutes t <= 59 -> 0 <= Activity.hours t ->
  0 < Activity.minutesLeft t ->
  Activity.minutesLeft (Activity.tick t) = Activity.minutesLeft t - 1
  /\ 0 <= Activity.minutes (Activity.tick t) <= 59
  /\ 0 <= Activity.hours (Activity.tick t).
Proof.
  unfold Activity.minutesLeft, Activity.tick. intros M H L.
  destruct (0 <? Activity.minutes t) eqn:E1.
  - apply Z.ltb_lt in E1. cbn [Activity.hours Activity.minutes]. lia.
  - apply Z.ltb_ge in E1. destruct (0 <? Activity.hours t) eqn:E2.
    + apply Z.ltb_lt in E2. cbn [Activity.hours Activity.minutes]. lia.
    + apply Z.ltb_ge in E2. lia.
Qed.

Lemma ticks_to_reset (n : nat) (t : Activity.TimeRemaining) :
  0 <= Activity.minutes t <= 59 -> 0 <= Activity.hours t ->
  Activity.minutesLeft t = Z.of_nat n ->
  Activity.ticks (S n) t = Activity.initialTime.
Proof.
  revert t. induction n as [|n IH]; intros t M H L.
  - cbn [Activity.ticks]. unfold Activity.tick, Activity.minutesLeft in *.
    destruct (0 <? Activity.minutes t) eqn:E1;
      [apply Z.ltb_lt in E1; lia|].
    destruct (0 <? Activity.hours t) eqn:E2;
      [apply Z.ltb_lt in E2; lia | reflexivity].
  - change (Activity.ticks (S (S n)) t)
      with (Activity.ticks (S n) (Activity.tick t)).
    destruct (tick_counts_down t M H ltac:(lia)) as [L' [M' H']].
    apply IH; [exact M' | exact H' | lia].
Qed.

(** X23: the rebalance countdown is a proper clock.  From any time it
    can show -- minutes between 0 and 59, hours not negative -- a tick
    takes exactly one minute off while time is left, keeping the minutes
    between 0 and 59, and the tick after 0h 0m starts over at 1h 25m; so
    the display is back at 1h 25m after one more tick than there are
    minutes left, and every 86 ticks from then on. *)
Theorem countdown_counts_and_restarts (t : Activity.TimeRemaining) :
  0 <= Activity.minutes t <= 59 -> 0 <= Activity.hours t ->
  (0 < Activity.minutesLeft t ->
   Activity.minutesLeft (Activity.tick t) = Activity.minutesLeft t - 1
   /\ 0 <= Activity.minutes (Activity.tick t) <= 59
   /\ 0 <= Activity.hours (Activity.tick t))
  /\ Activity.ticks (S (Z.to_nat (Activity.minutesLeft t))) t
     = Activity.initialTime
  /\ Activity.ticks 86 Activity.initialTime = Activity.initialTime.
Proof.
  intros M H. split; [apply tick_counts_down; assumption|].
  split; [|reflexivity].
  apply ticks_to_reset; [exact M | exact H|].
  unfold Activity.minutesLeft. lia.
Qed.

Lemma countdown_counts_and_restarts_witness :
  Activity.ticks (S (Z.to_nat (Activity.minutesLeft
                                 {| Activity.hours := 0;
                                    Activity.minutes := 7 |})))
    {| Activity.hours := 0; Activity.minutes := 7 |}
  = Activity.initialTime.
Proof.
  refine (proj1 (proj2
            (countdown_counts_and_restarts
               {| Activity.hours := 0; Activity.minutes := 7 |} _ _)));
    cbn [Activity.hours Activity.minutes]; lia.
Defined.

Section ActivityFacts.

Import Activity.

Variable toISOString : Z -> string.

Lemma uniqueTransactions_fresh
      (seen : list string) (l : list TransactionStatus.StatusMessage) :
  NoDup (map TransactionStatus.txHash (uniqueTransactions seen l))
  /\ forall tx, In tx (uniqueTransactions seen l) ->
       In tx l
       /\ exists hash,
            TransactionStatus.txHash tx = Some hash
            /\ hash <> "" /\ ~ In hash seen.
Proof.
  revert seen. induction l as [|tx l IH]; intro seen.
  - split; [constructor | intros tx []].
  - cbn [uniqueTransactions].
    destruct (Orchestrator.truthyString (TransactionStatus.txHash tx))
      as [hash|] eqn:T.
    + assert (TransactionStatus.txHash tx = Some hash /\ hash <> "") as [Eh Ne].
      { unfold Orchestrator.truthyString in T.
        destruct (TransactionStatus.txHash tx) as [x|]; [|discriminate T].
        destruct x as [|ch x]; [discriminate T|].
        cbn in T. injection T as <-. split; [reflexivity | discriminate]. }
      destruct (existsb (String.eqb hash) seen) eqn:E.
      * destruct (IH seen) as [ND In']. split; [exact ND|].
        intros tx' Hin. destruct (In' tx' Hin) as [Hl Hh].
        split; [right; exact Hl | exact Hh].
      * destruct (IH (hash :: seen)) as [ND In']. split.
        -- cbn [map]. constructor; [|exact ND].
           intro Hin. apply in_map_iff in Hin.
           destruct Hin as [tx' [Htx' Hin]].
           destruct (In' tx' Hin) as [_ [hash' [Eh' [_ Fresh]]]].
           apply Fresh. left. rewrite Eh in Htx'. rewrite Eh' in Htx'.
           injection Htx' as ->. reflexivity.
        -- intros tx' [<- | Hin].
           ++ split; [left; reflexivity|]. exists hash.
              repeat split; [exact Eh | exact Ne|].
              intro Hin. assert (existsb (String.eqb hash) seen = true) as X.
              { apply existsb_exists. exists hash.
                split; [exact Hin | apply String.eqb_refl]. }
              rewrite X in E. discriminate E.
           ++ destruct (In' tx' Hin) as [Hl [hash' [Eh' [Ne' Fresh]]]].
              split; [right; exact Hl|]. exists hash'.
              repeat split; [exact Eh' | exact Ne'|].
              intro Hs. apply Fresh. right. exact Hs.
    + destruct (IH seen) as [ND In']. split; [exact ND|].
      intros tx' Hin. destruct (In' tx' Hin) as [Hl Hh].
      split; [right; exact Hl | exact Hh].
Qed.

Lemma converted_In (l : list TransactionStatus.StatusMessage)
      (a : ActivityEntry) :
  In a (present (map (convertMessageToActivity toISOString) l)) ->
  exists tx, In tx l /\ convertMessageToActivity toISOString tx = Some a.
Proof.
  induction l as [|tx l IH]; [intros []|]. cbn [map present].
  destruct (convertMessageToActivity toISOString tx) as [b|] eqn:E.
  - intros [<- | Hin].
    + exists tx. split; [left; reflexivity | exact E].
    + destruct (IH Hin) as [tx' [Hl Ht]]. exists tx'.
      split; [right; exact Hl | exact Ht].
  - intro Hin. destruct (IH Hin) as [tx' [Hl Ht]]. exists tx'.
    split; [right; exact Hl | exact Ht].
Qed.

Lemma converted_hash (tx : TransactionStatus.StatusMessage)
      (a : ActivityEntry) :
  convertMessageToActivity toISOString tx = Some a ->
  transactionHash a = TransactionStatus.txHash tx
  /\ title a = TransactionStatus.message tx
  /\ Str.includes "approval" (Str.toLowerCase (title a)) = false
  /\ type a = (if Str.includes "withdraw" (Str.toLowerCase (title a))
               then WITHDRAWAL else DEPOSIT).
Proof.
  unfold convertMessageToActivity. cbv zeta.
  destruct (Str.includes "approval"
              (Str.toLowerCase (TransactionStatus.message tx))) eqn:A;
    [discriminate|].
  intro H. injection H as <-. cbn [transactionHash title type].
  repeat split. exact A.
Qed.

Lemma converted_NoDup (l : list TransactionStatus.StatusMessage) :
  NoDup (map TransactionStatus.txHash l) ->
  NoDup (map transactionHash
             (present (map (convertMessageToActivity toISOString) l))).
Proof.
  induction l as [|tx l IH]; intro ND; [constructor|].
  cbn [map] in ND. inversion ND as [|? ? Hx ND']; subst.
  cbn [map present].
  destruct (convertMessageToActivity toISOString tx) as [a|] eqn:E;
    [|apply IH, ND'].
  cbn [map]. constructor; [|apply IH, ND'].
  intro Hin. apply in_map_iff in Hin. destruct Hin as [b [Hb Hin]].
  destruct (converted_In l b Hin) as [tx' [Hl Ht]].
  destruct (converted_hash tx a E) as [Ha _].
  destruct (converted_hash tx' b Ht) as [Hb' _].
  apply Hx. apply in_map_iff. exists tx'. split; [|exact Hl].
  rewrite <- Hb', Hb, Ha. reflexivity.
Qed.

End ActivityFacts.

(** X24: the recent transactions listed in the activity panel.  Whatever
    the status provider holds -- the same transaction among the active
    messages and in the persisted history, several messages under one
    hash -- the activities drawn from it carry pairwise distinct
    transaction hashes, each of them non-empty; each activity stems from
    a message of the provider and shows its text as title; none stems
    from a message that mentions an approval; and it is a withdrawal
    exactly when its text mentions one, a deposit otherwise. *)
Theorem recent_activities_are_distinct
        (toISOString : Z -> string) (s : TransactionStatus.State) :
  let activities :=
    Activity.getRecentTransactionActivities toISOString s in
  NoDup (map Activity.transactionHash activities)
  /\ forall a, In a activities ->
       (exists hash, Activity.transactionHash a = Some hash /\ hash <> "")
       /\ (exists tx,
              (In tx (TransactionStatus.messages s)
               \/ In tx (TransactionStatus.persistedTransactions s))
              /\ Activity.title a = TransactionStatus.message tx
              /\ Activity.transactionHash a = TransactionStatus.txHash tx)
       /\ Str.includes "approval" (Str.toLowerCase (Activity.title a)) = false
       /\ Activity.type a
          = (if Str.includes "withdraw" (Str.toLowerCase (Activity.title a))
             then Activity.WITHDRAWAL else Activity.DEPOSIT).
Proof.
  cbv zeta. unfold Activity.getRecentTransactionActivities.
  set (all := (List.filter _ (TransactionStatus.messages s)
               ++ TransactionStatus.persistedTransactions s)%list).
  destruct (uniqueTransactions_fresh [] all) as [ND Fresh].
  split; [apply converted_NoDup, ND|].
  intros a Hin.
  destruct (converted_In toISOString _ a Hin) as [tx [Hu Hc]].
  destruct (Fresh tx Hu) as [Hall [hash [Eh [Ne _]]]].
  destruct (converted_hash toISOString tx a Hc) as [Ha [Ht [Hn Hty]]].
  split; [exists hash; split; [rewrite Ha; exact Eh | exact Ne]|].
  split; [|split; assumption].
  exists tx. split; [|split; assumption].
  unfold all in Hall. apply in_app_or in Hall.
  destruct Hall as [Hm | Hp]; [left | right; exact Hp].
  apply filter_In in Hm. apply Hm.
Qed.

(** ** The NEAR contract reader *)

Lemma bytes_round_trip :
  forallb Near.byteRoundTrips (map Z.of_nat (seq 0 256)) = true.
Proof. vm_compute. reflexivity. Qed.

Lemma hexByte_two_digits (b : Z) :
  Near.isByte b ->
  exists hi lo h l,
    Near.hexByte b = String hi (String lo EmptyString)
    /\ Near.hexValue hi = Some h /\ Near.hexValue lo = Some l
    /\ 16 * h + l = b.
Proof.
  intros [Lo Hi].
  assert (In b (map Z.of_nat (seq 0 256))) as Hin.
  { apply in_map_iff. exists (Z.to_nat b). split; [lia|].
    apply in_seq. lia. }
  pose proof (proj1 (forallb_forall _ _) bytes_round_trip b Hin) as T.
  unfold Near.byteRoundTrips in T.
  destruct (Near.hexByte b) as [|hi [|lo [|? ?]]] eqn:E; try discriminate T.
  destruct (Near.hexValue hi) as [h|] eqn:Hh; [|discriminate T].
  destruct (Near.hexValue lo) as [l|] eqn:Hl; [|discriminate T].
  apply Z.eqb_eq in T. exists hi, lo, h, l. repeat split; trivial.
Qed.

Lemma hex_of_bytes (bytes : list Z) :
  Forall Near.isByte bytes ->
  Near.bytesOfHex (Str.join (map Near.hexByte bytes)) = Some bytes
  /\ String.length (Str.join (map Near.hexByte bytes))
     = (2 * List.length bytes)%nat.
Proof.
  induction 1 as [|b bytes Hb _ [IH1 IH2]]; [split; reflexivity|].
  destruct (hexByte_two_digits b Hb) as [hi [lo [h [l [E [Hh [Hl Hv]]]]]]].
  cbn [map Str.join fold_right]. rewrite E.
  change (fold_right append EmptyString (map Near.hexByte bytes))
    with (Str.join (map Near.hexByte bytes)).
  cbn [append Near.bytesOfHex String.length List.length].
  rewrite Hh, Hl, IH1, IH2, Hv. split; [reflexivity | lia].
Qed.

(** X18: the hexadecimal form of a signed transaction loses nothing.
    For a payload of bytes, [getSignedTransactions] takes the first
    byte as the payload type and renders the remaining bytes as two
    lower-case hexadecimal digits each: the text has twice as many
    characters as there are bytes, and reading it back two digits at a
    time gives exactly those bytes, so payloads that differ after their
    first byte get different texts. *)
Theorem raw_transaction_round_trip (first : Z) (rest rest' : list Z) :
  Forall Near.isByte rest ->
  Forall Near.isByte rest' ->
  exists tx tx',
    Near.signedTransaction (first :: rest) = Some tx
    /\ Near.signedTransaction (first :: rest') = Some tx'
    /\ Near.payload_type tx = first
    /\ String.length (Near.raw_transaction tx) = (2 * List.length rest)%nat
    /\ Near.bytesOfHex (Near.raw_transaction tx) = Some rest
    /\ (Near.raw_transaction tx = Near.raw_transaction tx' -> rest = rest').
Proof.
  intros B B'.
  destruct (hex_of_bytes rest B) as [R L].
  destruct (hex_of_bytes rest' B') as [R' _].
  eexists. eexists. split; [reflexivity|]. split; [reflexivity|].
  cbn [Near.payload_type Near.raw_transaction].
  repeat split; try assumption.
  intro Same. rewrite Same, R' in R. injection R as <-. reflexivity.
Qed.

Lemma raw_transaction_round_trip_witness :
  exists tx tx',
    Near.signedTransaction [1; 0; 171; 255] = Some tx
    /\ Near.signedTransaction [1; 0; 171] = Some tx'
    /\ Near.payload_type tx = 1
    /\ String.length (Near.raw_transaction tx) = (2 * 3)%nat
    /\ Near.bytesOfHex (Near.raw_transaction tx) = Some [0; 171; 255]
    /\ (Near.raw_transaction tx = Near.raw_transaction tx' ->
        [0; 171; 255] = [0; 171]).
Proof.
  apply (raw_transaction_round_trip 1 [0; 171; 255] [0; 171]);
    repeat constructor; unfold Near.isByte; lia.
Defined.

Lemma transactionsOf_In (rawPayloads : list (list Z))
      (tx : Near.SignedTransaction) :
  In tx (Near.transactionsOf rawPayloads)
  <-> exists first rest,
        In (first :: rest) rawPayloads
        /\ tx = {| Near.payload_type := first;
                   Near.raw_transaction := Str.join (map Near.hexByte rest) |}.
Proof.
  induction rawPayloads as [|payload raw IH]; cbn [Near.transactionsOf].
  - split; [intros [] | intros [first [rest [[] _]]]].
  - destruct payload as [|first rest]; cbn [Near.signedTransaction].
    + rewrite IH. split; intros [f [r [Hin E]]]; exists f, r;
        (split; [|exact E]).
      * right. exact Hin.
      * destruct Hin as [Hin | Hin]; [discriminate Hin | exact Hin].
    + cbn [In]. rewrite IH. split.
      * intros [<- | [f [r [Hin E]]]].
        -- exists first, rest. split; [left; reflexivity | reflexivity].
        -- exists f, r. split; [right; exact Hin | exact E].
      * intros [f [r [[Hin | Hin] E]]].
        -- injection Hin as <- <-. left. symmetry. exact E.
        -- right. exists f, r. split; assumption.
Qed.

(** X19: what the NEAR reader hands on.  The pending Ethereum
    transactions are exactly the non-empty payloads whose first byte is
    1, each with the rest of the payload in hexadecimal; the cross-chain
    activity is exactly the logs whose source and destination chains
    differ.  When the request is rejected, the RPC answers with an
    error or the result is missing, both listings come back empty
    instead of throwing, and the connection test answers false. *)
Theorem near_reader_listings
        (parsePayloads : list Z -> Result (list (list Z)))
        (parseLogs : list Z -> Result (list Near.ActivityLog))
        (parseAllocations : list Z -> Result (list (Z * string)))
        (fetched : Result Near.RpcResponse) :
  (forall tx,
      In tx (Near.getPendingEthereumTransactions parsePayloads fetched)
      <-> exists rawPayloads rest,
            Near.viewMethod parsePayloads fetched = Ok rawPayloads
            /\ In (1 :: rest) rawPayloads
            /\ tx = {| Near.payload_type := 1;
                       Near.raw_transaction :=
                         Str.join (map Near.hexByte rest) |})
  /\ (forall log,
         In log (Near.getCrossChainActivity parseLogs fetched)
         <-> exists logs,
               Near.viewMethod parseLogs fetched = Ok logs
               /\ In log logs
               /\ Near.source_chain log <> Near.destination_chain log)
  /\ ((exists e, fetched = Throw e)
      \/ (exists data m, fetched = Ok data /\ Near.error data = Some m)
      \/ (exists data, fetched = Ok data /\ Near.result data = None) ->
      Near.getPendingEthereumTransactions parsePayloads fetched = []
      /\ Near.getCrossChainActivity parseLogs fetched = []
      /\ Near.testConnection parseAllocations fetched = false).
Proof.
  split; [|split].
  - intro tx. unfold Near.getPendingEthereumTransactions,
      Near.getSignedTransactions.
    destruct (Near.viewMethod parsePayloads fetched) as [raw|e].
    + rewrite filter_In, transactionsOf_In. split.
      * intros [[first [rest [Hin ->]]] T]. cbn in T.
        apply Z.eqb_eq in T. subst first.
        exists raw, rest. repeat split; [exact Hin].
      * intros [raw' [rest [E [Hin ->]]]]. injection E as <-.
        split; [exists 1, rest; split; [exact Hin | reflexivity]|].
        reflexivity.
    + split; [intros [] | intros [raw [rest [E _]]]; discriminate E].
  - intro log. unfold Near.getCrossChainActivity, Near.getLatestLogs.
    destruct (Near.viewMethod parseLogs fetched) as [logs|e].
    + rewrite filter_In. split.
      * intros [Hin T]. exists logs. repeat split; [exact Hin|].
        intro Same. rewrite Same, Z.eqb_refl in T. discriminate T.
      * intros [logs' [E [Hin Ne]]]. injection E as <-.
        split; [exact Hin|]. apply negb_true_iff, Z.eqb_neq, Ne.
    + split; [intros [] | intros [logs [E _]]; discriminate E].
  - intro Bad.
    assert (forall (A : Type) (parse : list Z -> Result A),
               exists e, Near.viewMethod parse fetched = Throw e) as Fails.
    { intros A parse. unfold Near.viewMethod.
      destruct Bad as [[e ->] | [[data [m [-> E]]] | [data [-> N]]]].
      - exists e. reflexivity.
      - rewrite E. eexists. reflexivity.
      - rewrite N. destruct (Near.error data); eexists; reflexivity. }
    unfold Near.getPendingEthereumTransactions, Near.getSignedTransactions,
      Near.getCrossChainActivity, Near.getLatestLogs, Near.testConnection.
    destruct (Fails _ parsePayloads) as [e1 ->].
    destruct (Fails _ parseLogs) as [e2 ->].
    destruct (Fails _ parseAllocations) as [e3 ->].
    repeat split.
Qed.

(** ** Buttons that do what they show *)

(** X26: an enabled Deposit button starts a deposit.  When the deposit
    view lets the user press Deposit, an account is connected and the
    wallet is on a chain with a deployed vault, pressing it either
    submits the approval and shows the approving step -- when the
    allowance does not cover the amount -- or requests the oracle's
    signature for the entered amount at 6 decimals and shows the
    depositing step; it is never a no-op. *)
Theorem enabled_deposit_starts
        (parseFloat : string -> float)
        (parseUnits : string -> Z -> Result Z)
        (r : Orchestrator.Component) (h : Orchestrator.Hooks)
        (c : Orchestrator.Component) (account : string) (chain : Z) :
  Orchestrator.initiateButtonEnabled parseFloat r h = true ->
  Orchestrator.truthyString (Orchestrator.address h) = Some account ->
  Orchestrator.truthyChain (Orchestrator.chainId h) = Some chain ->
  ContractReads.vaultResolves chain = true ->
  let run := Orchestrator.handleInitiateDeposit parseFloat parseUnits r h c in
  (Orchestrator.hasEnoughAllowance parseFloat parseUnits h
     (Orchestrator.depositAmount r) = false
   /\ Orchestrator.depositStep (Orchestrator.stateOf run)
      = Orchestrator.StepApproving
   /\ existsb Orchestrator.isUSDCWrite (Orchestrator.commandsOf run) = true)
  \/ (Orchestrator.hasEnoughAllowance parseFloat parseUnits h
        (Orchestrator.depositAmount r) = true
      /\ Orchestrator.depositStep (Orchestrator.stateOf run)
         = Orchestrator.StepDepositing
      /\ exists amountInWei,
           parseUnits (Orchestrator.depositAmount r) 6 = Ok amountInWei
           /\ In (Orchestrator.AwaitSignature amountInWei account chain)
                 (Orchestrator.commandsOf run)).
Proof.
  intros Enabled A C V. cbv zeta.
  unfold Orchestrator.initiateButtonEnabled in Enabled.
  apply andb_prop in Enabled. destruct Enabled as [_ Enabled].
  apply negb_true_iff in Enabled.
  apply orb_false_elim in Enabled. destruct Enabled as [Enabled _].
  apply orb_false_elim in Enabled. destruct Enabled as [Enabled Valid].
  apply orb_false_elim in Enabled. destruct Enabled as [NonEmpty _].
  apply negb_false_iff in Valid.
  unfold Orchestrator.handleInitiateDeposit. rewrite NonEmpty.
  destruct (Orchestrator.hasEnoughAllowance parseFloat parseUnits h
              (Orchestrator.depositAmount r)) eqn:Enough.
  - right. split; [reflexivity|].
    destruct (hasEnoughAllowance_covers parseFloat parseUnits h _ Enough)
      as [allowance [amountInWei [_ [P _]]]].
    unfold Orchestrator.handleConfirmDeposit.
    rewrite A, C, NonEmpty, Valid, P. run_handler. cbn.
    split; [reflexivity|]. exists amountInWei.
    split; [reflexivity|]. auto 10.
  - left. split; [reflexivity|].
    destruct (getContractAddress_returns chain V) as [vault [Ev _]].
    destruct (getUSDCAddress_resolves chain (vaultResolves_dispatched chain V))
      as [usdc [Eu _]].
    unfold Orchestrator.handleApproveUSDC.
    rewrite A, C, NonEmpty, Valid, Eu, Ev. run_handler. cbn.
    split; reflexivity.
Qed.

Lemma enabled_deposit_starts_witness :
  existsb Orchestrator.isUSDCWrite
    (Orchestrator.commandsOf
       (Env.handleInitiateDeposit (Env.depositing10 Orchestrator.StepInput)
          Env.idle (Env.depositing10 Orchestrator.StepInput))) = true.
Proof.
  destruct (enabled_deposit_starts Env.parseFloat Env.parseUnits
              (Env.depositing10 Orchestrator.StepInput) Env.idle
              (Env.depositing10 Orchestrator.StepInput) Env.account 421614
              eq_refl eq_refl eq_refl eq_refl) as [[_ [_ W]] | [E _]].
  - exact W.
  - discriminate E.
Defined.

(** X27: an account without shares cannot withdraw.  When the vault
    value the balance component is given is the one the balance
    reconciliation computes for no shares -- not read yet, or zero --
    whatever the vault's totals, the withdrawal is not allowed and
    [handleWithdraw] does nothing at all, whatever amount is entered. *)
Theorem no_shares_no_withdrawal
        (parseFloat : string -> float)
        (parseUnits : string -> Z -> Result Z)
        (r : Orchestrator.Component) (h : Orchestrator.Hooks)
        (c : Orchestrator.Component)
        (userShareBalance contractTotalAssets contractTotalSupply : option Z) :
  userShareBalance = None \/ userShareBalance = Some 0 ->
  Orchestrator.userVaultValue h
  = Reconciler.userVaultValue
      (Reconciler.reconcile userShareBalance contractTotalAssets
         contractTotalSupply) ->
  Orchestrator.canWithdraw parseFloat r h = false
  /\ Orchestrator.handleWithdraw parseFloat parseUnits r h c = (c, [], Ok tt).
Proof.
  intros S Value.
  assert (Orchestrator.userVaultValue h = 0%float) as Zero.
  { rewrite Value. unfold Reconciler.reconcile, Reconciler.reconcileNumbers.
    destruct S as [-> | ->]; reflexivity. }
  assert (Orchestrator.canWithdraw parseFloat r h = false) as Cannot.
  { unfold Orchestrator.canWithdraw, Orchestrator.hasEnoughWithdrawBalance,
      Orchestrator.withdrawableAmount.
    rewrite Zero.
    change (PrimFloat.is_nan 0 || PrimFloat.is_zero 0) with true.
    cbv iota. change (PrimFloat.ltb 0 0) with false.
    cbn [andb]. rewrite andb_false_r. reflexivity. }
  split; [exact Cannot|].
  unfold Orchestrator.handleWithdraw. rewrite Cannot. cbn [negb].
  rewrite orb_true_r.
  destruct (Orchestrator.truthyChain (Orchestrator.chainId h));
    [|reflexivity].
  destruct (Orchestrator.truthyString (Orchestrator.address h)); reflexivity.
Qed.

Lemma no_shares_no_withdrawal_witness :
  Env.handleWithdraw Env.withdrawing10 Env.idle Env.withdrawing10
  = (Env.withdrawing10, [], Ok tt).
Proof.
  refine (proj2
            (no_shares_no_withdrawal Env.parseFloat Env.parseUnits
               Env.withdrawing10 Env.idle Env.withdrawing10
               (Some 0) (Some 5000000) (Some 5000000) _ _));
    [right; reflexivity | reflexivity].
Defined.

(** ** The terms of use *)

(** X28: the terms are asked for until the current version is accepted
    and stored.  Nothing is rendered before the mount; on mount, with a
    storage that can be read, the modal is rendered exactly when the stored
    version is not the current one -- nothing stored, or another version.
    Accepting, when the storage takes the write, hides the modal, stores
    the current version and leaves the storage readable as it was, so the
    mount after a reload does not render it.  When the storage refuses the
    write, accepting throws with the modal still rendered and the stored
    item unchanged, so a reload asks again. *)
Theorem terms_are_asked_once (storage : Terms.Storage) :
  let shown := fst (Terms.mount storage Terms.initial) in
  let accepted := Terms.handleAccept storage shown in
  let after := snd (fst accepted) in
  Terms.rendered Terms.initial = false
  /\ (Terms.getItemThrows storage = None ->
      Terms.rendered shown = negb (Terms.isCurrent (Terms.item storage))
      /\ (Terms.item storage <> Some Terms.TERMS_VERSION ->
          Terms.rendered shown = true)
      /\ snd (Terms.mount storage Terms.initial) = Ok tt)
  /\ (Terms.setItemThrows storage = None ->
      Terms.rendered (fst (fst accepted)) = false
      /\ Terms.item after = Some Terms.TERMS_VERSION
      /\ snd accepted = Ok tt
      /\ (Terms.getItemThrows storage = None ->
          Terms.rendered (fst (Terms.mount after Terms.initial)) = false))
  /\ (forall e,
         Terms.setItemThrows storage = Some e ->
         fst (fst accepted) = shown
         /\ after = storage
         /\ snd accepted = Throw e
         /\ Terms.mount after Terms.initial
            = Terms.mount storage Terms.initial)
  /\ (forall e,
         Terms.getItemThrows storage = Some e ->
         Terms.rendered shown = false
         /\ snd (Terms.mount storage Terms.initial) = Throw e).
Proof.
  cbv zeta. unfold Terms.mount, Terms.handleAccept, Terms.getItem,
    Terms.setItem, Terms.rendered.
  split; [reflexivity|]. split; [|split; [|split]].
  - intros ->. cbn [fst snd].
    split; [|split].
    + destruct (Terms.isCurrent (Terms.item storage)); reflexivity.
    + intro Other.
      destruct (Terms.isCurrent (Terms.item storage)) eqn:E; [|reflexivity].
      exfalso. apply Other. unfold Terms.isCurrent in E.
      destruct (Terms.item storage) as [v|]; [|discriminate E].
      apply String.eqb_eq in E. rewrite E. reflexivity.
    + reflexivity.
  - intros ->. cbn [fst snd Terms.showModal Terms.mounted Terms.item
                    Terms.getItemThrows].
    split; [apply Bool.negb_false_iff, orb_true_r|].
    split; [reflexivity|]. split; [reflexivity|].
    intros ->. reflexivity.
  - intros e ->. cbn [fst snd]. repeat split; reflexivity.
  - intros e ->. cbn [fst snd Terms.showModal Terms.mounted Terms.initial].
    split; reflexivity.
Qed.

(** The terms at a first visit: asked, accepted, and not asked again. *)
Lemma terms_first_visit :
  let shown := fst (Terms.mount (Terms.working None) Terms.initial) in
  let accepted := Terms.handleAccept (Terms.working None) shown in
  Terms.rendered shown = true
  /\ Terms.rendered (fst (fst accepted)) = false
  /\ snd (fst accepted) = Terms.working (Some "2025-12-03")
  /\ Terms.rendered
       (fst (Terms.mount (snd (fst accepted)) Terms.initial)) = false.
Proof. cbv zeta. repeat split. Qed.
